(** * S3 automated backup handler: shallow embedding of [lambda_function.py]

    The handler receives an S3 event (a JSON document), reads two environment
    variables, asks S3 to copy the object into the backup bucket and publishes
    a notification on SNS.  Every failure is dispatched on the class of the
    Python exception by three [except] clauses, reported on SNS on a
    best-effort basis and re-raised.

    Python values are embedded as the inductive [pyval]; exceptions as the
    record [PyExn]; the local variables of [lambda_handler] as a finite map
    (so that ['x' in locals()] is a lookup); the two boto3 clients and the
    clock as the fields of the class [Platform], which thread a [World].
    Every call made to a client is appended to a trace, with its answer.

    A [str] is kept as the bytes of its UTF-8 encoding, and a lone
    surrogate, which a decoded JSON document can hold, as the three bytes of
    its generalised encoding.  Standard output encodes to UTF-8: a [print]
    raises a UnicodeEncodeError when its text holds a lone surrogate.

    What is left out: of a [print] only what can raise is kept, the division
    of line 69 and the encoding of a text of the event (lines 67, 68 and
    70); the other texts printed are literals, numbers, values of the
    environment, texts of exceptions and of answers of boto3, and the output
    of [json.dumps], all taken to be encodable; [json.dumps(event)] cannot
    fail on a decoded JSON document; a response of boto3 has the shape its
    service documents, so reading the ETag or the MessageId cannot fail;
    exceptions outside [Exception] (KeyboardInterrupt, SystemExit) are not
    caught by any clause and are not modelled. *)

From Stdlib Require Import ZArith NArith List Ascii String Bool Lia.
From Stdlib Require Import DecimalString DecimalN DecimalZ.
From stdpp Require Import base option strings gmap.

Set Warnings "-register-all".
Local Open Scope Z_scope.

(** * Part I: the embedding *)

(** ** Python values *)

(** A binary64 number, [(-1)^neg * mant * 2^expo], or a special value. *)
Inductive Float64 : Type :=
| FNan
| FInf (neg : bool)
| FFinite (neg : bool) (mant : N) (expo : Z).

(** The values a JSON document decodes to (the event), which is also all the
    handler ever binds to a local variable that it later inspects.  A [dict]
    keeps its items in insertion order; its keys are strings. *)
Inductive pyval : Type :=
| PNone
| PBool (b : bool)
| PInt (n : Z)
| PFloat (f : Float64)
| PStr (s : string)
| PList (items : list pyval)
| PDict (items : list (string * pyval)).

(** [bool(v)]: the truth value used by [if not v]. *)
Definition truthy (v : pyval) : bool :=
  match v with
  | PNone => false
  | PBool b => b
  | PInt n => negb (n =? 0)
  | PFloat FNan => true
  | PFloat (FInf _) => true
  | PFloat (FFinite _ m _) => negb (m =? 0)%N
  | PStr s => negb (String.eqb s "")
  | PList l => match l with [] => false | _ => true end
  | PDict d => match d with [] => false | _ => true end
  end.

(** [type(v).__name__] *)
Definition type_name (v : pyval) : string :=
  match v with
  | PNone => "NoneType"
  | PBool _ => "bool"
  | PInt _ => "int"
  | PFloat _ => "float"
  | PStr _ => "str"
  | PList _ => "list"
  | PDict _ => "dict"
  end.

(** ** Exceptions *)

(** Which of the handler's [except] clauses an exception instance matches:
    [except KeyError] is tried first, then [except ValueError], then
    [except Exception]. *)
Inductive ExnBase : Type :=
| IsKeyError      (* isinstance(e, KeyError) *)
| IsValueError    (* not a KeyError, but isinstance(e, ValueError) *)
| IsOtherException.

Record PyExn : Type := mkExn {
  exn_name : string;   (* type(e).__name__ *)
  exn_base : ExnBase;
  exn_str : string     (* str(e) *)
}.

Definition KeyError (shown_key : string) : PyExn := mkExn "KeyError" IsKeyError shown_key.

Definition ValueError (msg : string) : PyExn := mkExn "ValueError" IsValueError msg.

Definition IndexError (msg : string) : PyExn := mkExn "IndexError" IsOtherException msg.

Definition TypeError (msg : string) : PyExn := mkExn "TypeError" IsOtherException msg.

Definition OverflowError (msg : string) : PyExn := mkExn "OverflowError" IsOtherException msg.

(** A subclass of [ValueError]. *)
Definition UnicodeEncodeError (msg : string) : PyExn :=
  mkExn "UnicodeEncodeError" IsValueError msg.

(** The result of evaluating an expression: an exception or a value. *)
Definition result (A : Type) : Type := PyExn + A.

(** ** Numbers as text *)

(** Decimal digits of a natural number, as [str(n)] prints them. *)
Definition decimal (n : N) : string := NilZero.string_of_uint (N.to_uint n).

Definition comma : ascii := ","%char.

(** Thousands separators, on the digits in reverse order: a comma after
    every third digit that has a digit after it. *)
Fixpoint insert_commas_rev (rev_digits : list ascii) : list ascii :=
  match rev_digits with
  | a :: b :: c :: ((_ :: _) as rest) => a :: b :: c :: comma :: insert_commas_rev rest
  | _ => rev_digits
  end.

Definition group_thousands (digits : string) : string :=
  string_of_list_ascii
    (rev (insert_commas_rev (rev (list_ascii_of_string digits)))).

Definition sign_prefix (neg : bool) : string := if neg then "-" else "".

(** [format(n, ',')] for an [int]. *)
Definition format_int_grouped (n : Z) : string :=
  sign_prefix (n <? 0) +:+ group_thousands (decimal (Z.abs_N n)).

(** [str(n)] for an [int]. *)
Definition int_str (n : Z) : string := sign_prefix (n <? 0) +:+ decimal (Z.abs_N n).

(** The integer nearest to [num / den], ties to the even one ([den] > 0). *)
Definition round_half_even (num den : N) : N :=
  let q := (num / den)%N in
  match (2 * (num mod den) ?= den)%N with
  | Lt => q
  | Gt => (q + 1)%N
  | Eq => if N.even q then q else (q + 1)%N
  end.

Definition two_digits (n : N) : string :=
  decimal (n / 10 mod 10) +:+ decimal (n mod 10).

(** A finite magnitude [mant * 2^expo] in hundredths, correctly rounded. *)
Definition hundredths (mant : N) (expo : Z) : N :=
  if 0 <=? expo then (mant * 2 ^ Z.to_N expo * 100)%N
  else round_half_even (mant * 100) (2 ^ Z.to_N (- expo)).

(** [format(x, '.2f')] for a [float]: CPython prints the decimal expansion of
    the binary value correctly rounded to two places (ties to even), with
    the sign of the float, also on a zero. *)
Definition format_2f (x : Float64) : string :=
  match x with
  | FNan => "nan"
  | FInf neg => sign_prefix neg +:+ "inf"
  | FFinite neg m e =>
      let h := hundredths m e in
      sign_prefix neg +:+ decimal (h / 100) +:+ "." +:+ two_digits (h mod 100)
  end.

(** [n / 2**k] for an [int] [n] (true division): the quotient correctly
    rounded to 53 significant bits, or [OverflowError] when that is 2^1024 or
    more.  Dividing by a power of two only moves the exponent, and an integer
    quotient is never small enough to underflow. *)
Definition int_truediv_pow2 (n : Z) (k : N) : result Float64 :=
  let a := Z.abs_N n in
  let bits := N.size a in
  if (bits <=? 53)%N then inr (FFinite (n <? 0) a (- Z.of_N k))
  else
    let sh := (bits - 53)%N in
    let m := round_half_even a (2 ^ sh) in
    if (2 ^ (1024 + k) <=? m * 2 ^ sh)%N
    then inl (OverflowError "integer division result too large for a float")
    else inr (FFinite (n <? 0) m (Z.of_N sh - Z.of_N k)).

(** [x / 2**k] for a [float] [x]: never raises.  The quotient is kept exact:
    it differs from the binary64 quotient only when that one is subnormal,
    far below what two decimal places show. *)
Definition float_truediv_pow2 (x : Float64) (k : N) : Float64 :=
  match x with
  | FFinite neg m e => FFinite neg m (e - Z.of_N k)
  | _ => x
  end.

(** ** Strings as text *)

Definition squote : ascii := "'"%char.

Definition dquote : ascii := "034"%char.

Definition backslash : ascii := "\"%char.

Fixpoint has_char (c : ascii) (s : string) : bool :=
  match s with
  | EmptyString => false
  | String c' s' => Ascii.eqb c c' || has_char c s'
  end.

Definition hex_digit (n : N) : ascii :=
  if (n <? 10)%N then ascii_of_N (48 + n) else ascii_of_N (87 + n).

(** One character inside [repr(s)], [q] being the quote [repr] chose. *)
Definition repr_char (q c : ascii) : string :=
  let n := N_of_ascii c in
  if Ascii.eqb c backslash then String backslash (String backslash "")
  else if Ascii.eqb c q then String backslash (String q "")
  else if (n =? 10)%N then String backslash "n"
  else if (n =? 13)%N then String backslash "r"
  else if (n =? 9)%N then String backslash "t"
  else if (n <? 32)%N || (n =? 127)%N
       then String backslash (String "x" (String (hex_digit (n / 16)) (String (hex_digit (n mod 16)) "")))
  else String c "".

Fixpoint repr_chars (q : ascii) (s : string) : string :=
  match s with
  | EmptyString => ""
  | String c s' => repr_char q c +:+ repr_chars q s'
  end.

(** [repr(s)] for a [str] of ASCII characters: single quotes, unless the text
    has a single quote and no double quote; control characters escaped.  The
    keys the handler subscripts with are such texts. *)
Definition str_repr (s : string) : string :=
  let q := if has_char squote s && negb (has_char dquote s) then dquote else squote in
  String q (repr_chars q s) +:+ String q "".

(** All the characters of [s] are ASCII. *)
Fixpoint is_ascii (s : string) : bool :=
  match s with
  | EmptyString => true
  | String c s' => (N_of_ascii c <? 128)%N && is_ascii s'
  end.

(** ** The characters of a text *)

(** A byte that continues a character of more than one byte. *)
Definition is_continuation (c : ascii) : bool :=
  (128 <=? N_of_ascii c)%N && (N_of_ascii c <? 192)%N.

(** The continuation bytes [s] starts with, and the text after them. *)
Fixpoint continuation_bytes (s : string) : string :=
  match s with
  | String c rest => if is_continuation c then String c (continuation_bytes rest) else ""
  | EmptyString => ""
  end.

Fixpoint after_continuation (s : string) : string :=
  match s with
  | String c rest => if is_continuation c then after_continuation rest else s
  | EmptyString => ""
  end.

(** [s[n]] for an index from the start: the character, all its bytes. *)
Fixpoint char_at (n : nat) (s : string) {struct n} : option string :=
  match s with
  | EmptyString => None
  | String c rest =>
      match n with
      | O => Some (String c (continuation_bytes rest))
      | S n' => char_at n' (after_continuation rest)
      end
  end.

(** ** Text that standard output cannot encode *)

(** The surrogate [s] starts with, if any, and the text after it: the bytes
    ED A0..BF 80..BF stand for the code points D800 to DFFF. *)
Definition leading_surrogate (s : string) : option (N * string) :=
  match s with
  | String c1 (String c2 (String c3 after)) =>
      if (N_of_ascii c1 =? 237)%N && (160 <=? N_of_ascii c2)%N && (N_of_ascii c2 <? 192)%N
      then Some (53248 + (N_of_ascii c2 - 128) * 64 + (N_of_ascii c3 - 128), after)%N
      else None
  | _ => None
  end.

(** The first surrogate of [s]: its index in characters, counted from
    [position], its code point and the text after it. *)
Fixpoint find_surrogate (position : N) (s : string) : option (N * N * string) :=
  match leading_surrogate s with
  | Some (code, after) => Some (position, code, after)
  | None =>
      match s with
      | EmptyString => None
      | String c rest =>
          find_surrogate (if is_continuation c then position else position + 1)%N rest
      end
  end.

(** The number of surrogates [s] starts with. *)
Fixpoint surrogate_run (s : string) : N :=
  match s with
  | String c1 (String c2 (String c3 after)) =>
      match leading_surrogate (String c1 (String c2 (String c3 EmptyString))) with
      | Some _ => (1 + surrogate_run after)%N
      | None => 0%N
      end
  | _ => 0%N
  end.

Definition hex4 (n : N) : string :=
  String (hex_digit (n / 4096 mod 16))
    (String (hex_digit (n / 256 mod 16))
       (String (hex_digit (n / 16 mod 16)) (String (hex_digit (n mod 16)) ""))).

(** What the UTF-8 codec raises on [text], if it raises: the error names the
    first run of surrogates, one character by its code point, more by
    their first and last index. *)
Definition encode_error (text : string) : option PyExn :=
  match find_surrogate 0 text with
  | None => None
  | Some (start, code, after) =>
      let more := surrogate_run after in
      Some (UnicodeEncodeError
              (if (more =? 0)%N
               then "'utf-8' codec can't encode character '\u" +:+ hex4 code
                    +:+ "' in position " +:+ decimal start +:+ ": surrogates not allowed"
               else "'utf-8' codec can't encode characters in position " +:+ decimal start
                    +:+ "-" +:+ decimal (start + more) +:+ ": surrogates not allowed"))
  end.

(** [print(text)], of which only the exception is kept. *)
Definition print (text : string) : result unit :=
  match encode_error text with
  | Some e => inl e
  | None => inr tt
  end.

(** ** Subscription [v[i]] *)

Inductive subscript : Type :=
| SKey (k : string)
| SIdx (i : nat).

Fixpoint dict_get (d : list (string * pyval)) (k : string) : option pyval :=
  match d with
  | [] => None
  | (k', v) :: d' => if String.eqb k' k then Some v else dict_get d' k
  end.

(** [repr] of a subscript. *)
Definition subscript_repr (i : subscript) : string :=
  match i with
  | SKey k => str_repr k
  | SIdx n => decimal (N.of_nat n)
  end.

(** [v[i]] with the exceptions CPython raises (message texts of CPython
    3.12).  A dict decoded from JSON has string keys only, so an integer
    subscript is a missing key. *)
Definition getitem (v : pyval) (i : subscript) : result pyval :=
  match v, i with
  | PDict d, SKey k =>
      match dict_get d k with
      | Some x => inr x
      | None => inl (KeyError (subscript_repr i))
      end
  | PDict _, SIdx _ => inl (KeyError (subscript_repr i))
  | PList l, SIdx n =>
      match l !! n with
      | Some x => inr x
      | None => inl (IndexError "list index out of range")
      end
  | PList _, SKey _ =>
      inl (TypeError "list indices must be integers or slices, not str")
  | PStr s, SIdx n =>
      match char_at n s with
      | Some c => inr (PStr c)
      | None => inl (IndexError "string index out of range")
      end
  | PStr _, SKey _ =>
      inl (TypeError "string indices must be integers, not 'str'")
  | _, _ => inl (TypeError ("'" +:+ type_name v +:+ "' object is not subscriptable"))
  end.

(** A chain of subscriptions [v[i1][i2]...], evaluated left to right. *)
Fixpoint getpath (v : pyval) (path : list subscript) : result pyval :=
  match path with
  | [] => inr v
  | i :: rest =>
      match getitem v i with
      | inl e => inl e
      | inr x => getpath x rest
      end
  end.

(** ** The platform: boto3 clients, clock and runtime text functions *)

(** The keyword arguments of [s3_client.copy_object]. *)
Record CopyObjectRequest : Type := {
  CopySource_Bucket : pyval;
  CopySource_Key : pyval;
  Bucket : pyval;
  Key : pyval;
  ServerSideEncryption : string
}.

Record CopyObjectResponse : Type := { ETag : option string }.

(** The keyword arguments of [sns_client.publish]. *)
Record PublishRequest : Type := {
  TopicArn : pyval;
  Subject : string;
  Message : string
}.

Record PublishResponse : Type := { MessageId : string }.

Record datetime : Type := {
  year : N; month : N; day : N; hour : N; minute : N; second : N
}.

(** What the handler takes from its surroundings.  A client call maps the
    state of the world to a response or an exception and a new state. *)
Class Platform : Type := {
  World : Type;
  s3_copy_object : CopyObjectRequest -> World -> result CopyObjectResponse * World;
  sns_publish : PublishRequest -> World -> result PublishResponse * World;
  datetime_now : World -> datetime * World;
  float_repr : Float64 -> string;            (* repr(x) for a float *)
  float_format_grouped : Float64 -> string;  (* format(x, ',') for a float *)
  unicode_repr : string -> string;           (* repr(s) for a str not all ASCII *)
  json_dumps : pyval -> string
}.

(** A call made to a client, with what the client answered. *)
Inductive Call : Type :=
| CallCopyObject (req : CopyObjectRequest) (res : result CopyObjectResponse)
| CallPublish (req : PublishRequest) (res : result PublishResponse).

Definition is_copy (c : Call) : bool :=
  match c with CallCopyObject _ _ => true | CallPublish _ _ => false end.

Definition pad_left (width : nat) (s : string) : string :=
  string_of_list_ascii (repeat "0"%char (width - String.length s)) +:+ s.

(** [dt.strftime('%Y-%m-%d %H:%M:%S UTC')] *)
Definition strftime (dt : datetime) : string :=
  pad_left 4 (decimal (year dt)) +:+ "-" +:+ pad_left 2 (decimal (month dt)) +:+ "-"
  +:+ pad_left 2 (decimal (day dt)) +:+ " " +:+ pad_left 2 (decimal (hour dt)) +:+ ":"
  +:+ pad_left 2 (decimal (minute dt)) +:+ ":" +:+ pad_left 2 (decimal (second dt))
  +:+ " UTC".

Fixpoint join (sep : string) (l : list string) : string :=
  match l with
  | [] => ""
  | [x] => x
  | x :: rest => x +:+ sep +:+ join sep rest
  end.

Section Runtime.
Context `{Platform}.

(** [repr(s)] for any [str]: outside ASCII, which characters are printable
    and which are escaped is decided by the Unicode tables of the
    interpreter. *)
Definition text_repr (s : string) : string :=
  if is_ascii s then str_repr s else unicode_repr s.

(** [repr(v)] *)
Fixpoint py_repr (v : pyval) : string :=
  match v with
  | PNone => "None"
  | PBool b => if b then "True" else "False"
  | PInt n => int_str n
  | PFloat x => float_repr x
  | PStr s => text_repr s
  | PList l => "[" +:+ join ", " (List.map py_repr l) +:+ "]"
  | PDict d =>
      "{" +:+ join ", " (List.map (fun '(k, x) => text_repr k +:+ ": " +:+ py_repr x) d) +:+ "}"
  end.

(** [str(v)], which is what [f"{v}"] interpolates. *)
Definition py_str (v : pyval) : string :=
  match v with
  | PStr s => s
  | _ => py_repr v
  end.

(** [print(f"{before}{v}")].  Only a [str] can bring a lone surrogate into
    the text: the [repr] of any other value escapes it. *)
Definition print_interpolated (before : string) (v : pyval) : result unit :=
  match v with
  | PStr s => print (before +:+ s)
  | _ => inr tt
  end.

(** [v / 2**k] as the handler computes kilobytes and megabytes. *)
Definition truediv_pow2 (v : pyval) (k : N) : result Float64 :=
  match v with
  | PInt n => int_truediv_pow2 n k
  | PBool b => int_truediv_pow2 (if b then 1 else 0) k
  | PFloat x => inr (float_truediv_pow2 x k)
  | _ => inl (TypeError ("unsupported operand type(s) for /: '" +:+ type_name v +:+ "' and 'int'"))
  end.

(** [format(v, ',')], the [{file_size:,}] of the success message. *)
Definition format_grouped (v : pyval) : result string :=
  match v with
  | PInt n => inr (format_int_grouped n)
  | PBool b => inr (format_int_grouped (if b then 1 else 0))
  | PFloat x => inr (float_format_grouped x)
  | PStr _ => inl (ValueError "Cannot specify ',' with 's'.")
  | _ => inl (TypeError ("unsupported format string passed to " +:+ type_name v +:+ ".__format__"))
  end.

(** ** The state a call runs in, and the monad of the handler *)

Record State : Type := {
  os_environ : gmap string string;   (* the process environment *)
  world : World;                     (* S3, SNS and the clock *)
  calls : list Call;                 (* client calls made so far, oldest first *)
  locals : gmap string pyval         (* the frame of [lambda_handler] *)
}.

Definition M (A : Type) : Type := State -> result A * State.

Definition ret {A} (a : A) : M A := fun st => (inr a, st).

Definition raise {A} (e : PyExn) : M A := fun st => (inl e, st).

Definition bind {A B} (m : M A) (k : A -> M B) : M B :=
  fun st => match m st with
            | (inl e, st') => (inl e, st')
            | (inr a, st') => k a st'
            end.

(** [try: body except Exception as e: handler e] *)
Definition try_except {A} (body : M A) (handler : PyExn -> M A) : M A :=
  fun st => match body st with
            | (inl e, st') => handler e st'
            | (inr a, st') => (inr a, st')
            end.

Definition lift {A} (r : result A) : M A := fun st => (r, st).

End Runtime.

Notation "x <- m ;; k" := (bind m (fun x => k))
  (at level 100, m at next level, right associativity, only parsing).

Notation "m ;;; k" := (bind m (fun _ => k))
  (at level 100, right associativity, only parsing).

Section Handler.
Context `{Platform}.

Definition set_world (w : World) (st : State) : State :=
  {| os_environ := os_environ st; world := w; calls := calls st; locals := locals st |}.

Definition log_call (c : Call) (st : State) : State :=
  {| os_environ := os_environ st; world := world st; calls := calls st ++ [c];
     locals := locals st |}.

Definition set_locals (frame : gmap string pyval) (st : State) : State :=
  {| os_environ := os_environ st; world := world st; calls := calls st; locals := frame |}.

(** [x = v] *)
Definition assign (x : string) (v : pyval) : M unit :=
  fun st => (inr tt, set_locals (<[x := v]> (locals st)) st).

(** The frame of a fresh call. *)
Definition new_frame : M unit :=
  fun st => (inr tt, set_locals ∅ st).

(** [x if 'x' in locals() else dflt] *)
Definition local_or (x : string) (dflt : pyval) : M pyval :=
  fun st => (inr (default dflt (locals st !! x)), st).

(** ['x' in locals()] *)
Definition in_locals (x : string) : M bool :=
  fun st => (inr (bool_decide (is_Some (locals st !! x))), st).

(** [os.environ.get(name)] *)
Definition os_environ_get (name : string) : M pyval :=
  fun st => (inr (from_option PStr PNone (os_environ st !! name)), st).

(** [s3_client.copy_object(...)] *)
Definition copy_object (req : CopyObjectRequest) : M CopyObjectResponse :=
  fun st => let '(r, w) := s3_copy_object req (world st) in
            (r, log_call (CallCopyObject req r) (set_world w st)).

(** [sns_client.publish(...)] *)
Definition publish (req : PublishRequest) : M PublishResponse :=
  fun st => let '(r, w) := sns_publish req (world st) in
            (r, log_call (CallPublish req r) (set_world w st)).

(** [datetime.now().strftime('%Y-%m-%d %H:%M:%S UTC')] *)
Definition now_text : M string :=
  fun st => let '(dt, w) := datetime_now (world st) in (inr (strftime dt), set_world w st).

(** ** The functions of [lambda_function.py] *)

(** The template of the success message, with the three computed texts. *)
Definition success_message_text
    (object_key size_text size_mb_text source_bucket backup_bucket timestamp : string)
    : string :=
  "
BACKUP OPERATION SUCCESSFUL

File Details:
-------------
File Name: " +:+ object_key +:+ "
File Size: " +:+ size_text +:+ " bytes (" +:+ size_mb_text +:+ " MB)

Source Location:
---------------
Bucket: " +:+ source_bucket +:+ "
Region: us-east-1 (N. Virginia)

Backup Location:
---------------
Bucket: " +:+ backup_bucket +:+ "
Region: us-west-2 (Oregon)

Operation Details:
-----------------
Status: SUCCESS
Timestamp: " +:+ timestamp +:+ "
Encryption: AES256 (Server-side)

Your file has been successfully replicated to the backup region.
This provides protection against regional failures and data loss.

---
Automated AWS S3 Backup System
".

Definition format_success_message
    (object_key file_size source_bucket backup_bucket : pyval) (timestamp : string)
    : M string :=
  file_size_mb <- lift (truediv_pow2 file_size 20) ;;
  size_text <- lift (format_grouped file_size) ;;
  ret (success_message_text (py_str object_key) size_text (format_2f file_size_mb)
         (py_str source_bucket) (py_str backup_bucket) timestamp).

(** The template of the failure message. *)
Definition failure_message_text
    (error_type error_msg timestamp object_key source_bucket backup_bucket : string)
    : string :=
  "
BACKUP OPERATION FAILED - ACTION REQUIRED

Error Details:
-------------
Error Type: " +:+ error_type +:+ "
Error Message: " +:+ error_msg +:+ "
Timestamp: " +:+ timestamp +:+ "

File Information:
----------------
File Name: " +:+ object_key +:+ "
Source Bucket: " +:+ source_bucket +:+ "
Backup Bucket: " +:+ backup_bucket +:+ "

Troubleshooting Steps:
---------------------
1. Check CloudWatch Logs for detailed error information
2. Verify IAM role permissions (S3 read/write, SNS publish)
3. Confirm backup bucket exists and is accessible
4. Verify environment variables are configured correctly
5. Check Lambda function timeout settings

CloudWatch Log Group:
--------------------
/aws/lambda/S3AutoBackupFunction

For immediate assistance, review the Lambda function logs
in CloudWatch or contact your cloud administrator.

---
Automated AWS S3 Backup System
".

Definition format_failure_message
    (error_msg error_type : string) (object_key source_bucket backup_bucket : pyval)
    : M string :=
  timestamp <- now_text ;;
  ret (failure_message_text error_type error_msg timestamp (py_str object_key)
         (py_str source_bucket) (py_str backup_bucket)).

(** The text [send_failure_notification] publishes. *)
Definition error_notification_text (error_category error_msg timestamp : string) : string :=
  "
BACKUP SYSTEM ERROR

Category: " +:+ error_category +:+ "
Error: " +:+ error_msg +:+ "
Timestamp: " +:+ timestamp +:+ "

Please check CloudWatch logs for detailed information.
".

Definition send_failure_notification
    (sns_topic_arn : pyval) (error_msg error_category : string) : M unit :=
  if negb (truthy sns_topic_arn) then ret tt
  else
    try_except
      (timestamp <- now_text ;;
       _ <- publish {| TopicArn := sns_topic_arn;
                       Subject := "AWS Backup System Error - " +:+ error_category;
                       Message := error_notification_text error_category error_msg timestamp |} ;;
       ret tt)
      (fun e => ret tt).

(** What [lambda_handler] returns. *)
Record Response : Type := { statusCode : Z; body : string }.

(** The four places of the event the handler reads. *)
Definition bucket_name_path : list subscript :=
  [SKey "Records"; SIdx 0; SKey "s3"; SKey "bucket"; SKey "name"].

Definition object_key_path : list subscript :=
  [SKey "Records"; SIdx 0; SKey "s3"; SKey "object"; SKey "key"].

Definition object_size_path : list subscript :=
  [SKey "Records"; SIdx 0; SKey "s3"; SKey "object"; SKey "size"].

Definition event_time_path : list subscript :=
  [SKey "Records"; SIdx 0; SKey "eventTime"].

(** The dictionary the handler serialises into the body of its response. *)
Definition success_body
    (source_bucket object_key backup_bucket file_size : pyval) (current_time : string)
    : pyval :=
  PDict [("message", PStr "Backup completed successfully");
         ("source", PStr (py_str source_bucket +:+ "/" +:+ py_str object_key));
         ("destination", PStr (py_str backup_bucket +:+ "/" +:+ py_str object_key));
         ("size_bytes", file_size);
         ("timestamp", PStr current_time)].

(** Lines 47-54 of the [try] block: the two environment variables. *)
Definition read_configuration : M (pyval * pyval) :=
  backup_bucket <- os_environ_get "BACKUP_BUCKET" ;;
  assign "backup_bucket" backup_bucket ;;;
  sns_topic_arn <- os_environ_get "SNS_TOPIC_ARN" ;;
  assign "sns_topic_arn" sns_topic_arn ;;;
  (if negb (truthy backup_bucket)
   then raise (ValueError "BACKUP_BUCKET environment variable not set")
   else ret tt) ;;;
  (if negb (truthy sns_topic_arn)
   then raise (ValueError "SNS_TOPIC_ARN environment variable not set")
   else ret tt) ;;;
  ret (backup_bucket, sns_topic_arn).

(** Lines 61-64: the four fields of the first record. *)
Definition extract_file_information (event : pyval) : M (pyval * pyval * pyval * pyval) :=
  source_bucket <- lift (getpath event bucket_name_path) ;;
  assign "source_bucket" source_bucket ;;;
  object_key <- lift (getpath event object_key_path) ;;
  assign "object_key" object_key ;;;
  file_size <- lift (getpath event object_size_path) ;;
  assign "file_size" file_size ;;;
  event_time <- lift (getpath event event_time_path) ;;
  assign "event_time" event_time ;;;
  ret (source_bucket, object_key, file_size, event_time).

(** Lines 82-123: the copy, the success notification and the response. *)
Definition copy_and_notify
    (backup_bucket sns_topic_arn source_bucket object_key file_size : pyval)
    : M Response :=
  copy_response <- copy_object {| CopySource_Bucket := source_bucket;
                                  CopySource_Key := object_key;
                                  Bucket := backup_bucket;
                                  Key := object_key;
                                  ServerSideEncryption := "AES256" |} ;;
  current_time <- now_text ;;
  success_message <- format_success_message object_key file_size source_bucket
                       backup_bucket current_time ;;
  sns_response <- publish {| TopicArn := sns_topic_arn;
                             Subject := "AWS Backup Success - File Replicated";
                             Message := success_message |} ;;
  ret {| statusCode := 200;
         body := json_dumps (success_body source_bucket object_key backup_bucket
                               file_size current_time) |}.

(** The [try] block of [lambda_handler]. *)
Definition try_block (event : pyval) : M Response :=
  config <- read_configuration ;;
  let '(backup_bucket, sns_topic_arn) := config in
  fields <- extract_file_information event ;;
  let '(source_bucket, object_key, file_size, event_time) := fields in
  (* lines 67-70; the text of a number, on line 69, is ASCII *)
  lift (print_interpolated "  Source Bucket: " source_bucket) ;;;
  lift (print_interpolated "  Object Key: " object_key) ;;;
  _ <- lift (truediv_pow2 file_size 10) ;;
  lift (print_interpolated "  Event Time: " event_time) ;;;
  (* lines 73-75 print the same texts again *)
  copy_and_notify backup_bucket sns_topic_arn source_bucket object_key file_size.

(** [except KeyError as e:] *)
Definition except_KeyError (e : PyExn) : M Response :=
  let error_msg := "Invalid event structure - missing required field: " +:+ exn_str e in
  arn <- local_or "sns_topic_arn" PNone ;;
  send_failure_notification arn error_msg "Invalid Event Data" ;;;
  raise e.

(** [except ValueError as e:] *)
Definition except_ValueError (e : PyExn) : M Response :=
  let error_msg := "Configuration error: " +:+ exn_str e in
  arn <- local_or "sns_topic_arn" PNone ;;
  send_failure_notification arn error_msg "Configuration Error" ;;;
  raise e.

(** [except Exception as e:] *)
Definition except_Exception (e : PyExn) : M Response :=
  let error_msg := "Backup operation failed: " +:+ exn_str e in
  let error_type := exn_name e in
  object_key <- local_or "object_key" (PStr "Unknown") ;;
  source_bucket <- local_or "source_bucket" (PStr "Unknown") ;;
  backup_bucket <- local_or "backup_bucket" (PStr "Not configured") ;;
  failure_message <- format_failure_message error_msg error_type object_key source_bucket
                       backup_bucket ;;
  try_except
    (bound <- in_locals "sns_topic_arn" ;;
     sns_topic_arn <- local_or "sns_topic_arn" PNone ;;
     if bound && truthy sns_topic_arn
     then (_ <- publish {| TopicArn := sns_topic_arn;
                           Subject := "AWS Backup FAILURE - Action Required";
                           Message := failure_message |} ;;
           ret tt)
     else ret tt)
    (fun sns_error => ret tt) ;;;
  raise e.

(** The three [except] clauses: the one that runs is chosen by the class of
    the exception, the first matching one in the order of the source. *)
Definition except_clauses (e : PyExn) : M Response :=
  match exn_base e with
  | IsKeyError => except_KeyError e
  | IsValueError => except_ValueError e
  | IsOtherException => except_Exception e
  end.

Definition lambda_handler {Ctx : Type} (event : pyval) (context : Ctx) : M Response :=
  new_frame ;;;
  try_except (try_block event) except_clauses.

End Handler.

(** * Part II: the vocabulary of the statements *)

(** ** Kinds of outcome *)

(** The kinds of failure of the specification, named after the clause that
    handles the exception. *)
Inductive ErrorKind : Type :=
| MalformedEvent
| ConfigurationError
| StorageOperationError.

Definition classify (e : PyExn) : ErrorKind :=
  match exn_base e with
  | IsKeyError => MalformedEvent
  | IsValueError => ConfigurationError
  | IsOtherException => StorageOperationError
  end.

(** Success, or the kind of the failure. *)
Definition outcome_kind {A} (r : result A) : option ErrorKind :=
  match r with
  | inr _ => None
  | inl e => Some (classify e)
  end.

(** The subject line of the failure notification each clause publishes. *)
Definition failure_subject (k : ErrorKind) : string :=
  match k with
  | MalformedEvent => "AWS Backup System Error - Invalid Event Data"
  | ConfigurationError => "AWS Backup System Error - Configuration Error"
  | StorageOperationError => "AWS Backup FAILURE - Action Required"
  end.

(** ** Text occurrence *)

(** [text] occurs in [s]. *)
Definition contains (s text : string) : Prop :=
  exists before after, s = before +:+ text +:+ after.

Fixpoint is_prefix (p s : string) : bool :=
  match p, s with
  | EmptyString, _ => true
  | String a p', String b s' => Ascii.eqb a b && is_prefix p' s'
  | String _ _, EmptyString => false
  end.

(** The executable version of [contains]. *)
Fixpoint is_infix (text s : string) : bool :=
  is_prefix text s ||
  match s with
  | EmptyString => false
  | String _ s' => is_infix text s'
  end.

Fixpoint string_drop (n : nat) (s : string) : string :=
  match n, s with
  | S n', String _ s' => string_drop n' s'
  | _, _ => s
  end.

(** The text before and after the first occurrence of [pat] in [s]. *)
Fixpoint cut (pat s : string) : option (string * string) :=
  if is_prefix pat s then Some ("", string_drop (String.length pat) s)
  else match s with
       | EmptyString => None
       | String c s' =>
           match cut pat s' with
           | Some (b, a) => Some (String c b, a)
           | None => None
           end
       end.

Definition not_comma (c : ascii) : bool := negb (Ascii.eqb c comma).

(** [s] without its thousands separators. *)
Definition remove_commas (s : string) : string :=
  string_of_list_ascii (List.filter not_comma (list_ascii_of_string s)).

(** ** Numbers read back from a text *)

(** The integer a text of decimal digits, with its sign, stands for. *)
Definition read_int (s : string) : option Z :=
  option_map Z.of_int (NilZero.int_of_string s).

Definition is_digit (c : ascii) : bool :=
  (48 <=? N_of_ascii c)%N && (N_of_ascii c <=? 57)%N.

Definition digit_value (c : ascii) : option N :=
  let n := N_of_ascii c in
  if (48 <=? n)%N && (n <=? 57)%N then Some (n - 48)%N else None.

(** [s] cut at its first point. *)
Fixpoint split_at_point (s : string) : option (string * string) :=
  match s with
  | EmptyString => None
  | String c rest =>
      if Ascii.eqb c "."%char then Some (EmptyString, rest)
      else match split_at_point rest with
           | Some (whole, fraction) => Some (String c whole, fraction)
           | None => None
           end
  end.

(** The hundredths a text [-ddd.dd] stands for: digits, a point and two
    digits, after an optional sign. *)
Definition read_hundredths (s : string) : option Z :=
  let '(negative, magnitude) :=
    match s with
    | String "-"%char rest => (true, rest)
    | _ => (false, s)
    end in
  match split_at_point magnitude with
  | Some (whole, String d1 (String d2 EmptyString)) =>
      match option_map N.of_uint (NilZero.uint_of_string whole),
            digit_value d1, digit_value d2 with
      | Some w, Some a, Some b =>
          let h := Z.of_N (100 * w + 10 * a + b) in
          Some (if negative then - h else h)
      | _, _, _ => None
      end
  | _ => None
  end.

(** ** Configuration and event *)

(** An environment variable is present and not empty. *)
Definition is_set (env : gmap string string) (name : string) : bool :=
  match env !! name with
  | Some v => negb (String.eqb v "")
  | None => false
  end.

(** The name in the message of the configuration error. *)
Definition first_unset (env : gmap string string) : string :=
  if is_set env "BACKUP_BUCKET" then "SNS_TOPIC_ARN" else "BACKUP_BUCKET".

Definition unset_error (env : gmap string string) : PyExn :=
  ValueError (first_unset env +:+ " environment variable not set").

(** The outcome of lines 61-64, without the assignments. *)
Definition event_fields (event : pyval) : result (pyval * pyval * pyval * pyval) :=
  match getpath event bucket_name_path with
  | inl e => inl e
  | inr source_bucket =>
      match getpath event object_key_path with
      | inl e => inl e
      | inr object_key =>
          match getpath event object_size_path with
          | inl e => inl e
          | inr file_size =>
              match getpath event event_time_path with
              | inl e => inl e
              | inr event_time => inr (source_bucket, object_key, file_size, event_time)
              end
          end
      end
  end.

(** A text with a lone surrogate. *)
Definition has_surrogate (s : string) : bool :=
  match find_surrogate 0 s with
  | Some _ => true
  | None => false
  end.

(** A value that lines 67, 68 and 70 can print: any but a [str] with a lone
    surrogate. *)
Definition printable (v : pyval) : bool :=
  match v with
  | PStr s => negb (has_surrogate s)
  | _ => true
  end.

(** The outcome of lines 66-70: the exception one of them raises, or the
    kilobytes of line 69. *)
Definition file_details (source_bucket object_key file_size event_time : pyval)
    : result Float64 :=
  match print_interpolated "  Source Bucket: " source_bucket with
  | inl e => inl e
  | inr _ =>
      match print_interpolated "  Object Key: " object_key with
      | inl e => inl e
      | inr _ =>
          match truediv_pow2 file_size 10 with
          | inl e => inl e
          | inr kb =>
              match print_interpolated "  Event Time: " event_time with
              | inl e => inl e
              | inr _ => inr kb
              end
          end
      end
  end.


(** The copy calls of a trace. *)
Definition copy_calls (l : list Call) : list Call := List.filter is_copy l.

Section Runs.
Context `{Platform}.

(** The value of an environment variable as [os.environ.get] returns it. *)
Definition env_value (st : State) (name : string) : pyval :=
  from_option PStr PNone (os_environ st !! name).

(** The state in which the [try] block starts. *)
Definition fresh (st : State) : State := set_locals ∅ st.

(** The frame after lines 47-48. *)
Definition config_frame (st : State) : gmap string pyval :=
  <["sns_topic_arn" := env_value st "SNS_TOPIC_ARN"]>
    (<["backup_bucket" := env_value st "BACKUP_BUCKET"]> (locals st)).

(** The frame after lines 61-64, when the four lookups succeed. *)
Definition fields_frame (source_bucket object_key file_size event_time : pyval)
    (frame : gmap string pyval) : gmap string pyval :=
  <["event_time" := event_time]>
    (<["file_size" := file_size]>
       (<["object_key" := object_key]>
          (<["source_bucket" := source_bucket]> frame))).

(** The frame when the four fields are bound. *)
Definition parsed_frame (st : State) (sb k sz t : pyval) : gmap string pyval :=
  fields_frame sb k sz t (config_frame st).

(** The request the handler sends to S3. *)
Definition copy_request (source_bucket object_key backup_bucket : pyval) : CopyObjectRequest :=
  {| CopySource_Bucket := source_bucket;
     CopySource_Key := object_key;
     Bucket := backup_bucket;
     Key := object_key;
     ServerSideEncryption := "AES256" |}.

Definition success_request (sns_topic_arn : pyval) (message : string) : PublishRequest :=
  {| TopicArn := sns_topic_arn;
     Subject := "AWS Backup Success - File Replicated";
     Message := message |}.

(** The message of the success notification, for a size whose megabytes and
    grouped digits are [mb] and [size_text]. *)
Definition success_message_of (k sb bb : pyval) (size_text : string) (mb : Float64)
    (timestamp : string) : string :=
  success_message_text (py_str k) size_text (format_2f mb) (py_str sb) (py_str bb) timestamp.

Definition success_response (sb k bb sz : pyval) (timestamp : string) : Response :=
  {| statusCode := 200; body := json_dumps (success_body sb k bb sz timestamp) |}.

(** The request of the failure notification a clause publishes for [e], in
    a state whose frame binds [sns_topic_arn] to [arn]. *)
Definition failure_request (e : PyExn) (arn : pyval) (st : State) : PublishRequest :=
  let timestamp := strftime (fst (datetime_now (world st))) in
  match exn_base e with
  | IsKeyError =>
      {| TopicArn := arn;
         Subject := "AWS Backup System Error - Invalid Event Data";
         Message := error_notification_text "Invalid Event Data"
                      ("Invalid event structure - missing required field: " +:+ exn_str e)
                      timestamp |}
  | IsValueError =>
      {| TopicArn := arn;
         Subject := "AWS Backup System Error - Configuration Error";
         Message := error_notification_text "Configuration Error"
                      ("Configuration error: " +:+ exn_str e) timestamp |}
  | IsOtherException =>
      {| TopicArn := arn;
         Subject := "AWS Backup FAILURE - Action Required";
         Message := failure_message_text (exn_name e)
                      ("Backup operation failed: " +:+ exn_str e) timestamp
                      (py_str (default (PStr "Unknown") (locals st !! "object_key")))
                      (py_str (default (PStr "Unknown") (locals st !! "source_bucket")))
                      (py_str (default (PStr "Not configured")
                                 (locals st !! "backup_bucket"))) |}
  end.

(** The failure notification published for [e] from the state [st1] in which
    the [try] block raised, with the answer of SNS. *)
Definition failure_notice (e : PyExn) (arn : pyval) (st1 : State) : Call :=
  let req := failure_request e arn st1 in
  CallPublish req (fst (sns_publish req (snd (datetime_now (world st1))))).

(** ** The four ways through the [try] block *)

Inductive try_block_way (event : pyval) (st : State) : Prop :=
| way_unconfigured :
    truthy (env_value st "BACKUP_BUCKET") && truthy (env_value st "SNS_TOPIC_ARN") = false ->
    try_block event st =
      (inl (ValueError ((if truthy (env_value st "BACKUP_BUCKET")
                         then "SNS_TOPIC_ARN" else "BACKUP_BUCKET")
                        +:+ " environment variable not set")),
       set_locals (config_frame st) st) ->
    try_block_way event st
| way_bad_event e frame :
    truthy (env_value st "BACKUP_BUCKET") = true ->
    truthy (env_value st "SNS_TOPIC_ARN") = true ->
    event_fields event = inl e ->
    try_block event st = (inl e, set_locals frame st) ->
    frame !! "sns_topic_arn" = Some (env_value st "SNS_TOPIC_ARN") ->
    try_block_way event st
| way_details_raised sb k sz t e :
    truthy (env_value st "BACKUP_BUCKET") = true ->
    truthy (env_value st "SNS_TOPIC_ARN") = true ->
    event_fields event = inr (sb, k, sz, t) ->
    file_details sb k sz t = inl e ->
    try_block event st = (inl e, set_locals (parsed_frame st sb k sz t) st) ->
    try_block_way event st
| way_to_copy sb k sz t kb :
    truthy (env_value st "BACKUP_BUCKET") = true ->
    truthy (env_value st "SNS_TOPIC_ARN") = true ->
    event_fields event = inr (sb, k, sz, t) ->
    file_details sb k sz t = inr kb ->
    try_block event st =
      copy_and_notify (env_value st "BACKUP_BUCKET") (env_value st "SNS_TOPIC_ARN") sb k sz
        (set_locals (parsed_frame st sb k sz t) st) ->
    try_block_way event st.

(** ** The runs of the handler *)

(** [handler_run event st r new]: from [st] the handler can end with [r]
    after making the calls [new].  One constructor for each way through the
    source. *)
Inductive handler_run (event : pyval) (st : State) : result Response -> list Call -> Prop :=
| run_unset_topic :
    is_set (os_environ st) "SNS_TOPIC_ARN" = false ->
    handler_run event st (inl (unset_error (os_environ st))) []
| run_unset_bucket st1 :
    is_set (os_environ st) "BACKUP_BUCKET" = false ->
    is_set (os_environ st) "SNS_TOPIC_ARN" = true ->
    world st1 = world st ->
    handler_run event st (inl (unset_error (os_environ st)))
      [failure_notice (unset_error (os_environ st)) (env_value st "SNS_TOPIC_ARN") st1]
| run_bad_event e st1 :
    is_set (os_environ st) "BACKUP_BUCKET" = true ->
    is_set (os_environ st) "SNS_TOPIC_ARN" = true ->
    event_fields event = inl e ->
    world st1 = world st ->
    locals st1 !! "backup_bucket" = Some (env_value st "BACKUP_BUCKET") ->
    handler_run event st (inl e) [failure_notice e (env_value st "SNS_TOPIC_ARN") st1]
| run_details_raised sb k sz t e st1 :
    is_set (os_environ st) "BACKUP_BUCKET" = true ->
    is_set (os_environ st) "SNS_TOPIC_ARN" = true ->
    event_fields event = inr (sb, k, sz, t) ->
    file_details sb k sz t = inl e ->
    world st1 = world st ->
    locals st1 = parsed_frame (fresh st) sb k sz t ->
    handler_run event st (inl e) [failure_notice e (env_value st "SNS_TOPIC_ARN") st1]
| run_copy_raised sb k sz t kb e st1 :
    is_set (os_environ st) "BACKUP_BUCKET" = true ->
    is_set (os_environ st) "SNS_TOPIC_ARN" = true ->
    event_fields event = inr (sb, k, sz, t) ->
    file_details sb k sz t = inr kb ->
    let creq := copy_request sb k (env_value st "BACKUP_BUCKET") in
    s3_copy_object creq (world st) = (inl e, world st1) ->
    locals st1 = parsed_frame (fresh st) sb k sz t ->
    handler_run event st (inl e)
      [CallCopyObject creq (inl e);
       failure_notice e (env_value st "SNS_TOPIC_ARN") st1]
| run_publish_raised sb k sz t kb c w1 size_text mb e st1 :
    is_set (os_environ st) "BACKUP_BUCKET" = true ->
    is_set (os_environ st) "SNS_TOPIC_ARN" = true ->
    event_fields event = inr (sb, k, sz, t) ->
    file_details sb k sz t = inr kb ->
    truediv_pow2 sz 20 = inr mb ->
    format_grouped sz = inr size_text ->
    let creq := copy_request sb k (env_value st "BACKUP_BUCKET") in
    s3_copy_object creq (world st) = (inr c, w1) ->
    let preq := success_request (env_value st "SNS_TOPIC_ARN")
                  (success_message_of k sb (env_value st "BACKUP_BUCKET") size_text mb
                     (strftime (fst (datetime_now w1)))) in
    sns_publish preq (snd (datetime_now w1)) = (inl e, world st1) ->
    locals st1 = parsed_frame (fresh st) sb k sz t ->
    handler_run event st (inl e)
      [CallCopyObject creq (inr c); CallPublish preq (inl e);
       failure_notice e (env_value st "SNS_TOPIC_ARN") st1]
| run_returned sb k sz t kb c w1 size_text mb r w2 :
    is_set (os_environ st) "BACKUP_BUCKET" = true ->
    is_set (os_environ st) "SNS_TOPIC_ARN" = true ->
    event_fields event = inr (sb, k, sz, t) ->
    file_details sb k sz t = inr kb ->
    truediv_pow2 sz 20 = inr mb ->
    format_grouped sz = inr size_text ->
    let creq := copy_request sb k (env_value st "BACKUP_BUCKET") in
    s3_copy_object creq (world st) = (inr c, w1) ->
    let timestamp := strftime (fst (datetime_now w1)) in
    let preq := success_request (env_value st "SNS_TOPIC_ARN")
                  (success_message_of k sb (env_value st "BACKUP_BUCKET") size_text mb
                     timestamp) in
    sns_publish preq (snd (datetime_now w1)) = (inr r, w2) ->
    handler_run event st
      (inr (success_response sb k (env_value st "BACKUP_BUCKET") sz timestamp))
      [CallCopyObject creq (inr c); CallPublish preq (inr r)].

End Runs.

(** ** Idempotent collaborators *)

(** The collaborators are idempotent: whether a copy request succeeds, and
    with which kind of failure it fails, does not depend on the state of the
    world it is made in, in particular not on an earlier copy; likewise for
    a publish request, whose outcome depends on the topic and the subject
    only (the message carries the time of the call). *)
Definition stable_copy `{Platform} : Prop :=
  forall req w w',
    outcome_kind (fst (s3_copy_object req w)) = outcome_kind (fst (s3_copy_object req w')).

Definition stable_publish `{Platform} : Prop :=
  forall req req' w w',
    TopicArn req = TopicArn req' -> Subject req = Subject req' ->
    outcome_kind (fst (sns_publish req w)) = outcome_kind (fst (sns_publish req' w')).

(** ** A scripted platform, for running the handler on concrete inputs *)

(** Compact JSON text of a value (strings are not escaped: the test data has
    none that would need it). *)
Fixpoint json_text (v : pyval) : string :=
  match v with
  | PNone => "null"
  | PBool b => if b then "true" else "false"
  | PInt n => int_str n
  | PFloat _ => "0.0"
  | PStr s => String dquote s +:+ String dquote ""
  | PList l => "[" +:+ join ", " (List.map json_text l) +:+ "]"
  | PDict d =>
      "{" +:+ join ", " (List.map (fun '(k, x) => String dquote k +:+ String dquote ""
                                                  +:+ ": " +:+ json_text x) d) +:+ "}"
  end.

(** The world is the number of seconds elapsed since midnight of
    2024-01-01; every client call takes one second, and answers as the two
    scripts say. *)
Definition scripted
    (copy : CopyObjectRequest -> result CopyObjectResponse)
    (pub : PublishRequest -> result PublishResponse) : Platform :=
  {| World := N;
     s3_copy_object := fun req w => (copy req, (w + 1)%N);
     sns_publish := fun req w => (pub req, (w + 1)%N);
     datetime_now := fun w =>
       ({| year := 2024; month := 1; day := 1; hour := 0;
           minute := (w / 60) mod 60; second := w mod 60 |}, w);
     float_repr := fun _ => "0.0";
     float_format_grouped := fun _ => "0.0";
     unicode_repr := str_repr;
     json_dumps := json_text |}.

Definition copy_ok : CopyObjectRequest -> result CopyObjectResponse :=
  fun _ => inr {| ETag := Some "etag-1" |}.

Definition publish_ok : PublishRequest -> result PublishResponse :=
  fun _ => inr {| MessageId := "msg-1" |}.

(** Scripts of failing clients. *)
Definition access_denied : PyExn :=
  mkExn "ClientError" IsOtherException
    "An error occurred (AccessDenied) when calling the CopyObject operation: Access Denied".

Definition copy_denied : CopyObjectRequest -> result CopyObjectResponse :=
  fun _ => inl access_denied.

Definition bad_key_encoding : PyExn :=
  mkExn "UnicodeEncodeError" IsValueError
    "'utf-8' codec can't encode character in position 0: surrogates not allowed".

Definition copy_bad_key : CopyObjectRequest -> result CopyObjectResponse :=
  fun _ => inl bad_key_encoding.

Definition endpoint_down : PyExn :=
  mkExn "EndpointConnectionError" IsOtherException "Could not connect to the endpoint URL".

Definition publish_down : PublishRequest -> result PublishResponse :=
  fun _ => inl endpoint_down.

(** An endpoint that is down for the messages that hold [text]. *)
Definition publish_unless (text : string) : PublishRequest -> result PublishResponse :=
  fun req => if is_infix text (Message req) then inl endpoint_down
             else inr {| MessageId := "msg-1" |}.

(** The state of a process that has made no call yet. *)
Definition initial `{Platform} (env : gmap string string) (w : World) : State :=
  {| os_environ := env; world := w; calls := []; locals := ∅ |}.

Definition scripted_state
    (copy : CopyObjectRequest -> result CopyObjectResponse)
    (pub : PublishRequest -> result PublishResponse)
    (env : gmap string string) : @State (scripted copy pub) :=
  @initial (scripted copy pub) env 0%N.

Definition environ_of (backup_bucket sns_topic_arn : string) : gmap string string :=
  <["SNS_TOPIC_ARN" := sns_topic_arn]> (<["BACKUP_BUCKET" := backup_bucket]> ∅).

(** The event of an upload of [key] ([size] bytes) into [bucket]. *)
Definition s3_event (bucket key : string) (size : Z) (time : string) : pyval :=
  PDict [("Records",
          PList [PDict [("eventTime", PStr time);
                        ("s3", PDict [("bucket", PDict [("name", PStr bucket)]);
                                      ("object", PDict [("key", PStr key);
                                                        ("size", PInt size)])])]])].

Definition upload : pyval := s3_event "src" "a.txt" 2048 "2024-01-01T00:00:00Z".

(** An upload event whose object has no key, and an event with no record. *)
Definition upload_without_key : pyval :=
  PDict [("Records",
          PList [PDict [("eventTime", PStr "2024-01-01T00:00:00Z");
                        ("s3", PDict [("bucket", PDict [("name", PStr "src")]);
                                      ("object", PDict [("size", PInt 2048)])])]])].

Definition no_records : pyval := PDict [("Records", PList [])].

(** The lone surrogate U+D800, as a JSON document written with the escape
    [\ud800] decodes it. *)
Definition lone_surrogate : string :=
  String (ascii_of_N 237) (String (ascii_of_N 160) (String (ascii_of_N 128) "")).

(** An upload whose key ends in a lone surrogate. *)
Definition upload_with_surrogate : pyval :=
  s3_event "src" ("a" +:+ lone_surrogate) 2048 "2024-01-01T00:00:00Z".

(** ** Vocabulary of the further properties *)

(** A value that [/] accepts on its left: an [int], a [bool] or a [float]. *)
Definition is_number (v : pyval) : bool :=
  match v with
  | PInt _ | PBool _ | PFloat _ => true
  | _ => false
  end.

(** The least magnitude of an [int] whose quotient by [2**k] no longer fits a
    float: half a unit in the last place below 2^1024 * 2^k. *)
Definition float_range_bound (k : N) : Z := (2 ^ 54 - 1) * 2 ^ (970 + Z.of_N k).

(** The four subject lines the handler publishes under. *)
Definition success_subject : string := "AWS Backup Success - File Replicated".

Definition subjects : list string :=
  [success_subject;
   failure_subject MalformedEvent;
   failure_subject ConfigurationError;
   failure_subject StorageOperationError].

Section Context_shown.
Context `{Platform}.

(** What the catch-all clause shows as file name: the object key when line 62
    was reached and bound it, the sentinel of line 164 otherwise. *)
Definition shown_object_key (event : pyval) : string :=
  match getpath event bucket_name_path, getpath event object_key_path with
  | inr _, inr object_key => py_str object_key
  | _, _ => "Unknown"
  end.

(** What it shows as source bucket: the bucket name when line 61 bound it,
    the sentinel of line 165 otherwise. *)
Definition shown_source_bucket (event : pyval) : string :=
  match getpath event bucket_name_path with
  | inr source_bucket => py_str source_bucket
  | inl _ => "Unknown"
  end.

(** What a call made by the handler must look like, whatever the run. *)
Definition call_in_order (event : pyval) (st : State) (c : Call) : Prop :=
  match c with
  | CallCopyObject req res =>
      is_set (os_environ st) "BACKUP_BUCKET" = true
      /\ is_set (os_environ st) "SNS_TOPIC_ARN" = true
      /\ (exists sb k sz t,
            event_fields event = inr (sb, k, sz, t)
            /\ req = copy_request sb k (env_value st "BACKUP_BUCKET"))
      /\ res = fst (s3_copy_object req (world st))
  | CallPublish req res =>
      is_set (os_environ st) "SNS_TOPIC_ARN" = true
      /\ TopicArn req = env_value st "SNS_TOPIC_ARN"
      /\ In (Subject req) subjects
  end.

End Context_shown.

(** The requests of the copy calls of a trace. *)
Definition copy_requests (l : list Call) : list CopyObjectRequest :=
  flat_map (fun c => match c with
                     | CallCopyObject req _ => [req]
                     | CallPublish _ _ => []
                     end) l.

(** The copy requests a run will make, from the environment and the event. *)
Definition planned_copies `{Platform} (event : pyval) (st : State)
    : list CopyObjectRequest :=
  if is_set (os_environ st) "BACKUP_BUCKET" && is_set (os_environ st) "SNS_TOPIC_ARN"
  then match event_fields event with
       | inr (sb, k, sz, t) =>
           match file_details sb k sz t with
           | inr _ => [copy_request sb k (env_value st "BACKUP_BUCKET")]
           | inl _ => []
           end
       | inl _ => []
       end
  else [].


(** An upload event whose object is a list, not a mapping. *)
Definition upload_with_listed_object : pyval :=
  PDict [("Records",
          PList [PDict [("eventTime", PStr "2024-01-01T00:00:00Z");
                        ("s3", PDict [("bucket", PDict [("name", PStr "src")]);
                                      ("object", PList [PStr "a.txt"])])]])].

(** * Part III: lemmas *)

(** ** Proof tools *)

(** Unfolds the monadic operations of a computation applied to a state. *)
Ltac run_monad :=
  cbv beta iota zeta delta
    [bind ret raise lift try_except local_or in_locals now_text publish copy_object
     assign new_frame os_environ_get format_failure_message format_success_message];
  cbn [fst snd world locals calls os_environ set_world set_locals log_call].

(** The same, leaving the two message formatters folded. *)
Ltac run_calls :=
  cbv beta iota zeta delta
    [bind ret raise lift try_except local_or in_locals now_text publish copy_object
     assign new_frame os_environ_get];
  cbn [fst snd world locals calls os_environ set_world set_locals log_call].

(** ** Text occurrence *)

Lemma append_nil (s : string) : "" +:+ s = s.
Proof. reflexivity. Qed.

Lemma append_cons (a : ascii) (p s : string) : String a p +:+ s = String a (p +:+ s).
Proof. reflexivity. Qed.

Lemma string_app_assoc (a b c : string) : (a +:+ b) +:+ c = a +:+ (b +:+ c).
Proof.
  induction a as [|x a IH]; [reflexivity|]. rewrite !append_cons. by rewrite IH.
Qed.

Lemma is_prefix_app (p s : string) : is_prefix p (p +:+ s) = true.
Proof.
  induction p as [|a p IH]; [by destruct s|].
  rewrite append_cons. cbn [is_prefix]. by rewrite Ascii.eqb_refl, IH.
Qed.

Lemma is_prefix_split (p s : string) : is_prefix p s = true -> exists r, s = p +:+ r.
Proof.
  revert s. induction p as [|a p IH]; intros s Hp.
  - by exists s.
  - destruct s as [|b s]; [discriminate|]. cbn [is_prefix] in Hp.
    apply andb_true_iff in Hp as [Hab Hp]. apply Ascii.eqb_eq in Hab as ->.
    destruct (IH _ Hp) as [r ->]. by exists r.
Qed.

Lemma is_infix_contains (text s : string) : is_infix text s = true <-> contains s text.
Proof.
  split.
  - induction s as [|c s IH]; cbn [is_infix]; intros Hi.
    + rewrite orb_false_r in Hi. destruct (is_prefix_split _ _ Hi) as [r ->].
      by exists "", r.
    + apply orb_true_iff in Hi as [Hp|Hi].
      * destruct (is_prefix_split _ _ Hp) as [r ->]. by exists "", r.
      * destruct (IH Hi) as (b & a & ->). by exists (String c b), a.
  - intros (b & a & ->). induction b as [|c b IH].
    + rewrite append_nil. destruct (text +:+ a) eqn:E; cbn [is_infix];
        rewrite <- E, is_prefix_app; reflexivity.
    + rewrite append_cons. cbn [is_infix]. rewrite IH. apply orb_true_r.
Qed.

Lemma contains_here (before text after : string) :
  contains (before +:+ text +:+ after) text.
Proof. by exists before, after. Qed.

Lemma contains_later (before s text : string) :
  contains s text -> contains (before +:+ s) text.
Proof.
  intros (b & a & ->). exists (before +:+ b), a.
  induction before as [|c p IH]; [done|]. rewrite !append_cons. by rewrite IH.
Qed.

Lemma contains_earlier (s after text : string) :
  contains s text -> contains (s +:+ after) text.
Proof.
  intros (b & a & ->). exists b, (a +:+ after). by rewrite !string_app_assoc.
Qed.

(** Splits the literal [lit] around [pat] and passes both parts on. *)
Ltac cut_literal lit pat tac :=
  let r := eval vm_compute in (cut pat lit) in
  lazymatch r with
  | Some (?b, ?a) => tac b a
  end.

(** Closes [contains s text] once [before] and [after] are given. *)
Ltac contains_between before after :=
  exists before, after; rewrite ?string_app_assoc; reflexivity.

(** ** The size as text *)

(** [round_half_even] is within half a unit of the quotient. *)
Lemma round_half_even_nearest (num den : N) :
  (0 < den)%N ->
  (2 * num <= 2 * (round_half_even num den * den) + den
   /\ 2 * (round_half_even num den * den) <= 2 * num + den)%N.
Proof.
  intros Hden. unfold round_half_even.
  pose proof (N.div_mod num den ltac:(lia)) as Hdm.
  pose proof (N.mod_lt num den ltac:(lia)) as Hlt.
  set (q := (num / den)%N) in *. set (r := (num mod den)%N) in *.
  clearbody q r. subst num. rewrite (N.mul_comm den q).
  destruct (N.compare_spec (2 * r) den) as [Heq|Hl|Hg];
    [destruct (N.even q)|..];
    rewrite ?N.mul_add_distr_r, ?N.mul_1_l; lia.
Qed.

(** Below 2^53 an integer is a float, and its megabytes are exact. *)
Lemma megabytes_of_small_size (n : Z) :
  Z.abs n < 2 ^ 53 ->
  int_truediv_pow2 n 20 = inr (FFinite (n <? 0) (Z.abs_N n) (-20)).
Proof.
  intros Hn. unfold int_truediv_pow2.
  assert (N.size (Z.abs_N n) <= 53)%N as Hsize.
  { destruct (N.eq_dec (Z.abs_N n) 0%N) as [->|Hnz]; [cbn; lia|].
    rewrite N.size_log2 by done.
    assert (N.log2 (Z.abs_N n) < 53)%N; [|lia].
    apply N.log2_lt_pow2; [lia|].
    apply N2Z.inj_lt. rewrite N2Z.inj_abs_N, N2Z.inj_pow. exact Hn. }
  apply N.leb_le in Hsize. rewrite Hsize. reflexivity.
Qed.

(** The megabytes in the message: hundredths of a megabyte, rounded to the
    nearest, ties to even. *)
Lemma format_2f_megabytes (neg : bool) (a : N) :
  format_2f (FFinite neg a (-20)) =
    let h := round_half_even (a * 100) (2 ^ 20) in
    sign_prefix neg +:+ decimal (h / 100) +:+ "." +:+ two_digits (h mod 100).
Proof. reflexivity. Qed.

Lemma insert_commas_rev_filter (n : nat) : forall l,
  (length l <= n)%nat ->
  List.filter not_comma (insert_commas_rev l) = List.filter not_comma l.
Proof.
  induction n as [|n IH]; intros l Hlen.
  - destruct l; [reflexivity|cbn in Hlen; lia].
  - destruct l as [|a [|b [|c [|d rest]]]]; try reflexivity.
    change (insert_commas_rev (a :: b :: c :: d :: rest))
      with (a :: b :: c :: comma :: insert_commas_rev (d :: rest)).
    cbn [length] in Hlen.
    change (a :: b :: c :: comma :: insert_commas_rev (d :: rest))
      with (([a; b; c] ++ [comma]) ++ insert_commas_rev (d :: rest)).
    change (a :: b :: c :: d :: rest) with ([a; b; c] ++ d :: rest).
    rewrite !List.filter_app, (IH (d :: rest)) by (cbn [length]; lia).
    change (List.filter not_comma [comma]) with (@nil ascii).
    by rewrite app_nil_r.
Qed.

Lemma filter_rev_commute {A} (f : A -> bool) (l : list A) :
  List.filter f (rev l) = rev (List.filter f l).
Proof.
  induction l as [|x l IH]; [reflexivity|].
  cbn [rev List.filter]. rewrite List.filter_app, IH. cbn [List.filter].
  destruct (f x); [reflexivity|]. by rewrite app_nil_r.
Qed.

Lemma uint_digits_no_comma (d : Decimal.uint) :
  List.filter not_comma (list_ascii_of_string (NilEmpty.string_of_uint d))
  = list_ascii_of_string (NilEmpty.string_of_uint d).
Proof.
  induction d; cbn [NilEmpty.string_of_uint list_ascii_of_string List.filter];
    try reflexivity;
    (change (not_comma _) with true; cbn iota; by rewrite IHd).
Qed.

Lemma decimal_no_comma (n : N) :
  List.filter not_comma (list_ascii_of_string (decimal n))
  = list_ascii_of_string (decimal n).
Proof.
  unfold decimal, NilZero.string_of_uint.
  destruct (N.to_uint n) eqn:E; try apply uint_digits_no_comma. reflexivity.
Qed.

(** Without its separators, the grouped size is the decimal size. *)
Lemma remove_commas_group_thousands (n : N) :
  remove_commas (group_thousands (decimal n)) = decimal n.
Proof.
  unfold remove_commas, group_thousands.
  rewrite list_ascii_of_string_of_list_ascii.
  rewrite filter_rev_commute.
  rewrite (insert_commas_rev_filter _ _ (Nat.le_refl _)).
  rewrite filter_rev_commute, rev_involutive, decimal_no_comma.
  apply string_of_list_ascii_of_string.
Qed.

Lemma remove_commas_app (a b : string) :
  remove_commas (a +:+ b) = remove_commas a +:+ remove_commas b.
Proof.
  unfold remove_commas. induction a as [|c a IH]; [by rewrite !append_nil|].
  rewrite append_cons. cbn [list_ascii_of_string List.filter].
  destruct (not_comma c); cbn [string_of_list_ascii]; by rewrite ?append_cons, IH.
Qed.

(** Without its separators the grouped size is [str] of the size. *)
Lemma remove_commas_grouped (n : Z) : remove_commas (format_int_grouped n) = int_str n.
Proof.
  unfold format_int_grouped, int_str.
  rewrite remove_commas_app, remove_commas_group_thousands.
  f_equal. by destruct (n <? 0).
Qed.

(** ** The size read back *)

Lemma int_str_of_int (n : Z) : int_str n = NilZero.string_of_int (Z.to_int n).
Proof.
  destruct n as [|p|p]; unfold int_str, sign_prefix, decimal; cbn [Z.ltb Z.compare Z.abs_N];
    rewrite ?append_nil, ?append_cons, ?append_nil; reflexivity.
Qed.

(** [str(n)] reads back as [n]. *)
Lemma read_int_str (n : Z) : read_int (int_str n) = Some n.
Proof.
  unfold read_int. rewrite int_str_of_int, NilZero.isi.
  - cbn [option_map]. by rewrite DecimalZ.of_to.
  - destruct n as [|p|p]; cbn [Z.to_int]; try discriminate.
    intros [= Hp]. by apply DecimalPos.Unsigned.to_uint_nonnil in Hp.
  - destruct n as [|p|p]; cbn [Z.to_int]; try discriminate.
    intros [= Hp]. by apply DecimalPos.Unsigned.to_uint_nonnil in Hp.
Qed.

Lemma read_decimal (n : N) :
  option_map N.of_uint (NilZero.uint_of_string (decimal n)) = Some n.
Proof.
  unfold decimal. rewrite NilZero.usu.
  - cbn [option_map]. by rewrite DecimalN.Unsigned.of_to.
  - destruct n as [|p]; cbn [N.to_uint]; [discriminate|].
    apply DecimalPos.Unsigned.to_uint_nonnil.
Qed.

Lemma uint_all_digits (d : Decimal.uint) :
  forallb is_digit (list_ascii_of_string (NilEmpty.string_of_uint d)) = true.
Proof.
  induction d; cbn [NilEmpty.string_of_uint list_ascii_of_string forallb];
    try reflexivity; (change (is_digit _) with true; exact IHd).
Qed.

Lemma decimal_all_digits (n : N) :
  forallb is_digit (list_ascii_of_string (decimal n)) = true.
Proof.
  unfold decimal, NilZero.string_of_uint.
  destruct (N.to_uint n) eqn:E; try apply uint_all_digits. reflexivity.
Qed.

(** A text of digits, a point and more is cut at that point. *)
Lemma split_at_point_digits (whole fraction : string) :
  forallb is_digit (list_ascii_of_string whole) = true ->
  split_at_point (whole +:+ "." +:+ fraction) = Some (whole, fraction).
Proof.
  induction whole as [|c whole IH]; intros Hd.
  - by rewrite append_nil.
  - cbn [list_ascii_of_string forallb] in Hd. apply andb_prop in Hd as [Hc Hd].
    rewrite append_cons. cbn [split_at_point].
    destruct (Ascii.eqb_spec c ".") as [->|_]; [discriminate Hc|].
    by rewrite (IH Hd).
Qed.

(** A property of the ten digits, checked on each. *)
Lemma below_ten (P : N -> Prop) :
  List.Forall P (List.map N.of_nat (List.seq 0 10)) -> forall n, (n < 10)%N -> P n.
Proof.
  intros Hall n Hn. rewrite List.Forall_forall in Hall. apply Hall.
  rewrite <- (N2Nat.id n). apply List.in_map, List.in_seq. lia.
Qed.

Lemma decimal_digit (n : N) :
  (n < 10)%N -> decimal n = String (ascii_of_N (48 + n)) "".
Proof.
  revert n. apply below_ten. cbn [List.seq List.map]. repeat constructor.
Qed.

Lemma digit_value_digit (n : N) :
  (n < 10)%N -> digit_value (ascii_of_N (48 + n)) = Some n.
Proof.
  revert n. apply below_ten. cbn [List.seq List.map]. repeat constructor.
Qed.

(** Digits, a point and two digits read back as hundredths. *)
Lemma read_hundredths_text (neg : bool) (h : N) :
  read_hundredths (sign_prefix neg +:+ decimal (h / 100) +:+ "."
                   +:+ two_digits (h mod 100))
  = Some (if neg then - Z.of_N h else Z.of_N h).
Proof.
  assert (h mod 100 < 100)%N as Hr by (apply N.mod_lt; lia).
  assert (h mod 100 / 10 mod 10 = h mod 100 / 10)%N as Htens.
  { apply N.mod_small. apply N.Div0.div_lt_upper_bound. lia. }
  assert (split_at_point (decimal (h / 100) +:+ "." +:+ two_digits (h mod 100))
          = Some (decimal (h / 100), two_digits (h mod 100))) as Hsplit
    by apply split_at_point_digits, decimal_all_digits.
  assert (two_digits (h mod 100)
          = String (ascii_of_N (48 + h mod 100 / 10))
              (String (ascii_of_N (48 + h mod 100 mod 10)) "")) as Htwo.
  { unfold two_digits. rewrite Htens.
    rewrite (decimal_digit (h mod 100 / 10))
      by (apply N.Div0.div_lt_upper_bound; lia).
    rewrite (decimal_digit (h mod 100 mod 10)) by (apply N.mod_lt; lia).
    by rewrite append_cons, append_nil. }
  assert (100 * (h / 100) + 10 * (h mod 100 / 10) + h mod 100 mod 10 = h)%N as Hsum.
  { pose proof (N.div_mod h 100 ltac:(lia)).
    pose proof (N.div_mod (h mod 100) 10 ltac:(lia)). lia. }
  assert (read_hundredths (decimal (h / 100) +:+ "." +:+ two_digits (h mod 100))
          = Some (Z.of_N h)) as Hplain.
  { unfold read_hundredths.
    assert (match decimal (h / 100) +:+ "." +:+ two_digits (h mod 100) with
            | String "-"%char rest => (true, rest)
            | _ => (false, decimal (h / 100) +:+ "." +:+ two_digits (h mod 100))
            end = (false, decimal (h / 100) +:+ "." +:+ two_digits (h mod 100))) as ->.
    { pose proof (decimal_all_digits (h / 100)) as Hd.
      destruct (decimal (h / 100)) as [|c rest] eqn:E.
      - rewrite append_nil, append_cons. reflexivity.
      - rewrite append_cons. cbn [list_ascii_of_string forallb] in Hd.
        apply andb_prop in Hd as [Hc _].
        destruct (Ascii.eqb_spec c "-") as [->|Hne]; [discriminate Hc|].
        destruct c as [[] [] [] [] [] [] [] []]; try reflexivity. by destruct Hne. }
    cbv beta iota zeta. rewrite Hsplit, Htwo, read_decimal.
    rewrite !digit_value_digit
      by first [apply N.Div0.div_lt_upper_bound; lia | apply N.mod_lt; lia].
    by rewrite Hsum. }
  destruct neg; cbn [sign_prefix]; [|by rewrite append_nil].
  rewrite (append_cons "-" "" (decimal (h / 100) +:+ "." +:+ two_digits (h mod 100))).
  rewrite append_nil.
  clear Hplain. unfold read_hundredths. cbv beta iota zeta.
  rewrite Hsplit, Htwo, read_decimal.
  rewrite !digit_value_digit
    by first [apply N.Div0.div_lt_upper_bound; lia | apply N.mod_lt; lia].
  by rewrite Hsum.
Qed.

(** The megabytes in the message: the hundredths shown are the nearest to
    size / 2^20 when the size is below 2^53, and within half a hundredth and
    the rounding of the quotient to a float, one part in 2^53, in general. *)
Lemma megabytes_shown (n : Z) (x : Float64) :
  int_truediv_pow2 n 20 = inr x ->
  exists h : N,
    format_2f x
    = sign_prefix (n <? 0) +:+ decimal (h / 100) +:+ "." +:+ two_digits (h mod 100)
    /\ 2 ^ 53 * Z.abs (Z.of_N h * 2 ^ 20 - 100 * Z.abs n) <= 2 ^ 72 + 100 * Z.abs n
    /\ (Z.abs n < 2 ^ 53 ->
        2 * Z.abs (Z.of_N h * 2 ^ 20 - 100 * Z.abs n) <= 2 ^ 20).
Proof.
  unfold int_truediv_pow2. rewrite <- (N2Z.inj_abs_N n).
  pose proof (N.size_gt (Z.abs_N n)) as Hgt.
  pose proof (N.size_le (Z.abs_N n)) as Hle.
  rewrite N.succ_double_spec in Hle.
  set (a := Z.abs_N n) in *. set (b := N.size a) in *. clearbody a b.
  change (2 ^ 53) with 9007199254740992. change (2 ^ 72) with 4722366482869645213696.
  change (2 ^ 20) with 1048576.
  destruct (N.leb_spec b 53) as [Hb|Hb].
  { intros [= <-]. exists (round_half_even (a * 100) (2 ^ 20)).
    split; [reflexivity|].
    destruct (round_half_even_nearest (a * 100) (2 ^ 20) ltac:(done)) as [H1 H2].
    set (h := round_half_even _ _) in *. clearbody h.
    change (2 ^ 20)%N with 1048576%N in *. lia. }
  assert (2 ^ b = 2 ^ 53 * 2 ^ (b - 53))%N as Hpow.
  { rewrite <- N.pow_add_r. f_equal. lia. }
  assert (0 < 2 ^ (b - 53))%N as Hd by (apply N.neq_0_lt_0, N.pow_nonzero; lia).
  destruct (round_half_even_nearest a (2 ^ (b - 53)) Hd) as [H1 H2].
  set (m := round_half_even a (2 ^ (b - 53))) in *.
  destruct (2 ^ (1024 + 20) <=? m * 2 ^ (b - 53))%N; [discriminate|].
  intros [= <-]. exists (hundredths m (Z.of_N (b - 53) - Z.of_N 20)).
  split; [reflexivity|].
  assert (9007199254740992 <= a)%N as Hbig.
  { assert (2 ^ 54 <= 2 ^ b)%N as Hp by (apply N.pow_le_mono_r; lia).
    change (2 ^ 54)%N with 18014398509481984%N in Hp. lia. }
  split; [|lia].
  clearbody m. unfold hundredths.
  change (2 ^ 53)%N with 9007199254740992%N in Hpow.
  destruct (Z.leb_spec 0 (Z.of_N (b - 53) - Z.of_N 20)) as [Hsh|Hsh].
  - (* the quotient is an integer *)
    assert (2 ^ (b - 53) = 2 ^ 20 * 2 ^ Z.to_N (Z.of_N (b - 53) - Z.of_N 20))%N as HD.
    { rewrite <- N.pow_add_r. f_equal. lia. }
    set (E := (2 ^ Z.to_N (Z.of_N (b - 53) - Z.of_N 20))%N) in *.
    set (D := (2 ^ (b - 53))%N) in *. clearbody E D.
    change (2 ^ 20)%N with 1048576%N in HD. subst D.
    assert (m * (1048576 * E) = 1048576 * (m * E))%N as Hm by lia.
    rewrite Hm in H1, H2. set (mE := (m * E)%N) in *. clearbody mE. lia.
  - (* the quotient has a fractional part *)
    assert (2 ^ (b - 53) * 2 ^ Z.to_N (- (Z.of_N (b - 53) - Z.of_N 20)) = 2 ^ 20)%N as HD.
    { rewrite <- N.pow_add_r. f_equal. lia. }
    assert (0 < 2 ^ Z.to_N (- (Z.of_N (b - 53) - Z.of_N 20)))%N as HF
      by (apply N.neq_0_lt_0, N.pow_nonzero; lia).
    destruct (round_half_even_nearest (m * 100)
                (2 ^ Z.to_N (- (Z.of_N (b - 53) - Z.of_N 20))) HF) as [H3 H4].
    set (F := (2 ^ Z.to_N (- (Z.of_N (b - 53) - Z.of_N 20)))%N) in *.
    set (D := (2 ^ (b - 53))%N) in *.
    set (h := round_half_even (m * 100) F) in *. clearbody F D h.
    change (2 ^ 20)%N with 1048576%N in HD.
    apply (N.mul_le_mono_r _ _ D) in H3. apply (N.mul_le_mono_r _ _ D) in H4.
    assert (h * F * D = h * 1048576)%N as HhFD by (rewrite <- N.mul_assoc, (N.mul_comm F D), HD; reflexivity).
    assert (F * D = 1048576)%N as HFD by (by rewrite N.mul_comm).
    set (mD := (m * D)%N) in *.
    assert (2 * (m * 100) * D = 200 * mD)%N as E1 by (subst mD; lia).
    assert ((2 * (h * F) + F) * D = 2 * (h * F * D) + F * D)%N as E2 by lia.
    assert (2 * (h * F) * D = 2 * (h * F * D))%N as E3 by lia.
    assert ((2 * (m * 100) + F) * D = 200 * mD + F * D)%N as E4 by (subst mD; lia).
    rewrite E1, E2 in H3. rewrite E3, E4 in H4. rewrite HhFD, HFD in H3, H4.
    clearbody mD. lia.
Qed.

Lemma int_truediv_pow2_more n k k' x :
  (k <= k')%N -> int_truediv_pow2 n k = inr x -> exists y, int_truediv_pow2 n k' = inr y.
Proof.
  unfold int_truediv_pow2. intros Hk.
  destruct (N.size (Z.abs_N n) <=? 53)%N; [eauto|].
  destruct (N.leb_spec (2 ^ (1024 + k))
              (round_half_even (Z.abs_N n) (2 ^ (N.size (Z.abs_N n) - 53))
               * 2 ^ (N.size (Z.abs_N n) - 53))) as [Hle|Hlt]; [discriminate|].
  intros _.
  destruct (N.leb_spec (2 ^ (1024 + k'))
              (round_half_even (Z.abs_N n) (2 ^ (N.size (Z.abs_N n) - 53))
               * 2 ^ (N.size (Z.abs_N n) - 53))) as [Hle'|Hlt']; [|eauto].
  exfalso.
  assert (2 ^ (1024 + k) <= 2 ^ (1024 + k'))%N by (apply N.pow_le_mono_r; lia).
  lia.
Qed.

(** ** Lookups that raise *)





(** ** Lines 66-70: what can be printed *)

Lemma leading_surrogate_ascii (c : ascii) (rest : string) :
  (N_of_ascii c <? 128)%N = true -> leading_surrogate (String c rest) = None.
Proof.
  intros Hc. apply N.ltb_lt in Hc.
  destruct rest as [|c2 [|c3 after]]; try reflexivity.
  cbn [leading_surrogate].
  destruct (N.eqb_spec (N_of_ascii c) 237) as [Heq|_]; [lia|reflexivity].
Qed.

Lemma find_surrogate_step (p : N) (c : ascii) (rest : string) :
  find_surrogate p (String c rest)
  = match leading_surrogate (String c rest) with
    | Some (code, after) => Some (p, code, after)
    | None => find_surrogate (if is_continuation c then p else p + 1)%N rest
    end.
Proof. reflexivity. Qed.

(** Whether a surrogate is found does not depend on where the count starts. *)
Lemma find_surrogate_position (s : string) : forall p q,
  find_surrogate p s = None -> find_surrogate q s = None.
Proof.
  induction s as [|c rest IH]; intros p q; [reflexivity|].
  rewrite !find_surrogate_step.
  destruct (leading_surrogate (String c rest)) as [[code after]|]; [discriminate|].
  apply IH.
Qed.

(** An ASCII text before [s] brings no surrogate. *)
Lemma find_surrogate_after_ascii (before s : string) : forall p,
  is_ascii before = true ->
  (find_surrogate p (before +:+ s) = None <-> has_surrogate s = false).
Proof.
  induction before as [|c before IH]; intros p Hb.
  - rewrite append_nil. unfold has_surrogate. split.
    + intros Hp. by rewrite (find_surrogate_position s p 0 Hp).
    + destruct (find_surrogate 0 s) eqn:E; [discriminate|]. intros _.
      exact (find_surrogate_position s 0 p E).
  - cbn [is_ascii] in Hb. apply andb_prop in Hb as [Hc Hb].
    rewrite append_cons, find_surrogate_step, leading_surrogate_ascii by exact Hc.
    by apply IH.
Qed.

(** A line that interpolates a value after an ASCII text is printed exactly
    when the value is printable, and raises a UnicodeEncodeError
    otherwise. *)
Lemma print_interpolated_returns (before : string) (v : pyval) :
  is_ascii before = true ->
  (print_interpolated before v = inr tt <-> printable v = true).
Proof.
  intros Hb. destruct v as [| b | n | x | s | l | d ]; try done.
  cbn [print_interpolated printable]. unfold print, encode_error.
  pose proof (find_surrogate_after_ascii before s 0 Hb) as Hiff.
  destruct (find_surrogate 0 (before +:+ s)) as [[[start code] after]|].
  - split; [discriminate|]. intros Hp. apply negb_true_iff in Hp.
    apply Hiff in Hp. discriminate Hp.
  - split; [|done]. intros _. apply negb_true_iff. by apply Hiff.
Qed.


(** Lines 66-70 go through exactly when the bucket name, the key and the
    event time are printable and the size can be divided. *)
Lemma file_details_returns (sb k sz t : pyval) (kb : Float64) :
  file_details sb k sz t = inr kb
  <-> printable sb = true /\ printable k = true
      /\ truediv_pow2 sz 10 = inr kb /\ printable t = true.
Proof.
  unfold file_details.
  pose proof (print_interpolated_returns "  Source Bucket: " sb eq_refl) as Hsb.
  pose proof (print_interpolated_returns "  Object Key: " k eq_refl) as Hk.
  pose proof (print_interpolated_returns "  Event Time: " t eq_refl) as Ht.
  destruct (print_interpolated "  Source Bucket: " sb) as [?|[]].
  { split; [discriminate|]. intros (Hp & _). apply Hsb in Hp. discriminate Hp. }
  destruct (print_interpolated "  Object Key: " k) as [?|[]].
  { split; [discriminate|]. intros (_ & Hp & _). apply Hk in Hp. discriminate Hp. }
  destruct (truediv_pow2 sz 10) as [?|kb'].
  { split; [discriminate|]. intros (_ & _ & Hd & _). discriminate Hd. }
  destruct (print_interpolated "  Event Time: " t) as [?|[]].
  { split; [discriminate|]. intros (_ & _ & _ & Hp). apply Ht in Hp. discriminate Hp. }
  split.
  - intros [= ->]. split; [by apply Hsb|]. split; [by apply Hk|]. split; [done|].
    by apply Ht.
  - by intros (_ & _ & [= ->] & _).
Qed.


Lemma file_details_kilobytes (sb k sz t : pyval) (kb : Float64) :
  file_details sb k sz t = inr kb -> truediv_pow2 sz 10 = inr kb.
Proof. intros Hs. by apply file_details_returns in Hs as (_ & _ & Hd & _). Qed.

Section Proofs.
Context `{Platform}.

(** ** The stages of the [try] block *)

Lemma truthy_PStr (s : string) : truthy (PStr s) = true <-> s <> "".
Proof.
  cbn [truthy]. destruct (String.eqb_spec s ""); cbn; split; congruence.
Qed.

Lemma env_value_set st name v :
  os_environ st !! name = Some v -> v <> "" -> truthy (env_value st name) = true.
Proof. intros E Hv. unfold env_value. rewrite E. cbn [from_option]. by apply truthy_PStr. Qed.

Lemma env_value_is (st : State) name v :
  os_environ st !! name = Some v -> env_value st name = PStr v.
Proof. intros E. unfold env_value. by rewrite E. Qed.

Lemma env_value_same (st st' : State) name :
  os_environ st' = os_environ st -> env_value st' name = env_value st name.
Proof. intros E. unfold env_value. by rewrite E. Qed.

Lemma truthy_env_value st name :
  truthy (env_value st name) = is_set (os_environ st) name.
Proof. unfold env_value, is_set. by destruct (os_environ st !! name). Qed.

Lemma config_frame_topic st :
  config_frame st !! "sns_topic_arn" = Some (env_value st "SNS_TOPIC_ARN").
Proof. unfold config_frame. by rewrite lookup_insert_eq. Qed.

Lemma parsed_frame_topic st sb k sz t :
  parsed_frame st sb k sz t !! "sns_topic_arn" = Some (env_value st "SNS_TOPIC_ARN").
Proof.
  unfold parsed_frame, fields_frame, config_frame.
  rewrite !lookup_insert_ne by done. by rewrite lookup_insert_eq.
Qed.

Lemma read_configuration_run st :
  read_configuration st =
    (if truthy (env_value st "BACKUP_BUCKET")
     then if truthy (env_value st "SNS_TOPIC_ARN")
          then inr (env_value st "BACKUP_BUCKET", env_value st "SNS_TOPIC_ARN")
          else inl (ValueError "SNS_TOPIC_ARN environment variable not set")
     else inl (ValueError "BACKUP_BUCKET environment variable not set"),
     set_locals (config_frame st) st).
Proof.
  unfold read_configuration, bind, os_environ_get, assign, ret, raise, env_value, config_frame,
    set_locals; cbn [os_environ locals world calls].
  destruct (truthy (from_option PStr PNone (os_environ st !! "BACKUP_BUCKET")));
    destruct (truthy (from_option PStr PNone (os_environ st !! "SNS_TOPIC_ARN")));
    reflexivity.
Qed.

Lemma extract_file_information_run event st :
  exists frame,
    extract_file_information event st = (event_fields event, set_locals frame st)
    /\ frame !! "sns_topic_arn" = locals st !! "sns_topic_arn"
    /\ frame !! "backup_bucket" = locals st !! "backup_bucket"
    /\ (forall sb k sz t, event_fields event = inr (sb, k, sz, t) ->
         frame = fields_frame sb k sz t (locals st)).
Proof.
  unfold extract_file_information, event_fields, bind, lift, assign, ret, fields_frame,
    set_locals; cbn [os_environ locals world calls].
  destruct (getpath event bucket_name_path) as [e|sb].
  { exists (locals st). destruct st; repeat split; congruence. }
  destruct (getpath event object_key_path) as [e|k].
  { eexists. split; [reflexivity|]. rewrite !lookup_insert_ne by done.
    repeat split; congruence. }
  destruct (getpath event object_size_path) as [e|sz].
  { eexists. split; [reflexivity|]. rewrite !lookup_insert_ne by done.
    repeat split; congruence. }
  destruct (getpath event event_time_path) as [e|t].
  { eexists. split; [reflexivity|]. rewrite !lookup_insert_ne by done.
    repeat split; congruence. }
  eexists. split; [reflexivity|]. rewrite !lookup_insert_ne by done.
  repeat split; congruence.
Qed.

(** Once the kilobytes of line 69 could be computed, the success message can
    be formatted. *)
Lemma format_success_message_run object_key file_size source_bucket backup_bucket ts kb :
  truediv_pow2 file_size 10 = inr kb ->
  exists size_text mb,
    truediv_pow2 file_size 20 = inr mb
    /\ format_grouped file_size = inr size_text
    /\ forall st,
         format_success_message object_key file_size source_bucket backup_bucket ts st =
           (inr (success_message_text (py_str object_key) size_text (format_2f mb)
                   (py_str source_bucket) (py_str backup_bucket) ts), st).
Proof.
  intros Hkb.
  assert (exists mb, truediv_pow2 file_size 20 = inr mb) as [mb Hmb].
  { destruct file_size; cbn [truediv_pow2] in *; try discriminate; eauto.
    - eapply int_truediv_pow2_more; [|exact Hkb]. lia.
    - eapply int_truediv_pow2_more; [|exact Hkb]. lia. }
  assert (exists txt, format_grouped file_size = inr txt) as [txt Htxt].
  { destruct file_size; cbn [truediv_pow2 format_grouped] in *; try discriminate; eauto. }
  exists txt, mb. split; [done|]. split; [done|]. intros st.
  run_monad. rewrite Hmb, Htxt. reflexivity.
Qed.

(** Every field of the success message stands under its label. *)
Lemma success_message_fields key size_text mb_text sb bb ts :
  let message := success_message_text key size_text mb_text sb bb ts in
  contains message ("File Name: " +:+ key)
  /\ contains message ("File Size: " +:+ size_text +:+ " bytes (" +:+ mb_text +:+ " MB)")
  /\ contains message ("Source Location:
---------------
Bucket: " +:+ sb)
  /\ contains message ("Backup Location:
---------------
Bucket: " +:+ bb)
  /\ contains message ("Timestamp: " +:+ ts).
Proof.
  cbv zeta. unfold success_message_text. repeat split.
  - match goal with
    | |- contains (?l1 +:+ key +:+ ?rest) (?label +:+ _) =>
        cut_literal l1 label ltac:(fun b a => contains_between b rest)
    end.
  - match goal with
    | |- contains (?l1 +:+ key +:+ ?l2 +:+ size_text +:+ ?l3 +:+ mb_text +:+ ?l4 +:+ ?rest)
           (?label +:+ _) =>
        cut_literal l2 label ltac:(fun b _ =>
          cut_literal l4 " MB)" ltac:(fun _ a =>
            contains_between (l1 +:+ key +:+ b) (a +:+ rest)))
    end.
  - match goal with
    | |- contains (?l1 +:+ key +:+ ?l2 +:+ size_text +:+ ?l3 +:+ mb_text +:+ ?l4 +:+ sb
                   +:+ ?rest) (?label +:+ _) =>
        cut_literal l4 label ltac:(fun b _ =>
          contains_between (l1 +:+ key +:+ l2 +:+ size_text +:+ l3 +:+ mb_text +:+ b) rest)
    end.
  - match goal with
    | |- contains (?l1 +:+ key +:+ ?l2 +:+ size_text +:+ ?l3 +:+ mb_text +:+ ?l4 +:+ sb
                   +:+ ?l5 +:+ bb +:+ ?rest) (?label +:+ _) =>
        cut_literal l5 label ltac:(fun b _ =>
          contains_between
            (l1 +:+ key +:+ l2 +:+ size_text +:+ l3 +:+ mb_text +:+ l4 +:+ sb +:+ b) rest)
    end.
  - match goal with
    | |- contains (?l1 +:+ key +:+ ?l2 +:+ size_text +:+ ?l3 +:+ mb_text +:+ ?l4 +:+ sb
                   +:+ ?l5 +:+ bb +:+ ?l6 +:+ ts +:+ ?rest) (?label +:+ _) =>
        cut_literal l6 label ltac:(fun b _ =>
          contains_between
            (l1 +:+ key +:+ l2 +:+ size_text +:+ l3 +:+ mb_text +:+ l4 +:+ sb +:+ l5
             +:+ bb +:+ b) rest)
    end.
Qed.

(** ** The [except] clauses *)

(** [send_failure_notification] when the topic is usable: one [publish],
    whatever it answers. *)
Lemma send_failure_notification_run arn error_msg error_category st :
  truthy arn = true ->
  let text := error_notification_text error_category error_msg
                (strftime (fst (datetime_now (world st)))) in
  let req := {| TopicArn := arn;
                Subject := "AWS Backup System Error - " +:+ error_category;
                Message := text |} in
  let w := snd (datetime_now (world st)) in
  send_failure_notification arn error_msg error_category st =
    (inr tt, log_call (CallPublish req (fst (sns_publish req w)))
               (set_world (snd (sns_publish req w)) st)).
Proof.
  intros Ht. unfold send_failure_notification. rewrite Ht. cbn [negb].
  unfold try_except, bind, now_text, publish, ret.
  destruct (datetime_now (world st)) as [dt w1] eqn:Edt. cbn [fst snd world set_world].
  destruct (sns_publish _ w1) as [[e|r] w2] eqn:Ep; cbn [fst snd]; reflexivity.
Qed.

Lemma send_failure_notification_skip arn error_msg error_category st :
  truthy arn = false ->
  send_failure_notification arn error_msg error_category st = (inr tt, st).
Proof. intros Ht. unfold send_failure_notification. rewrite Ht. reflexivity. Qed.

Lemma failure_request_subject e arn st :
  Subject (failure_request e arn st) = failure_subject (classify e).
Proof. unfold failure_request, classify. by destruct (exn_base e). Qed.

Lemma failure_request_topic e arn st : TopicArn (failure_request e arn st) = arn.
Proof. unfold failure_request. by destruct (exn_base e). Qed.

(** The message of the catch-all clause names the class of the exception. *)
Lemma failure_request_names_class e arn st1 :
  exn_base e = IsOtherException ->
  contains (Message (failure_request e arn st1)) ("Error Type: " +:+ exn_name e).
Proof.
  intros Hb. unfold failure_request. rewrite Hb. cbn [Message].
  unfold failure_message_text.
  match goal with
  | |- contains (?pre +:+ exn_name e +:+ ?post) _ =>
      exists "
BACKUP OPERATION FAILED - ACTION REQUIRED

Error Details:
-------------
", post
  end.
  reflexivity.
Qed.

(** A clause whose frame has a usable topic publishes one notification and
    raises [e] again, whatever the publish call answers. *)
Lemma except_clauses_report e arn st :
  locals st !! "sns_topic_arn" = Some arn ->
  truthy arn = true ->
  let req := failure_request e arn st in
  let answer := sns_publish req (snd (datetime_now (world st))) in
  except_clauses e st =
    (inl e, log_call (CallPublish req (fst answer)) (set_world (snd answer) st)).
Proof.
  intros Hl Ht. unfold except_clauses, failure_request.
  destruct (exn_base e).
  - unfold except_KeyError, bind, local_or, raise. rewrite Hl. cbn [default].
    rewrite send_failure_notification_run by done. reflexivity.
  - unfold except_ValueError, bind, local_or, raise. rewrite Hl. cbn [default].
    rewrite send_failure_notification_run by done. reflexivity.
  - unfold except_Exception. run_monad.
    destruct (datetime_now (world st)) as [dt w1]. run_monad.
    rewrite Hl. cbn [default from_option id]. rewrite Ht.
    rewrite bool_decide_eq_true_2 by eauto. cbn [andb]. run_monad.
    destruct (sns_publish _ w1) as [[e'|r] w2]; reflexivity.
Qed.

(** A clause whose frame has no usable topic publishes nothing. *)
Lemma except_clauses_silent e st :
  truthy (default PNone (locals st !! "sns_topic_arn")) = false ->
  exists st', except_clauses e st = (inl e, st')
    /\ calls st' = calls st /\ os_environ st' = os_environ st.
Proof.
  intros Ht. unfold except_clauses.
  destruct (exn_base e).
  - unfold except_KeyError, bind, local_or, raise.
    rewrite send_failure_notification_skip by done. eauto.
  - unfold except_ValueError, bind, local_or, raise.
    rewrite send_failure_notification_skip by done. eauto.
  - unfold except_Exception. run_monad.
    destruct (datetime_now (world st)) as [dt w1]. run_monad.
    rewrite Ht. rewrite andb_false_r. eauto.
Qed.

(** Every clause ends by raising the exception it handles, and leaves the
    environment alone. *)
Lemma except_clauses_reraise e st :
  exists st', except_clauses e st = (inl e, st') /\ os_environ st' = os_environ st.
Proof.
  destruct (truthy (default PNone (locals st !! "sns_topic_arn"))) eqn:Ht.
  - destruct (locals st !! "sns_topic_arn") as [arn|] eqn:Hl; [|discriminate].
    cbn [default] in Ht. rewrite (except_clauses_report e arn st Hl Ht). eauto.
  - destruct (except_clauses_silent e st Ht) as (st' & -> & _ & He). eauto.
Qed.

Lemma lambda_handler_unfold {Ctx} event (context : Ctx) st :
  lambda_handler event context st =
    match try_block event (fresh st) with
    | (inl e, st') => except_clauses e st'
    | (inr a, st') => (inr a, st')
    end.
Proof. reflexivity. Qed.

(** The handler returns what its [try] block returns and raises what its
    [try] block raises. *)
Lemma lambda_handler_outcome {Ctx} event (context : Ctx) st :
  fst (lambda_handler event context st) = fst (try_block event (fresh st)).
Proof.
  rewrite lambda_handler_unfold.
  destruct (try_block event (fresh st)) as [[e|a] st']; [|reflexivity].
  destruct (except_clauses_reraise e st') as (st'' & -> & _). reflexivity.
Qed.

(** When the [try] block raises in a frame with a usable topic, the handler
    publishes one failure notification and raises the same exception. *)
Lemma lambda_handler_reports {Ctx} event (context : Ctx) st e st1 arn :
  try_block event (fresh st) = (inl e, st1) ->
  locals st1 !! "sns_topic_arn" = Some arn ->
  truthy arn = true ->
  let req := failure_request e arn st1 in
  let answer := sns_publish req (snd (datetime_now (world st1))) in
  lambda_handler event context st =
    (inl e, log_call (CallPublish req (fst answer)) (set_world (snd answer) st1)).
Proof.
  intros Hrun Hl Ht. cbv zeta. rewrite lambda_handler_unfold, Hrun.
  by apply except_clauses_report.
Qed.

(** ** The ways through the [try] block *)

(** The configuration stage fails: nothing else runs. *)
Lemma try_block_unconfigured event st :
  truthy (env_value st "BACKUP_BUCKET") && truthy (env_value st "SNS_TOPIC_ARN") = false ->
  try_block event st =
    (inl (ValueError ((if truthy (env_value st "BACKUP_BUCKET")
                       then "SNS_TOPIC_ARN" else "BACKUP_BUCKET")
                      +:+ " environment variable not set")),
     set_locals (config_frame st) st).
Proof.
  intros Hc. unfold try_block, bind at 1. rewrite read_configuration_run.
  destruct (truthy (env_value st "BACKUP_BUCKET")); [|reflexivity].
  cbn [andb] in Hc. rewrite Hc. reflexivity.
Qed.

(** The configuration is complete and one of the four lookups raises. *)
Lemma try_block_bad_event event st e :
  truthy (env_value st "BACKUP_BUCKET") = true ->
  truthy (env_value st "SNS_TOPIC_ARN") = true ->
  event_fields event = inl e ->
  exists frame,
    try_block event st = (inl e, set_locals frame st)
    /\ frame !! "sns_topic_arn" = Some (env_value st "SNS_TOPIC_ARN")
    /\ frame !! "backup_bucket" = Some (env_value st "BACKUP_BUCKET").
Proof.
  intros Hb Ha He. unfold try_block, bind at 1. rewrite read_configuration_run, Hb, Ha.
  unfold bind at 1.
  destruct (extract_file_information_run event (set_locals (config_frame st) st))
    as (frame & -> & Harn & Hbb & _).
  rewrite He. exists frame. split; [reflexivity|].
  rewrite Harn, Hbb. unfold config_frame. cbn [locals set_locals].
  rewrite lookup_insert_eq, lookup_insert_ne by done. by rewrite lookup_insert_eq.
Qed.

(** The fields are bound and one of the lines 67-70 raises. *)
Lemma try_block_details_raised event st sb k sz t e :
  truthy (env_value st "BACKUP_BUCKET") = true ->
  truthy (env_value st "SNS_TOPIC_ARN") = true ->
  event_fields event = inr (sb, k, sz, t) ->
  file_details sb k sz t = inl e ->
  try_block event st = (inl e, set_locals (parsed_frame st sb k sz t) st).
Proof.
  intros Hb Ha He Hs. unfold try_block, bind at 1. rewrite read_configuration_run, Hb, Ha.
  unfold bind at 1.
  destruct (extract_file_information_run event (set_locals (config_frame st) st))
    as (frame & -> & _ & _ & Hfr).
  rewrite He. rewrite (Hfr _ _ _ _ He). unfold file_details in Hs. unfold bind, lift.
  destruct (print_interpolated "  Source Bucket: " sb) as [?|[]]; [by injection Hs as ->|].
  destruct (print_interpolated "  Object Key: " k) as [?|[]]; [by injection Hs as ->|].
  destruct (truediv_pow2 sz 10) as [?|kb]; [by injection Hs as ->|].
  destruct (print_interpolated "  Event Time: " t) as [?|[]]; [by injection Hs as ->|].
  discriminate Hs.
Qed.

(** Otherwise the block goes on to the copy. *)
Lemma try_block_to_copy event st sb k sz t kb :
  truthy (env_value st "BACKUP_BUCKET") = true ->
  truthy (env_value st "SNS_TOPIC_ARN") = true ->
  event_fields event = inr (sb, k, sz, t) ->
  file_details sb k sz t = inr kb ->
  try_block event st =
    copy_and_notify (env_value st "BACKUP_BUCKET") (env_value st "SNS_TOPIC_ARN") sb k sz
      (set_locals (parsed_frame st sb k sz t) st).
Proof.
  intros Hb Ha He Hs. unfold try_block, bind at 1. rewrite read_configuration_run, Hb, Ha.
  unfold bind at 1.
  destruct (extract_file_information_run event (set_locals (config_frame st) st))
    as (frame & -> & _ & _ & Hfr).
  rewrite He. rewrite (Hfr _ _ _ _ He). unfold file_details in Hs.
  unfold bind at 1 2 3 4, lift.
  destruct (print_interpolated "  Source Bucket: " sb) as [?|[]]; [discriminate Hs|].
  destruct (print_interpolated "  Object Key: " k) as [?|[]]; [discriminate Hs|].
  destruct (truediv_pow2 sz 10) as [?|kb']; [discriminate Hs|].
  destruct (print_interpolated "  Event Time: " t) as [?|[]]; [discriminate Hs|].
  reflexivity.
Qed.

Lemma try_block_ways event st : try_block_way event st.
Proof.
  destruct (truthy (env_value st "BACKUP_BUCKET")) eqn:Hb;
    [destruct (truthy (env_value st "SNS_TOPIC_ARN")) eqn:Ha|].
  - destruct (event_fields event) as [e|[[[sb k] sz] t]] eqn:He.
    + destruct (try_block_bad_event event st e Hb Ha He) as (frame & Hrun & Hf & _).
      by eapply way_bad_event.
    + destruct (file_details sb k sz t) as [e|kb] eqn:Hs.
      * eapply way_details_raised; eauto using try_block_details_raised.
      * eapply way_to_copy; eauto using try_block_to_copy.
  - apply way_unconfigured; [by rewrite Hb, Ha|].
    rewrite try_block_unconfigured by (by rewrite Hb, Ha). by rewrite Hb.
  - apply way_unconfigured; [by rewrite Hb|].
    rewrite try_block_unconfigured by (by rewrite Hb). by rewrite Hb.
Qed.

(** Lines 82-123, call by call. *)
Lemma copy_and_notify_run bb arn sb k sz kb st :
  truediv_pow2 sz 10 = inr kb ->
  let creq := copy_request sb k bb in
  let copied := s3_copy_object creq (world st) in
  let st1 := log_call (CallCopyObject creq (fst copied)) (set_world (snd copied) st) in
  match fst copied with
  | inl e => copy_and_notify bb arn sb k sz st = (inl e, st1)
  | inr _ =>
      exists size_text mb,
        truediv_pow2 sz 20 = inr mb /\ format_grouped sz = inr size_text /\
        let tick := datetime_now (snd copied) in
        let timestamp := strftime (fst tick) in
        let preq := success_request arn (success_message_of k sb bb size_text mb timestamp) in
        let published := sns_publish preq (snd tick) in
        let st2 := log_call (CallPublish preq (fst published))
                     (set_world (snd published) st1) in
        copy_and_notify bb arn sb k sz st =
          (match fst published with
           | inl e => inl e
           | inr _ => inr (success_response sb k bb sz timestamp)
           end, st2)
  end.
Proof.
  intros Hkb creq copied st1. subst creq copied st1.
  unfold copy_and_notify. fold (copy_request sb k bb). run_calls.
  destruct (s3_copy_object (copy_request sb k bb) (world st)) as [[e|c] w1]; run_calls.
  { reflexivity. }
  destruct (datetime_now w1) as [dt w2]; run_calls.
  destruct (format_success_message_run k sz sb bb (strftime dt) kb Hkb)
    as (size_text & mb & Hmb & Htxt & Hfmt).
  exists size_text, mb. split; [done|]. split; [done|].
  rewrite Hfmt. run_calls.
  unfold success_request, success_message_of.
  destruct (sns_publish _ w2) as [[e|r] w3]; reflexivity.
Qed.

(** The [try] block returns only the response of line 114. *)
Lemma try_block_returns event st response st' :
  try_block event st = (inr response, st') ->
  exists sb k sz t ts,
    event_fields event = inr (sb, k, sz, t)
    /\ response = success_response sb k (env_value st "BACKUP_BUCKET") sz ts.
Proof.
  intros Hrun.
  destruct (try_block_ways event st) as [_ Hr|e fr _ _ _ Hr _|sb k sz t e _ _ _ _ Hr
                                        |sb k sz t kb _ _ He Hs Hr];
    rewrite Hr in Hrun; try discriminate.
  pose proof (copy_and_notify_run (env_value st "BACKUP_BUCKET")
                (env_value st "SNS_TOPIC_ARN") sb k sz kb
                (set_locals (parsed_frame st sb k sz t) st)
                (file_details_kilobytes _ _ _ _ _ Hs)) as Hc.
  cbv zeta in Hc.
  destruct (fst (s3_copy_object _ _)) as [e|c].
  { rewrite Hc in Hrun. discriminate. }
  destruct Hc as (size_text & mb & _ & _ & Hc). rewrite Hc in Hrun.
  destruct (fst (sns_publish _ _)) as [e|r]; [discriminate|].
  injection Hrun as <- _. exists sb, k, sz, t. eexists. split; [exact He|reflexivity].
Qed.

(** With an incomplete configuration the handler goes from line 54 (or 52)
    straight to the [ValueError] clause. *)
Lemma lambda_handler_unconfigured {Ctx} event (context : Ctx) st :
  is_set (os_environ st) "BACKUP_BUCKET" && is_set (os_environ st) "SNS_TOPIC_ARN" = false ->
  lambda_handler event context st =
    except_clauses (unset_error (os_environ st))
      (set_locals (config_frame (fresh st)) st).
Proof.
  intros Hc. rewrite lambda_handler_unfold.
  rewrite try_block_unconfigured
    by (rewrite !truthy_env_value; exact Hc).
  rewrite truthy_env_value. reflexivity.
Qed.

(** ** Every execution is a run *)

(** Every execution of the handler is one of the runs, and the handler
    leaves the environment as it found it. *)
Lemma lambda_handler_runs {Ctx} event (context : Ctx) st :
  exists new,
    calls (snd (lambda_handler event context st)) = calls st ++ new
    /\ os_environ (snd (lambda_handler event context st)) = os_environ st
    /\ handler_run event st (fst (lambda_handler event context st)) new.
Proof.
  destruct (try_block_ways event (fresh st))
    as [Hc Hrun|e frame Tb Ta He Hrun Hf|sb k sz t e Tb Ta He Hs Hrun
        |sb k sz t kb Tb Ta He Hs Hrun];
    change (env_value (fresh st)) with (env_value st) in *;
    rewrite ?truthy_env_value in *.
  - (* the configuration is incomplete *)
    rewrite lambda_handler_unconfigured by done.
    destruct (is_set (os_environ st) "SNS_TOPIC_ARN") eqn:Ha.
    + rewrite andb_true_r in Hc.
      rewrite (except_clauses_report _ (env_value st "SNS_TOPIC_ARN"))
        by (rewrite ?truthy_env_value; try apply config_frame_topic; done).
      eexists [_]. split; [reflexivity|]. split; [reflexivity|].
      by apply (run_unset_bucket event st (set_locals (config_frame (fresh st)) st)).
    + destruct (except_clauses_silent (unset_error (os_environ st))
                  (set_locals (config_frame (fresh st)) st))
        as (st' & -> & Hcalls & Henv).
      { cbn [locals set_locals]. rewrite config_frame_topic. cbn [default from_option id].
        change (env_value (fresh st)) with (env_value st). by rewrite truthy_env_value. }
      exists []. rewrite app_nil_r. split; [exact Hcalls|]. split; [exact Henv|].
      by apply run_unset_topic.
  - (* a lookup in the event raises *)
    destruct (try_block_bad_event event (fresh st) e) as (frame' & Hrun' & Hf' & Hb');
      [change (env_value (fresh st)) with (env_value st);
       rewrite ?truthy_env_value; done..|].
    change (env_value (fresh st)) with (env_value st) in *.
    rewrite (lambda_handler_reports event context st e _ (env_value st "SNS_TOPIC_ARN") Hrun')
      by (rewrite ?truthy_env_value; done).
    eexists [_]. split; [reflexivity|]. split; [reflexivity|].
    by apply (run_bad_event event st e (set_locals frame' (fresh st))).
  - (* one of the lines 67-70 raises *)
    rewrite (lambda_handler_reports event context st e _ (env_value st "SNS_TOPIC_ARN") Hrun)
      by (rewrite ?truthy_env_value; try apply parsed_frame_topic; done).
    eexists [_]. split; [reflexivity|]. split; [reflexivity|].
    by eapply (run_details_raised event st sb k sz t e
                 (set_locals (parsed_frame (fresh st) sb k sz t) (fresh st))).
  - pose proof (copy_and_notify_run (env_value st "BACKUP_BUCKET")
                  (env_value st "SNS_TOPIC_ARN") sb k sz kb
                  (set_locals (parsed_frame (fresh st) sb k sz t) (fresh st))
                  (file_details_kilobytes _ _ _ _ _ Hs)) as Hc.
    cbv zeta in Hc. cbn [world set_locals fresh] in Hc.
    destruct (s3_copy_object (copy_request sb k (env_value st "BACKUP_BUCKET")) (world st))
      as [[e|c] w1] eqn:Ec; cbn [fst snd] in Hc.
    + (* the copy raises *)
      rewrite Hc in Hrun.
      rewrite (lambda_handler_reports event context st e _ (env_value st "SNS_TOPIC_ARN") Hrun)
        by (rewrite ?truthy_env_value; try apply parsed_frame_topic; done).
      cbn [fst snd calls os_environ log_call set_world set_locals fresh].
      rewrite <- app_assoc. eexists. split; [reflexivity|]. split; [reflexivity|].
      match type of Hrun with _ = (_, ?st1) =>
        by eapply (run_copy_raised event st sb k sz t kb e st1)
      end.
    + destruct Hc as (size_text & mb & Hmb & Htxt & Hc). rewrite Hc in Hrun. clear Hc.
      destruct (sns_publish _ (snd (datetime_now w1))) as [[e|r] w2] eqn:Ep;
        cbn [fst snd] in Hrun.
      * (* the success notification raises *)
        rewrite (lambda_handler_reports event context st e _ (env_value st "SNS_TOPIC_ARN")
                   Hrun)
          by (rewrite ?truthy_env_value; try apply parsed_frame_topic; done).
        cbn [fst snd calls os_environ log_call set_world set_locals fresh].
        rewrite <- !app_assoc. eexists. split; [reflexivity|]. split; [reflexivity|].
        match type of Hrun with _ = (_, ?st1) =>
          by eapply (run_publish_raised event st sb k sz t kb c w1 size_text mb e st1)
        end.
      * rewrite lambda_handler_unfold, Hrun.
        cbn [fst snd calls os_environ log_call set_world set_locals fresh].
        rewrite <- !app_assoc. eexists. split; [reflexivity|]. split; [reflexivity|].
        by eapply (run_returned event st sb k sz t kb c w1 size_text mb r w2).
Qed.

(** Two runs on the same event, from states with the same environment, end
    with the same kind of outcome. *)
Lemma handler_run_same_kind event st st' r r' new new' :
  stable_copy -> stable_publish ->
  os_environ st' = os_environ st ->
  handler_run event st r new -> handler_run event st' r' new' ->
  outcome_kind r = outcome_kind r'.
Proof.
  intros Hcopy Hpub Henv R R'.
  pose proof (env_value_same st st' "BACKUP_BUCKET" Henv) as Vb.
  pose proof (env_value_same st st' "SNS_TOPIC_ARN" Henv) as Va.
  destruct R as [Ta|s1 Tb Ta _|e s1 Tb Ta He _ _|sb k sz t e s1 Tb Ta He Hs _ _
                |sb k sz t kb e s1 Tb Ta He Hs creq Hc _
                |sb k sz t kb c w1 txt mb e s1 Tb Ta He Hs Hmb Htxt creq Hc preq Hp _
                |sb k sz t kb c w1 txt mb r0 w2 Tb Ta He Hs Hmb Htxt creq Hc ts preq Hp];
  destruct R' as [Ta'|s1' Tb' Ta' _|e' s1' Tb' Ta' He' _ _|sb' k' sz' t' e' s1' Tb' Ta' He' Hs' _ _
                 |sb' k' sz' t' kb' e' s1' Tb' Ta' He' Hs' creq' Hc' _
                 |sb' k' sz' t' kb' c' w1' txt' mb' e' s1' Tb' Ta' He' Hs' Hmb' Htxt' creq' Hc'
                    preq' Hp' _
                 |sb' k' sz' t' kb' c' w1' txt' mb' r0' w2' Tb' Ta' He' Hs' Hmb' Htxt' creq'
                    Hc' ts' preq' Hp'];
  rewrite ?Henv in *; try congruence;
  assert (sb' = sb /\ k' = k /\ sz' = sz) as (-> & -> & ->)
    by (repeat split; congruence);
  subst creq creq'; rewrite Vb in Hc';
  pose proof (Hcopy (copy_request sb k (env_value st "BACKUP_BUCKET")) (world st) (world st'))
    as Hk;
  rewrite Hc, Hc' in Hk; cbn [fst outcome_kind] in Hk; try discriminate Hk;
  try exact Hk; cbn [outcome_kind];
  subst preq preq';
  match goal with
  | Hp : sns_publish ?q ?w = _, Hp' : sns_publish ?q' ?w' = _ |- _ =>
      pose proof (Hpub q q' w w') as Hq; rewrite Hp, Hp' in Hq;
      cbn [fst outcome_kind TopicArn Subject success_request] in Hq;
      rewrite ?Va in Hq; specialize (Hq eq_refl eq_refl)
  end;
  first [discriminate Hq | exact Hq | reflexivity].
Qed.

End Proofs.

(** ** The handler and the formatters on examples *)

(** An empty list of records: the lookup raises an IndexError, the
    catch-all clause reports it, and its message shows the two sentinels
    next to the backup bucket, which is bound. *)
Example no_records_notice_has_sentinels :
  exists notice answer,
    calls (snd (lambda_handler (H := scripted copy_ok publish_ok) no_records tt
                  (scripted_state copy_ok publish_ok (environ_of "dst" "topic1"))))
    = [CallPublish notice answer]
    /\ Subject notice = "AWS Backup FAILURE - Action Required"
    /\ is_infix "Error Type: IndexError" (Message notice) = true
    /\ is_infix "File Name: Unknown" (Message notice) = true
    /\ is_infix "Source Bucket: Unknown" (Message notice) = true
    /\ is_infix "Backup Bucket: dst" (Message notice) = true.
Proof. eexists _, _. repeat split; vm_compute; reflexivity. Qed.

(** Sizes as the success message prints them. *)
Example sizes_as_text :
  format_int_grouped 1234567 = "1,234,567"
  /\ format_int_grouped (-1234) = "-1,234"
  /\ (int_truediv_pow2 131072 20 = inr (FFinite false 131072 (-20))
      /\ format_2f (FFinite false 131072 (-20)) = "0.12")
  /\ format_2f (FFinite false 393216 (-20)) = "0.38"
  /\ format_2f (FFinite true 5 (-20)) = "-0.00"
  /\ (exists e, int_truediv_pow2 (2 ^ 1034) 10 = inl e /\ exn_name e = "OverflowError").
Proof. repeat split; try (vm_compute; reflexivity). eexists. split; vm_compute; reflexivity. Qed.

(** Numbers as the statements read them back from a text. *)
Example numbers_read_back :
  read_int (remove_commas "1,234,567") = Some 1234567
  /\ read_int "-1234" = Some (-1234)
  /\ read_int "" = None
  /\ read_hundredths "1.50" = Some 150
  /\ read_hundredths "-0.38" = Some (-38)
  /\ read_hundredths "1.5" = None
  /\ read_hundredths "" = None.
Proof. repeat split. Qed.

(** What standard output says of a lone surrogate, of two in a row, and of
    text outside ASCII that it can encode. *)
Example prints_of_surrogates :
  print ("  Object Key: a" +:+ lone_surrogate)
  = inl (UnicodeEncodeError
           "'utf-8' codec can't encode character '\ud800' in position 15: surrogates not allowed")
  /\ print ("ab" +:+ lone_surrogate +:+ lone_surrogate +:+ "c")
     = inl (UnicodeEncodeError
              "'utf-8' codec can't encode characters in position 2-3: surrogates not allowed")
  /\ print (String (ascii_of_N 195) (String (ascii_of_N 169) "t" +:+ lone_surrogate))
     = inl (UnicodeEncodeError
              "'utf-8' codec can't encode character '\ud800' in position 2: surrogates not allowed")
  /\ print (String (ascii_of_N 195) (String (ascii_of_N 169) "t")) = inr tt
  /\ printable (PStr lone_surrogate) = false
  /\ printable (PList [PStr lone_surrogate]) = true.
Proof. repeat split; vm_compute; reflexivity. Qed.

(** An upload whose key ends in a lone surrogate: line 68 raises, and the
    ValueError clause reports a configuration error; no copy is made. *)
Example surrogate_key_is_reported_as_a_configuration_error :
  exists notice answer,
    fst (lambda_handler (H := scripted copy_ok publish_ok) upload_with_surrogate tt
           (scripted_state copy_ok publish_ok (environ_of "dst" "topic1")))
    = inl (UnicodeEncodeError
             "'utf-8' codec can't encode character '\ud800' in position 15: surrogates not allowed")
    /\ calls (snd (lambda_handler (H := scripted copy_ok publish_ok) upload_with_surrogate tt
                     (scripted_state copy_ok publish_ok (environ_of "dst" "topic1"))))
       = [CallPublish notice answer]
    /\ Subject notice = "AWS Backup System Error - Configuration Error"
    /\ is_infix "Error: Configuration error: 'utf-8' codec can't encode character"
         (Message notice) = true.
Proof. eexists _, _. repeat split; vm_compute; reflexivity. Qed.

(** By contrast [format_failure_message] reads the clock: the same arguments
    give two different messages one second apart. *)
Lemma format_failure_message_reads_clock :
  fst (format_failure_message (H := scripted copy_ok publish_ok)
         "error" "Exception" (PStr "a.txt") (PStr "src") (PStr "dst")
         (scripted_state copy_ok publish_ok ∅))
  <> fst (format_failure_message (H := scripted copy_ok publish_ok)
            "error" "Exception" (PStr "a.txt") (PStr "src") (PStr "dst")
            (set_world (H := scripted copy_ok publish_ok) 1%N
               (scripted_state copy_ok publish_ok ∅))).
Proof. vm_compute. discriminate. Qed.

(** The success message of the 2048-byte upload. *)
Example success_message_of_upload :
  exists message,
    fst (format_success_message (H := scripted copy_ok publish_ok)
           (PStr "a.txt") (PInt 2048) (PStr "src") (PStr "dst") "2024-01-01 00:00:01 UTC"
           (scripted_state copy_ok publish_ok ∅)) = inr message
    /\ is_infix "File Size: 2,048 bytes (0.00 MB)" message = true.
Proof. eexists. split; vm_compute; reflexivity. Qed.

(** * Part IV: the claims *)

(** C1 (as amended): for an event whose four fields resolve and a complete
    configuration, the handler returns a response exactly when its calls are
    the copy into the backup bucket, answered, followed by the success
    notification to the topic, answered; the response then has status 200 and
    a payload whose destination is backup bucket/object key and whose size is
    the size of the event. *)
Theorem success_iff_copy_and_publish_succeed
    `{Platform} {Ctx} (event : pyval) (context : Ctx) (st : State)
    (bb arn : string) (sb k sz t : pyval) :
  os_environ st !! "BACKUP_BUCKET" = Some bb -> bb <> "" ->
  os_environ st !! "SNS_TOPIC_ARN" = Some arn -> arn <> "" ->
  event_fields event = inr (sb, k, sz, t) ->
  exists new,
    calls (snd (lambda_handler event context st)) = calls st ++ new
    /\ ((exists response, fst (lambda_handler event context st) = inr response)
        <-> (exists copied preq published,
               new = [CallCopyObject (copy_request sb k (PStr bb)) (inr copied);
                      CallPublish preq (inr published)]
               /\ TopicArn preq = PStr arn
               /\ Subject preq = "AWS Backup Success - File Replicated"))
    /\ (forall response,
          fst (lambda_handler event context st) = inr response ->
          statusCode response = 200
          /\ exists payload,
               body response = json_dumps payload
               /\ getitem payload (SKey "destination")
                  = inr (PStr (bb +:+ "/" +:+ py_str k))
               /\ getitem payload (SKey "size_bytes") = inr sz).
Proof.
  intros Eb Hb Ea Ha He.
  pose proof (env_value_set st _ _ Eb Hb) as Tb. rewrite truthy_env_value in Tb.
  pose proof (env_value_set st _ _ Ea Ha) as Ta. rewrite truthy_env_value in Ta.
  pose proof (env_value_is st _ _ Eb) as Vb.
  pose proof (env_value_is st _ _ Ea) as Va.
  destruct (lambda_handler_runs event context st) as (new & Hnew & _ & Hrun).
  exists new. split; [exact Hnew|]. clear Hnew.
  destruct Hrun as [ | | |sb' k' sz' t' e s1 _ _ He' _ _ _
                   |sb' k' sz' t' kb e s1 _ _ He' _ creq _ _
                   |sb' k' sz' t' kb c w1 txt mb e s1 _ _ He' _ _ _ creq _ preq _ _
                   |sb' k' sz' t' kb c w1 txt mb r w2 _ _ He' _ _ _ creq _ ts preq _];
    try congruence;
    assert (sb' = sb /\ k' = k /\ sz' = sz) as (-> & -> & ->)
      by (repeat split; congruence);
    unfold failure_notice.
  - (* one of the lines 67-70 raises *)
    split; [|discriminate].
    split; [intros [? ?]; discriminate | intros (? & ? & ? & ? & _); discriminate].
  - (* the copy raises *)
    split; [|discriminate].
    split; [intros [? ?]; discriminate | intros (? & ? & ? & ? & _); discriminate].
  - (* the success notification raises *)
    split; [|discriminate].
    split; [intros [? ?]; discriminate | intros (? & ? & ? & ? & _); discriminate].
  - (* both calls are answered *)
    subst creq preq. rewrite Vb, Va. split.
    + split; [intros _|intros _; by eexists].
      eexists _, _, _. split; [reflexivity|]. split; reflexivity.
    + intros response [= <-]. split; [reflexivity|].
      eexists. split; [reflexivity|]. split; reflexivity.
Qed.

(** The scenario of the specification: the 2048-byte upload of a.txt into src,
    backed up to dst, with both calls answered. *)
Lemma success_iff_copy_and_publish_succeed_witness :
  exists response,
    fst (lambda_handler (H := scripted copy_ok publish_ok) upload tt
           (scripted_state copy_ok publish_ok (environ_of "dst" "topic1"))) = inr response
    /\ statusCode response = 200
    /\ exists payload,
         body response = json_text payload
         /\ getitem payload (SKey "destination") = inr (PStr "dst/a.txt")
         /\ getitem payload (SKey "size_bytes") = inr (PInt 2048).
Proof.
  destruct (success_iff_copy_and_publish_succeed (H := scripted copy_ok publish_ok)
              upload tt (scripted_state copy_ok publish_ok (environ_of "dst" "topic1"))
              "dst" "topic1" (PStr "src") (PStr "a.txt") (PInt 2048)
              (PStr "2024-01-01T00:00:00Z"))
    as (new & _ & _ & Hresponse);
    [vm_compute; reflexivity | discriminate | vm_compute; reflexivity | discriminate
    | vm_compute; reflexivity |].
  eexists. split; [vm_compute; reflexivity|].
  apply Hresponse. vm_compute. reflexivity.
Defined.

(** C1 as stated fails when the copy succeeds and the success notification
    cannot be published: the copy call is answered, yet the handler raises. *)
Lemma copied_but_not_notified_is_a_failure :
  exists creq copied rest,
    calls (snd (lambda_handler (H := scripted copy_ok publish_down) upload tt
                  (scripted_state copy_ok publish_down (environ_of "dst" "topic1"))))
    = CallCopyObject creq (inr copied) :: rest
    /\ fst (lambda_handler (H := scripted copy_ok publish_down) upload tt
              (scripted_state copy_ok publish_down (environ_of "dst" "topic1")))
       = inl endpoint_down.
Proof. eexists _, _, _. split; vm_compute; reflexivity. Qed.

(** C2 (as amended): whenever the copy call raises [e], the handler raises
    [e] itself and makes exactly one more call, the publish of a failure
    notification to the configured topic, whose own answer or exception does
    not matter.  The failure is the generic storage error, reported under
    the failure subject with the name of the class of [e], when [e] is
    neither a KeyError nor a ValueError; the notification always has the
    subject of the clause that the class of [e] selects. *)
Theorem copy_error_is_reported_and_reraised
    `{Platform} {Ctx} (event : pyval) (context : Ctx) (st : State)
    (creq : CopyObjectRequest) (e : PyExn) (rest : list Call) :
  calls (snd (lambda_handler event context st))
  = calls st ++ CallCopyObject creq (inl e) :: rest ->
  fst (lambda_handler event context st) = inl e
  /\ exists notice answer,
       rest = [CallPublish notice answer]
       /\ truthy (TopicArn notice) = true
       /\ Subject notice = failure_subject (classify e)
       /\ (exn_base e = IsOtherException ->
           classify e = StorageOperationError
           /\ Subject notice = "AWS Backup FAILURE - Action Required"
           /\ contains (Message notice) ("Error Type: " +:+ exn_name e)).
Proof.
  intros Hcalls.
  destruct (lambda_handler_runs event context st) as (new & Hnew & _ & Hrun).
  rewrite Hnew in Hcalls. apply app_inv_head in Hcalls.
  destruct Hrun as [ | | | |sb k sz t kb e' st1 Tb Ta He Hs creq' Hcopy Hl
                   |sb k sz t kb c w1 txt mb e' st1 Tb Ta He Hs Hmb Htxt creq' Hcopy preq
                      Hpub Hl
                   |sb k sz t kb c w1 txt mb r w2 Tb Ta He Hs Hmb Htxt creq' Hcopy ts preq
                      Hpub];
    unfold failure_notice in Hcalls; try discriminate.
  injection Hcalls as -> -> <-.
  split; [reflexivity|].
  eexists _, _. split; [reflexivity|].
  rewrite failure_request_topic, failure_request_subject.
  split; [by rewrite truthy_env_value|]. split; [reflexivity|].
  intros Hb. split; [unfold classify; by rewrite Hb|].
  split; [unfold classify; by rewrite Hb|].
  by apply failure_request_names_class.
Qed.

(** S3 denies the copy and SNS is unreachable: the handler raises the error
    of S3, not that of SNS. *)
Lemma copy_error_is_reported_and_reraised_witness :
  fst (lambda_handler (H := scripted copy_denied publish_down) upload tt
         (scripted_state copy_denied publish_down (environ_of "dst" "topic1")))
  = inl access_denied.
Proof.
  eapply (copy_error_is_reported_and_reraised (H := scripted copy_denied publish_down)
            upload tt (scripted_state copy_denied publish_down (environ_of "dst" "topic1"))).
  vm_compute. reflexivity.
Defined.

(** C2 as stated fails for a copy error that is a ValueError: the copy call
    raises, and the failure is handled, and announced, as a configuration
    error. *)
Lemma value_error_from_copy_is_a_configuration_error :
  exists creq notice answer,
    calls (snd (lambda_handler (H := scripted copy_bad_key publish_ok) upload tt
                  (scripted_state copy_bad_key publish_ok (environ_of "dst" "topic1"))))
    = [CallCopyObject creq (inl bad_key_encoding); CallPublish notice answer]
    /\ fst (lambda_handler (H := scripted copy_bad_key publish_ok) upload tt
              (scripted_state copy_bad_key publish_ok (environ_of "dst" "topic1")))
       = inl bad_key_encoding
    /\ classify bad_key_encoding = ConfigurationError
    /\ classify bad_key_encoding <> StorageOperationError
    /\ Subject notice = "AWS Backup System Error - Configuration Error".
Proof.
  eexists _, _, _. split; [vm_compute; reflexivity|].
  split; [vm_compute; reflexivity|]. split; [reflexivity|]. split; [discriminate|].
  reflexivity.
Qed.

(** C3: when BACKUP_BUCKET or SNS_TOPIC_ARN is absent or empty, the handler
    raises a configuration error whose message names a variable that is
    indeed unset, makes no copy call, and does so whatever the event is: the
    check comes before the event is read. *)
Theorem unset_variable_is_configuration_error
    `{Platform} {Ctx} (event : pyval) (context : Ctx) (st : State) :
  is_set (os_environ st) "BACKUP_BUCKET" = false
  \/ is_set (os_environ st) "SNS_TOPIC_ARN" = false ->
  exists e st' new name,
    lambda_handler event context st = (inl e, st')
    /\ classify e = ConfigurationError
    /\ (name = "BACKUP_BUCKET" \/ name = "SNS_TOPIC_ARN")
    /\ is_set (os_environ st) name = false
    /\ exn_str e = name +:+ " environment variable not set"
    /\ calls st' = calls st ++ new
    /\ copy_calls new = []
    /\ forall event', lambda_handler event' context st = (inl e, st').
Proof.
  intros Hu.
  assert (is_set (os_environ st) "BACKUP_BUCKET"
          && is_set (os_environ st) "SNS_TOPIC_ARN" = false) as Hc.
  { destruct Hu as [-> | ->]; [reflexivity | apply andb_false_r]. }
  set (e := unset_error (os_environ st)).
  set (st1 := set_locals (config_frame (fresh st)) st).
  assert (exists st' new, except_clauses e st1 = (inl e, st')
            /\ calls st' = calls st ++ new
            /\ copy_calls new = []) as (st' & new & Hrun & Hcalls & Hnew).
  { destruct (truthy (env_value st "SNS_TOPIC_ARN")) eqn:Ht.
    - rewrite (except_clauses_report e (env_value st "SNS_TOPIC_ARN") st1)
        by (try apply config_frame_topic; done).
      eexists _, [_]. split; [reflexivity|]. split; reflexivity.
    - destruct (except_clauses_silent e st1) as (st' & Hrun & Hcalls & _).
      { unfold st1. cbn [locals set_locals]. rewrite config_frame_topic. exact Ht. }
      exists st', []. rewrite app_nil_r. by repeat split. }
  exists e, st', new, (first_unset (os_environ st)).
  split; [by rewrite lambda_handler_unconfigured|].
  split; [reflexivity|].
  split; [unfold first_unset; destruct (is_set (os_environ st) "BACKUP_BUCKET"); auto|].
  split.
  { unfold first_unset. destruct (is_set (os_environ st) "BACKUP_BUCKET") eqn:Hb; [|done].
    by destruct Hu. }
  split; [reflexivity|].
  split; [done|]. split; [done|].
  intros event'. by rewrite lambda_handler_unconfigured.
Qed.

(** Only BACKUP_BUCKET is set: the error names SNS_TOPIC_ARN. *)
Lemma unset_variable_is_configuration_error_witness :
  exists e st',
    lambda_handler (H := scripted copy_ok publish_ok)
      (s3_event "src" "a.txt" 2048 "2024-01-01T00:00:00Z") tt
      (scripted_state copy_ok publish_ok (<["BACKUP_BUCKET" := "dst"]> ∅)) = (inl e, st')
    /\ exn_str e = "SNS_TOPIC_ARN environment variable not set".
Proof.
  destruct (unset_variable_is_configuration_error (H := scripted copy_ok publish_ok)
              (s3_event "src" "a.txt" 2048 "2024-01-01T00:00:00Z") tt
              (scripted_state copy_ok publish_ok (<["BACKUP_BUCKET" := "dst"]> ∅)))
    as (e & st' & new & name & Hrun & _).
  - right. vm_compute. reflexivity.
  - exists e, st'. split; [exact Hrun|].
    vm_compute in Hrun. injection Hrun as <- _. reflexivity.
Defined.

(** C4: on an event whose list of records is present but empty, with a
    complete configuration, the lookup [event['Records'][0]] raises an
    IndexError, which the clause [except KeyError], written to handle
    malformed event data, does not catch: the handler raises it, makes no
    copy call, and reports it under the subject of the catch-all clause, as
    the generic storage failure and not as a malformed event.  An event that
    lacks the object key, by contrast, is reported under 'Invalid Event
    Data'. *)
Theorem empty_records_are_not_reported_as_malformed :
  (exists e notice answer,
     fst (lambda_handler (H := scripted copy_ok publish_ok) no_records tt
            (scripted_state copy_ok publish_ok (environ_of "dst" "topic1"))) = inl e
     /\ e = IndexError "list index out of range"
     /\ classify e = StorageOperationError
     /\ calls (snd (lambda_handler (H := scripted copy_ok publish_ok) no_records tt
                      (scripted_state copy_ok publish_ok (environ_of "dst" "topic1"))))
        = [CallPublish notice answer]
     /\ Subject notice = "AWS Backup FAILURE - Action Required")
  /\ (exists e notice answer,
        fst (lambda_handler (H := scripted copy_ok publish_ok) upload_without_key tt
               (scripted_state copy_ok publish_ok (environ_of "dst" "topic1"))) = inl e
        /\ e = KeyError "'key'"
        /\ classify e = MalformedEvent
        /\ calls (snd (lambda_handler (H := scripted copy_ok publish_ok) upload_without_key
                         tt (scripted_state copy_ok publish_ok (environ_of "dst" "topic1"))))
           = [CallPublish notice answer]
        /\ Subject notice = "AWS Backup System Error - Invalid Event Data").
Proof.
  split; eexists _, _, _; repeat split; vm_compute; reflexivity.
Qed.

(** C5: the handler either returns the response of its [try] block, whose
    status code is 200 and whose body is a serialised payload, or raises the
    very exception its [try] block raised: no clause returns a value or
    swallows the failure. *)
Theorem handler_returns_200_or_reraises
    `{Platform} {Ctx} (event : pyval) (context : Ctx) (st : State) :
  match fst (lambda_handler event context st) with
  | inr response =>
      statusCode response = 200
      /\ (exists payload, body response = json_dumps payload)
      /\ fst (try_block event (fresh st)) = inr response
  | inl e => fst (try_block event (fresh st)) = inl e
  end.
Proof.
  rewrite lambda_handler_outcome.
  destruct (try_block event (fresh st)) as [[e|response] st'] eqn:Hrun; cbn [fst]; [done|].
  destruct (try_block_returns _ _ _ _ Hrun) as (sb & k & sz & t & ts & _ & ->).
  split; [reflexivity|]. split; [|reflexivity]. by eexists.
Qed.

(** C6 (as amended): when SNS_TOPIC_ARN is absent or empty the handler
    raises a configuration error and makes no call at all, so no
    notification is published; the message names SNS_TOPIC_ARN when
    BACKUP_BUCKET is set, and BACKUP_BUCKET, which is checked first, when
    that one is unset too. *)
Theorem unset_topic_is_reported_to_nobody
    `{Platform} {Ctx} (event : pyval) (context : Ctx) (st : State) :
  is_set (os_environ st) "SNS_TOPIC_ARN" = false ->
  exists e st',
    lambda_handler event context st = (inl e, st')
    /\ classify e = ConfigurationError
    /\ calls st' = calls st
    /\ (is_set (os_environ st) "BACKUP_BUCKET" = true ->
        exn_str e = "SNS_TOPIC_ARN environment variable not set"
        /\ contains (exn_str e) "SNS_TOPIC_ARN")
    /\ (is_set (os_environ st) "BACKUP_BUCKET" = false ->
        exn_str e = "BACKUP_BUCKET environment variable not set").
Proof.
  intros Ha.
  rewrite lambda_handler_unconfigured by (rewrite Ha; apply andb_false_r).
  destruct (except_clauses_silent (unset_error (os_environ st))
              (set_locals (config_frame (fresh st)) st))
    as (st' & Hrun & Hcalls & _).
  { cbn [locals set_locals]. rewrite config_frame_topic. cbn [default from_option id].
    change (env_value (fresh st) "SNS_TOPIC_ARN") with (env_value st "SNS_TOPIC_ARN").
    by rewrite truthy_env_value. }
  exists (unset_error (os_environ st)), st'.
  split; [exact Hrun|]. split; [reflexivity|]. split; [exact Hcalls|].
  unfold unset_error, first_unset.
  split; intros ->; [|reflexivity].
  split; [reflexivity|]. apply (contains_here "" "SNS_TOPIC_ARN").
Qed.

(** Only BACKUP_BUCKET is set: the handler fails without a single call. *)
Lemma unset_topic_is_reported_to_nobody_witness :
  exists e st',
    lambda_handler (H := scripted copy_ok publish_ok)
      (s3_event "src" "a.txt" 2048 "2024-01-01T00:00:00Z") tt
      (scripted_state copy_ok publish_ok (<["BACKUP_BUCKET" := "dst"]> ∅)) = (inl e, st')
    /\ calls st' = [].
Proof.
  destruct (unset_topic_is_reported_to_nobody (H := scripted copy_ok publish_ok)
              (s3_event "src" "a.txt" 2048 "2024-01-01T00:00:00Z") tt
              (scripted_state copy_ok publish_ok (<["BACKUP_BUCKET" := "dst"]> ∅)))
    as (e & st' & Hrun & _ & Hcalls & _).
  - vm_compute. reflexivity.
  - exists e, st'. split; [exact Hrun | exact Hcalls].
Defined.

(** C6 as stated fails when BACKUP_BUCKET is unset as well: with an empty
    environment SNS_TOPIC_ARN is missing, and the error that is raised does
    not mention it. *)
Lemma both_unset_names_the_bucket :
  is_set (∅ : gmap string string) "SNS_TOPIC_ARN" = false
  /\ exists e,
       fst (lambda_handler (H := scripted copy_ok publish_ok)
              (s3_event "src" "a.txt" 2048 "2024-01-01T00:00:00Z") tt
              (scripted_state copy_ok publish_ok ∅)) = inl e
       /\ exn_str e = "BACKUP_BUCKET environment variable not set"
       /\ ~ contains (exn_str e) "SNS_TOPIC_ARN".
Proof.
  split; [reflexivity|].
  eexists. split; [vm_compute; reflexivity|]. split; [reflexivity|].
  intros Hc. apply is_infix_contains in Hc. vm_compute in Hc. discriminate.
Qed.




(** C8 (as amended): with collaborators that are idempotent, the outcome of a
    copy request and the outcome of a publish to a topic under a subject
    being the same whenever they are made, calling the handler a second
    time on the same event, in the state the first call left, ends with the
    same kind of outcome as the first call: a response both times, or the
    same kind of failure both times; and so does a call from any other
    state with the same environment. *)
Theorem second_call_has_same_kind_of_outcome
    `{Platform} {Ctx} (event : pyval) (context context' : Ctx) (st : State) :
  stable_copy -> stable_publish ->
  outcome_kind (fst (lambda_handler event context'
                       (snd (lambda_handler event context st))))
  = outcome_kind (fst (lambda_handler event context st))
  /\ forall st',
       os_environ st' = os_environ st ->
       outcome_kind (fst (lambda_handler event context' st'))
       = outcome_kind (fst (lambda_handler event context st)).
Proof.
  intros Hcopy Hpub.
  assert (forall st', os_environ st' = os_environ st ->
            outcome_kind (fst (lambda_handler event context' st'))
            = outcome_kind (fst (lambda_handler event context st))) as Hany.
  { intros st' Henv.
    destruct (lambda_handler_runs event context st) as (new & _ & _ & R).
    destruct (lambda_handler_runs event context' st') as (new' & _ & _ & R').
    symmetry. by eapply handler_run_same_kind. }
  split; [|exact Hany].
  apply Hany.
  by destruct (lambda_handler_runs event context st) as (new & _ & Henv & _).
Qed.

(** S3 denies every copy: the second call fails like the first, with the
    generic storage error. *)
Lemma second_call_has_same_kind_of_outcome_witness :
  outcome_kind
    (fst (lambda_handler (H := scripted copy_denied publish_ok) upload tt
            (snd (lambda_handler (H := scripted copy_denied publish_ok) upload tt
                    (scripted_state copy_denied publish_ok (environ_of "dst" "topic1"))))))
  = Some StorageOperationError.
Proof.
  destruct (second_call_has_same_kind_of_outcome (H := scripted copy_denied publish_ok)
              upload tt tt
              (scripted_state copy_denied publish_ok (environ_of "dst" "topic1")))
    as [Hsecond _].
  - intros req w w'. reflexivity.
  - intros req req' w w' _ _. reflexivity.
  - rewrite Hsecond. vm_compute. reflexivity.
Defined.

(** C8 as stated fails: S3 answers every copy, and SNS is a deterministic
    function that is down for the messages stamped 00:00:01.  The first
    call copies, stamps its success message with that second and fails on
    the publish; the second call, three seconds later, returns. *)
Lemma publish_that_reads_the_message_changes_the_outcome :
  stable_copy (H := scripted copy_ok (publish_unless "Timestamp: 2024-01-01 00:00:01"))
  /\ outcome_kind
       (fst (lambda_handler
               (H := scripted copy_ok (publish_unless "Timestamp: 2024-01-01 00:00:01"))
               upload tt
               (scripted_state copy_ok (publish_unless "Timestamp: 2024-01-01 00:00:01")
                  (environ_of "dst" "topic1"))))
     = Some StorageOperationError
  /\ outcome_kind
       (fst (lambda_handler
               (H := scripted copy_ok (publish_unless "Timestamp: 2024-01-01 00:00:01"))
               upload tt
               (snd (lambda_handler
                       (H := scripted copy_ok
                               (publish_unless "Timestamp: 2024-01-01 00:00:01"))
                       upload tt
                       (scripted_state copy_ok
                          (publish_unless "Timestamp: 2024-01-01 00:00:01")
                          (environ_of "dst" "topic1"))))))
     = None.
Proof.
  split; [intros req w w'; reflexivity|].
  split; vm_compute; reflexivity.
Qed.

(** C9: [format_success_message] is a pure, deterministic function: with the
    same arguments it gives the same result in every state of the world,
    and it leaves the state as it is; it returns a message for every size
    below 2^53; and every message it returns shows, each under its label,
    the object key, the size in bytes, whose digits read back as the size,
    the size in megabytes, a number with two decimals that is the size
    divided by 2^20 to the nearest hundredth (for a size of 2^53 and more, up
    to the rounding of the quotient to a float as well), the source bucket,
    the backup bucket and the timestamp. *)
Theorem format_success_message_is_pure
    `{Platform} (object_key source_bucket backup_bucket timestamp : string)
    (file_size : Z) (st st' : State) :
  let call := format_success_message (PStr object_key) (PInt file_size)
                (PStr source_bucket) (PStr backup_bucket) timestamp in
  fst (call st) = fst (call st')
  /\ snd (call st) = st
  /\ (Z.abs file_size < 2 ^ 53 -> exists message, fst (call st) = inr message)
  /\ forall message,
       fst (call st) = inr message ->
       contains message ("File Name: " +:+ object_key)
       /\ (exists size_text megabytes_text hundredths,
             contains message ("File Size: " +:+ size_text +:+ " bytes ("
                               +:+ megabytes_text +:+ " MB)")
             /\ read_int (remove_commas size_text) = Some file_size
             /\ read_hundredths megabytes_text = Some hundredths
             /\ 2 ^ 53 * Z.abs (hundredths * 2 ^ 20 - 100 * file_size)
                <= 2 ^ 72 + 100 * Z.abs file_size
             /\ (Z.abs file_size < 2 ^ 53 ->
                 2 * Z.abs (hundredths * 2 ^ 20 - 100 * file_size) <= 2 ^ 20))
       /\ contains message ("Source Location:
---------------
Bucket: " +:+ source_bucket)
       /\ contains message ("Backup Location:
---------------
Bucket: " +:+ backup_bucket)
       /\ contains message ("Timestamp: " +:+ timestamp).
Proof.
  cbv zeta. run_monad. cbn [truediv_pow2 format_grouped py_str].
  split; [by destruct (int_truediv_pow2 file_size 20)|].
  split; [by destruct (int_truediv_pow2 file_size 20)|].
  split.
  { intros Hn. rewrite megabytes_of_small_size by done. by eexists. }
  intros message.
  destruct (int_truediv_pow2 file_size 20) as [e|mb] eqn:Hmb; [discriminate|].
  cbn [fst]. intros [= <-].
  pose proof (success_message_fields object_key (format_int_grouped file_size)
                (format_2f mb) source_bucket backup_bucket timestamp) as Hfields.
  cbv zeta in Hfields. destruct Hfields as (Hname & Hsize & Hsource & Hbackup & Htime).
  split; [exact Hname|]. split; [|by repeat split].
  destruct (megabytes_shown _ _ Hmb) as (h & Hfmt & Hbound & Hsmall).
  exists (format_int_grouped file_size), (format_2f mb),
         (if file_size <? 0 then - Z.of_N h else Z.of_N h).
  split; [exact Hsize|].
  split; [by rewrite remove_commas_grouped, read_int_str|].
  split; [rewrite Hfmt; apply read_hundredths_text|].
  change (2 ^ 53) with 9007199254740992 in *.
  change (2 ^ 72) with 4722366482869645213696 in *.
  change (2 ^ 20) with 1048576 in *.
  destruct (Z.ltb_spec file_size 0); lia.
Qed.

(** C10: [send_failure_notification] always returns normally.  Without a
    usable topic (None or the empty string) it returns at once and the state
    is untouched; otherwise it makes exactly one publish call, and returns
    normally whether that call answers or raises. *)
Theorem send_failure_notification_never_raises
    `{Platform} (sns_topic_arn : pyval) (error_msg error_category : string) (st : State) :
  exists st',
    send_failure_notification sns_topic_arn error_msg error_category st = (inr tt, st')
    /\ (truthy sns_topic_arn = false -> st' = st)
    /\ (truthy sns_topic_arn = true ->
        exists req res,
          calls st' = calls st ++ [CallPublish req res]
          /\ TopicArn req = sns_topic_arn
          /\ res = fst (sns_publish req (snd (datetime_now (world st)))))
    /\ send_failure_notification PNone error_msg error_category st = (inr tt, st)
    /\ send_failure_notification (PStr "") error_msg error_category st = (inr tt, st).
Proof.
  destruct (truthy sns_topic_arn) eqn:Ht.
  - rewrite send_failure_notification_run by done.
    eexists. split; [reflexivity|]. split; [done|].
    split; [|split; reflexivity].
    intros _. eexists _, _. split; [reflexivity|]. split; reflexivity.
  - rewrite send_failure_notification_skip by done.
    exists st. split; [reflexivity|]. split; [done|].
    split; [done|split; reflexivity].
Qed.

(** * Part V: further properties of the code *)

(** ** What every call of a run looks like *)

Section Calls.
Context `{Platform}.

Lemma is_set_value env name :
  is_set env name = true -> exists v, env !! name = Some v /\ v <> "".
Proof.
  unfold is_set. destruct (env !! name) as [v|]; [|discriminate].
  intros Hv. exists v. split; [reflexivity|].
  intros ->. discriminate.
Qed.

Lemma failure_notice_in_order event st e st1 :
  is_set (os_environ st) "SNS_TOPIC_ARN" = true ->
  call_in_order event st (failure_notice e (env_value st "SNS_TOPIC_ARN") st1).
Proof.
  intros Ta. unfold failure_notice, call_in_order.
  rewrite failure_request_topic, failure_request_subject.
  split; [exact Ta|]. split; [reflexivity|].
  unfold subjects.
  destruct (classify e);
    [right; left|right; right; left|right; right; right; left]; reflexivity.
Qed.

Lemma copy_call_in_order event st sb k sz t answer :
  is_set (os_environ st) "BACKUP_BUCKET" = true ->
  is_set (os_environ st) "SNS_TOPIC_ARN" = true ->
  event_fields event = inr (sb, k, sz, t) ->
  fst (s3_copy_object (copy_request sb k (env_value st "BACKUP_BUCKET")) (world st))
  = answer ->
  call_in_order event st
    (CallCopyObject (copy_request sb k (env_value st "BACKUP_BUCKET")) answer).
Proof.
  intros Tb Ta He Hc. cbn [call_in_order].
  split; [exact Tb|]. split; [exact Ta|]. split; [|by rewrite Hc].
  exists sb, k, sz, t. split; [exact He|reflexivity].
Qed.

Lemma success_publish_in_order event st message answer :
  is_set (os_environ st) "SNS_TOPIC_ARN" = true ->
  call_in_order event st
    (CallPublish (success_request (env_value st "SNS_TOPIC_ARN") message) answer).
Proof.
  intros Ta. cbn [call_in_order TopicArn Subject success_request].
  split; [exact Ta|]. split; [reflexivity|]. left. reflexivity.
Qed.

(** Every call of a run is in order. *)
Lemma handler_run_calls event st r new :
  handler_run event st r new -> Forall (call_in_order event st) new.
Proof.
  intros Hrun.
  destruct Hrun as [Ta|s1 Tb Ta _|e s1 Tb Ta He _ _|sb k sz t e s1 Tb Ta He Hs _ _
                   |sb k sz t kb e s1 Tb Ta He Hs creq Hc _
                   |sb k sz t kb c w1 txt mb e s1 Tb Ta He Hs Hmb Htxt creq Hc preq Hp _
                   |sb k sz t kb c w1 txt mb r0 w2 Tb Ta He Hs Hmb Htxt creq Hc ts preq Hp].
  - constructor.
  - constructor; [by apply failure_notice_in_order|constructor].
  - constructor; [by apply failure_notice_in_order|constructor].
  - constructor; [by apply failure_notice_in_order|constructor].
  - constructor; [apply (copy_call_in_order event st sb k sz t); [done..|subst creq; by rewrite Hc]|].
    constructor; [by apply failure_notice_in_order|constructor].
  - constructor; [apply (copy_call_in_order event st sb k sz t); [done..|subst creq; by rewrite Hc]|].
    constructor; [by apply success_publish_in_order|].
    constructor; [by apply failure_notice_in_order|constructor].
  - constructor; [apply (copy_call_in_order event st sb k sz t); [done..|subst creq; by rewrite Hc]|].
    constructor; [by apply success_publish_in_order|constructor].
Qed.

Lemma event_fields_resolved event sb k sz t :
  event_fields event = inr (sb, k, sz, t) ->
  getpath event bucket_name_path = inr sb
  /\ getpath event object_key_path = inr k
  /\ getpath event object_size_path = inr sz
  /\ getpath event event_time_path = inr t.
Proof.
  unfold event_fields.
  destruct (getpath event bucket_name_path); [discriminate|].
  destruct (getpath event object_key_path); [discriminate|].
  destruct (getpath event object_size_path); [discriminate|].
  destruct (getpath event event_time_path); [discriminate|].
  by intros [= -> -> -> ->].
Qed.

End Calls.

Lemma failure_subject_not_success (k : ErrorKind) : failure_subject k <> success_subject.
Proof. destruct k; discriminate. Qed.

(** X1: whatever the event and the state, the handler only appends to the
    trace, at most three calls; at most one of them is a copy, and a copy is
    never made after another call: the copy comes first or not at all. *)
Theorem handler_copies_at_most_once_and_first
    `{Platform} {Ctx} (event : pyval) (context : Ctx) (st : State) :
  exists new,
    calls (snd (lambda_handler event context st)) = calls st ++ new
    /\ (length new <= 3)%nat
    /\ (length (copy_calls new) <= 1)%nat
    /\ copy_calls (tail new) = [].
Proof.
  destruct (lambda_handler_runs event context st) as (new & Hnew & _ & Hrun).
  exists new. split; [exact Hnew|].
  destruct Hrun; unfold failure_notice; cbn [length copy_calls tail List.filter is_copy];
    repeat split; try reflexivity; lia.
Qed.

(** X2: every copy call the handler makes asks for AES256 encryption, copies
    the object named by the event (bucket name and key as the event gives
    them) under the same key into the bucket that BACKUP_BUCKET names, which
    is not empty, and is answered by S3 in the state of the world the
    handler started in: nothing was called before it. *)
Theorem every_copy_is_encrypted_and_keeps_the_key
    `{Platform} {Ctx} (event : pyval) (context : Ctx) (st : State) :
  exists new,
    calls (snd (lambda_handler event context st)) = calls st ++ new
    /\ forall req res,
         In (CallCopyObject req res) new ->
         ServerSideEncryption req = "AES256"
         /\ Key req = CopySource_Key req
         /\ getpath event bucket_name_path = inr (CopySource_Bucket req)
         /\ getpath event object_key_path = inr (Key req)
         /\ (exists bb, os_environ st !! "BACKUP_BUCKET" = Some bb /\ bb <> ""
                        /\ Bucket req = PStr bb)
         /\ res = fst (s3_copy_object req (world st)).
Proof.
  destruct (lambda_handler_runs event context st) as (new & Hnew & _ & Hrun).
  exists new. split; [exact Hnew|]. intros req res Hin.
  pose proof (handler_run_calls _ _ _ _ Hrun) as Hall.
  rewrite List.Forall_forall in Hall. specialize (Hall _ Hin).
  destruct Hall as (Tb & _ & (sb & k & sz & t & He & ->) & ->).
  destruct (event_fields_resolved _ _ _ _ _ He) as (Hsb & Hk & _ & _).
  destruct (is_set_value _ _ Tb) as (bb & Eb & Hbb).
  repeat split; try done.
  exists bb. repeat split; try done. cbn [Bucket copy_request]. by apply env_value_is.
Qed.

(** X3: every notification the handler publishes, of success or of failure,
    goes to the topic that SNS_TOPIC_ARN names, which is not empty, under one
    of its four subject lines. *)
Theorem every_publish_goes_to_the_topic
    `{Platform} {Ctx} (event : pyval) (context : Ctx) (st : State) :
  exists new,
    calls (snd (lambda_handler event context st)) = calls st ++ new
    /\ forall req res,
         In (CallPublish req res) new ->
         (exists arn, os_environ st !! "SNS_TOPIC_ARN" = Some arn /\ arn <> ""
                      /\ TopicArn req = PStr arn)
         /\ In (Subject req) subjects.
Proof.
  destruct (lambda_handler_runs event context st) as (new & Hnew & _ & Hrun).
  exists new. split; [exact Hnew|]. intros req res Hin.
  pose proof (handler_run_calls _ _ _ _ Hrun) as Hall.
  rewrite List.Forall_forall in Hall. specialize (Hall _ Hin).
  destruct Hall as (Ta & Htopic & Hsubject).
  destruct (is_set_value _ _ Ta) as (arn & Ea & Harn).
  split; [|exact Hsubject].
  exists arn. repeat split; try done. rewrite Htopic. by apply env_value_is.
Qed.

(** X4: a success notification is published only right after a copy that S3
    answered: when a call of the handler is a publish under the success
    subject, it is the second call, and the first is an answered copy. *)
Theorem success_notice_follows_an_answered_copy
    `{Platform} {Ctx} (event : pyval) (context : Ctx) (st : State) :
  exists new,
    calls (snd (lambda_handler event context st)) = calls st ++ new
    /\ forall req res,
         In (CallPublish req res) new ->
         Subject req = success_subject ->
         exists creq copied rest,
           new = CallCopyObject creq (inr copied) :: CallPublish req res :: rest.
Proof.
  destruct (lambda_handler_runs event context st) as (new & Hnew & _ & Hrun).
  exists new. split; [exact Hnew|]. intros req res Hin Hsubject.
  assert (forall e arn s1, CallPublish req res <> failure_notice e arn s1) as Hno.
  { intros e arn s1 [= -> _]. rewrite failure_request_subject in Hsubject.
    by apply failure_subject_not_success in Hsubject. }
  destruct Hrun; cbn [In] in Hin;
    repeat match goal with
           | H : _ \/ _ |- _ => destruct H as [H|H]
           | H : False |- _ => destruct H
           | H : failure_notice _ _ _ = CallPublish _ _ |- _ =>
               symmetry in H; by apply Hno in H
           | H : CallCopyObject _ _ = CallPublish _ _ |- _ => discriminate H
           end.
  - injection Hin as <- <-. by eexists _, _, _.
  - injection Hin as <- <-. by eexists _, _, _.
Qed.

(** X5: when the handler returns, its calls are the answered copy and the
    answered success notification; the time in the body of the response is
    the time printed in the notification, read from the clock once, right
    after the copy; and the body names the source as bucket/key of the
    event. *)
Theorem response_and_notice_agree
    `{Platform} {Ctx} (event : pyval) (context : Ctx) (st : State) (response : Response) :
  fst (lambda_handler event context st) = inr response ->
  exists sb k bb sz ts creq copied preq published,
    calls (snd (lambda_handler event context st))
    = calls st ++ [CallCopyObject creq (inr copied); CallPublish preq (inr published)]
    /\ getpath event bucket_name_path = inr sb
    /\ getpath event object_key_path = inr k
    /\ body response = json_dumps (success_body sb k bb sz ts)
    /\ getitem (success_body sb k bb sz ts) (SKey "message")
       = inr (PStr "Backup completed successfully")
    /\ getitem (success_body sb k bb sz ts) (SKey "source")
       = inr (PStr (py_str sb +:+ "/" +:+ py_str k))
    /\ getitem (success_body sb k bb sz ts) (SKey "timestamp") = inr (PStr ts)
    /\ ts = strftime (fst (datetime_now (snd (s3_copy_object creq (world st)))))
    /\ contains (Message preq) ("Timestamp: " +:+ ts)
    /\ contains (Message preq) ("File Name: " +:+ py_str k).
Proof.
  intros Hret.
  destruct (lambda_handler_runs event context st) as (new & Hnew & _ & Hrun).
  revert Hret.
  destruct Hrun as [ | | | | |
                   |sb k sz t kb c w1 txt mb r w2 _ _ He _ _ _ creq Hc ts preq _];
    intros Hret; try discriminate Hret.
  injection Hret as <-.
  destruct (event_fields_resolved _ _ _ _ _ He) as (Hsb & Hk & _ & _).
  exists sb, k, (env_value st "BACKUP_BUCKET"), sz, ts, creq, c, preq, r.
  split; [exact Hnew|]. split; [exact Hsb|]. split; [exact Hk|].
  split; [reflexivity|]. split; [reflexivity|]. split; [reflexivity|].
  split; [reflexivity|].
  split; [subst ts; by rewrite Hc|].
  subst preq. cbn [Message success_request]. unfold success_message_of.
  split; apply success_message_fields.
Qed.

(** The 2048-byte upload, answered twice. *)
Lemma response_and_notice_agree_witness :
  exists creq copied preq published,
    calls (snd (lambda_handler (H := scripted copy_ok publish_ok) upload tt
                  (scripted_state copy_ok publish_ok (environ_of "dst" "topic1"))))
    = [CallCopyObject creq (inr copied); CallPublish preq (inr published)].
Proof.
  edestruct (response_and_notice_agree (H := scripted copy_ok publish_ok) upload tt
               (scripted_state copy_ok publish_ok (environ_of "dst" "topic1")))
    as (sb & k & bb & sz & ts & creq & c & preq & r & Hcalls & _).
  - vm_compute. reflexivity.
  - eexists _, _, _, _. exact Hcalls.
Defined.

(** ** What the frame binds when the [try] block raises *)

Section Frames.
Context `{Platform}.

Lemma extract_file_information_frame event st :
  exists frame,
    extract_file_information event st = (event_fields event, set_locals frame st)
    /\ frame !! "sns_topic_arn" = locals st !! "sns_topic_arn"
    /\ frame !! "backup_bucket" = locals st !! "backup_bucket"
    /\ frame !! "source_bucket"
       = match getpath event bucket_name_path with
         | inr sb => Some sb
         | inl _ => locals st !! "source_bucket"
         end
    /\ frame !! "object_key"
       = match getpath event bucket_name_path, getpath event object_key_path with
         | inr _, inr k => Some k
         | _, _ => locals st !! "object_key"
         end.
Proof.
  unfold extract_file_information, event_fields. run_calls.
  destruct (getpath event bucket_name_path) as [e|sb]; run_calls.
  { exists (locals st). by destruct st. }
  destruct (getpath event object_key_path) as [e|k]; run_calls;
    [|destruct (getpath event object_size_path) as [e|sz]; run_calls;
      [|destruct (getpath event event_time_path) as [e|t]; run_calls]];
    (eexists; split; [reflexivity|]; repeat split;
     repeat (first [rewrite lookup_insert_eq | rewrite lookup_insert_ne by done]);
     reflexivity).
Qed.

(** The frame in which a lookup of lines 61-64 raised, in a call with a
    complete configuration. *)
Lemma lambda_handler_bad_event_frame {Ctx} event (context : Ctx) st e :
  is_set (os_environ st) "BACKUP_BUCKET" = true ->
  is_set (os_environ st) "SNS_TOPIC_ARN" = true ->
  event_fields event = inl e ->
  exists s1,
    calls (snd (lambda_handler event context st))
    = calls st ++ [failure_notice e (env_value st "SNS_TOPIC_ARN") s1]
    /\ locals s1 !! "backup_bucket" = Some (env_value st "BACKUP_BUCKET")
    /\ locals s1 !! "source_bucket"
       = match getpath event bucket_name_path with
         | inr sb => Some sb
         | inl _ => None
         end
    /\ locals s1 !! "object_key"
       = match getpath event bucket_name_path, getpath event object_key_path with
         | inr _, inr k => Some k
         | _, _ => None
         end.
Proof.
  intros Tb Ta He.
  assert (exists frame,
            try_block event (fresh st) = (inl e, set_locals frame (fresh st))
            /\ frame !! "sns_topic_arn" = Some (env_value st "SNS_TOPIC_ARN")
            /\ frame !! "backup_bucket" = Some (env_value st "BACKUP_BUCKET")
            /\ frame !! "source_bucket"
               = match getpath event bucket_name_path with
                 | inr sb => Some sb
                 | inl _ => None
                 end
            /\ frame !! "object_key"
               = match getpath event bucket_name_path, getpath event object_key_path with
                 | inr _, inr k => Some k
                 | _, _ => None
                 end) as (frame & Hrun & Harn & Hbb & Hsb & Hk).
  { unfold try_block, bind at 1. rewrite read_configuration_run.
    change (env_value (fresh st)) with (env_value st).
    rewrite !truthy_env_value, Tb, Ta. unfold bind at 1.
    destruct (extract_file_information_frame event
                (set_locals (config_frame (fresh st)) (fresh st)))
      as (frame & -> & Harn & Hbb & Hsb & Hk).
    rewrite He. exists frame. split; [reflexivity|].
    rewrite Harn, Hbb, Hsb, Hk. unfold config_frame. cbn [locals set_locals fresh].
    change (env_value (set_locals ∅ st)) with (env_value st).
    repeat split;
      repeat (first [rewrite lookup_insert_eq | rewrite lookup_insert_ne by done]);
      rewrite ?lookup_empty; reflexivity. }
  exists (set_locals frame (fresh st)).
  rewrite (lambda_handler_reports event context st e _ (env_value st "SNS_TOPIC_ARN") Hrun)
    by (rewrite ?truthy_env_value; done).
  split; [reflexivity|]. by repeat split.
Qed.

Lemma parsed_frame_bucket st sb k sz t :
  parsed_frame st sb k sz t !! "backup_bucket" = Some (env_value st "BACKUP_BUCKET").
Proof.
  unfold parsed_frame, fields_frame, config_frame.
  rewrite !lookup_insert_ne by done. by rewrite lookup_insert_eq.
Qed.

Lemma parsed_frame_source st sb k sz t :
  parsed_frame st sb k sz t !! "source_bucket" = Some sb.
Proof.
  unfold parsed_frame, fields_frame.
  rewrite !lookup_insert_ne by done. by rewrite lookup_insert_eq.
Qed.

Lemma parsed_frame_key st sb k sz t :
  parsed_frame st sb k sz t !! "object_key" = Some k.
Proof.
  unfold parsed_frame, fields_frame.
  rewrite !lookup_insert_ne by done. by rewrite lookup_insert_eq.
Qed.

Lemma failure_subject_inj (k k' : ErrorKind) :
  failure_subject k = failure_subject k' -> k = k'.
Proof. destruct k, k'; intros Hs; try reflexivity; discriminate Hs. Qed.

(** The message of the catch-all clause, read off the frame. *)
Lemma catch_all_message e arn s1 key sb bb :
  exn_base e = IsOtherException ->
  locals s1 !! "object_key" = key ->
  locals s1 !! "source_bucket" = sb ->
  locals s1 !! "backup_bucket" = Some bb ->
  Message (failure_request e arn s1)
  = failure_message_text (exn_name e) ("Backup operation failed: " +:+ exn_str e)
      (strftime (fst (datetime_now (world s1))))
      (py_str (default (PStr "Unknown") key))
      (py_str (default (PStr "Unknown") sb))
      (py_str bb).
Proof.
  intros Hb Hk Hsb Hbb. unfold failure_request. rewrite Hb, Hk, Hsb, Hbb. reflexivity.
Qed.

End Frames.

Section Context_of_failure.
Context `{Platform}.

(** The notice of the catch-all clause, from what the frame binds. *)
Lemma catch_all_notice_message event st e s1 req res bb :
  CallPublish req res = failure_notice e (env_value st "SNS_TOPIC_ARN") s1 ->
  Subject req = failure_subject StorageOperationError ->
  os_environ st !! "BACKUP_BUCKET" = Some bb ->
  locals s1 !! "backup_bucket" = Some (env_value st "BACKUP_BUCKET") ->
  locals s1 !! "source_bucket"
  = match getpath event bucket_name_path with
    | inr sb => Some sb
    | inl _ => None
    end ->
  locals s1 !! "object_key"
  = match getpath event bucket_name_path, getpath event object_key_path with
    | inr _, inr k => Some k
    | _, _ => None
    end ->
  Message req
  = failure_message_text (exn_name e) ("Backup operation failed: " +:+ exn_str e)
      (strftime (fst (datetime_now (world s1))))
      (shown_object_key event) (shown_source_bucket event) bb.
Proof.
  intros [= -> _] Hsubject Eb Hbb Hsb Hk.
  rewrite failure_request_subject in Hsubject. apply failure_subject_inj in Hsubject.
  assert (exn_base e = IsOtherException) as Hb.
  { unfold classify in Hsubject. by destruct (exn_base e). }
  rewrite (catch_all_message e _ s1 _ _ _ Hb Hk Hsb Hbb).
  rewrite (env_value_is st _ _ Eb). unfold shown_object_key, shown_source_bucket.
  destruct (getpath event bucket_name_path) as [?|sb]; [reflexivity|].
  by destruct (getpath event object_key_path).
Qed.

End Context_of_failure.

(** X6: whenever the handler publishes under the subject of the catch-all
    clause, the message is the failure template filled with the class and
    text of the exception the handler raises, with the object key and the
    source bucket when lines 61-62 had bound them and the sentinel "Unknown"
    for each one that was not yet bound, and with the bucket that
    BACKUP_BUCKET names: the default "Not configured" of line 166 is never
    used. *)
Theorem catch_all_notice_shows_what_was_bound
    `{Platform} {Ctx} (event : pyval) (context : Ctx) (st : State) :
  exists new,
    calls (snd (lambda_handler event context st)) = calls st ++ new
    /\ forall req res,
         In (CallPublish req res) new ->
         Subject req = failure_subject StorageOperationError ->
         exists e ts bb,
           fst (lambda_handler event context st) = inl e
           /\ os_environ st !! "BACKUP_BUCKET" = Some bb /\ bb <> ""
           /\ Message req
              = failure_message_text (exn_name e)
                  ("Backup operation failed: " +:+ exn_str e) ts
                  (shown_object_key event) (shown_source_bucket event) bb.
Proof.
  destruct (lambda_handler_runs event context st) as (new & Hnew & _ & Hrun).
  exists new. split; [exact Hnew|]. intros req res Hin Hsubject.
  assert (forall sb k sz t s1,
            event_fields event = inr (sb, k, sz, t) ->
            locals s1 = parsed_frame (fresh st) sb k sz t ->
            locals s1 !! "backup_bucket" = Some (env_value st "BACKUP_BUCKET")
            /\ locals s1 !! "source_bucket"
               = match getpath event bucket_name_path with
                 | inr sb => Some sb
                 | inl _ => None
                 end
            /\ locals s1 !! "object_key"
               = match getpath event bucket_name_path, getpath event object_key_path with
                 | inr _, inr k => Some k
                 | _, _ => None
                 end) as Hparsed.
  { intros sb k sz t s1 He ->.
    destruct (event_fields_resolved _ _ _ _ _ He) as (-> & -> & _ & _).
    split; [exact (parsed_frame_bucket (fresh st) _ _ _ _)|].
    split; [apply parsed_frame_source | apply parsed_frame_key]. }
  revert Hnew.
  destruct Hrun as [Ta|s1 Tb Ta _|e s1 Tb Ta He _ _|sb k sz t e s1 Tb Ta He Hs _ Hl
                   |sb k sz t kb e s1 Tb Ta He Hs creq Hc Hl
                   |sb k sz t kb c w1 txt mb e s1 Tb Ta He Hs Hmb Htxt creq Hc preq Hp Hl
                   |sb k sz t kb c w1 txt mb r0 w2 Tb Ta He Hs Hmb Htxt creq Hc ts preq Hp];
    intros Hnew; cbn [In] in Hin.
  - destruct Hin.
  - destruct Hin as [Hin|[]]. exfalso. symmetry in Hin.
    injection Hin as -> _. rewrite failure_request_subject in Hsubject.
    apply failure_subject_inj in Hsubject. discriminate Hsubject.
  - destruct (lambda_handler_bad_event_frame event context st e Tb Ta He)
      as (s1' & Hnew' & Hbb & Hsb & Hk).
    rewrite Hnew in Hnew'. apply app_inv_head in Hnew'.
    assert (failure_notice e (env_value st "SNS_TOPIC_ARN") s1
            = failure_notice e (env_value st "SNS_TOPIC_ARN") s1') as Hnotice
      by congruence.
    destruct Hin as [Hin|[]]. rewrite Hnotice in Hin. symmetry in Hin.
    destruct (is_set_value _ _ Tb) as (bb & Eb & Hne).
    eexists e, _, bb. split; [reflexivity|]. split; [exact Eb|]. split; [exact Hne|].
    by apply (catch_all_notice_message event st e s1' req res bb).
  - destruct Hin as [Hin|[]]. symmetry in Hin.
    destruct (Hparsed _ _ _ _ _ He Hl) as (Hbb & Hsb & Hk).
    destruct (is_set_value _ _ Tb) as (bb & Eb & Hne).
    eexists e, _, bb. split; [reflexivity|]. split; [exact Eb|]. split; [exact Hne|].
    by apply (catch_all_notice_message event st e s1 req res bb).
  - destruct Hin as [Hin|[Hin|[]]]; [discriminate Hin|]. symmetry in Hin.
    destruct (Hparsed _ _ _ _ _ He Hl) as (Hbb & Hsb & Hk).
    destruct (is_set_value _ _ Tb) as (bb & Eb & Hne).
    eexists e, _, bb. split; [reflexivity|]. split; [exact Eb|]. split; [exact Hne|].
    by apply (catch_all_notice_message event st e s1 req res bb).
  - destruct Hin as [Hin|[Hin|[Hin|[]]]]; [discriminate Hin| |].
    { exfalso. injection Hin as <- _. discriminate Hsubject. }
    symmetry in Hin.
    destruct (Hparsed _ _ _ _ _ He Hl) as (Hbb & Hsb & Hk).
    destruct (is_set_value _ _ Tb) as (bb & Eb & Hne).
    eexists e, _, bb. split; [reflexivity|]. split; [exact Eb|]. split; [exact Hne|].
    by apply (catch_all_notice_message event st e s1 req res bb).
  - destruct Hin as [Hin|[Hin|[]]]; [discriminate Hin|].
    exfalso. injection Hin as <- _. discriminate Hsubject.
Qed.

(** ** The sizes that can be divided *)

Section Float_range.
Local Open Scope N_scope.

(** Rounding to 53 bits reaches 2^53 from half a unit below it on: the tie
    goes up, to the even mantissa. *)
Lemma round_half_even_reaches_2_53 (a d : N) :
  0 < d -> a < 2 ^ 53 * d ->
  (2 ^ 53 <= round_half_even a d <-> (2 ^ 54 - 1) * d <= 2 * a).
Proof.
  intros Hd Ha. unfold round_half_even.
  pose proof (N.div_mod a d ltac:(lia)) as Hdm.
  pose proof (N.mod_lt a d ltac:(lia)) as Hlt.
  assert (a / d < 2 ^ 53) as Hq by (apply N.Div0.div_lt_upper_bound; lia).
  set (q := a / d) in *. set (r := a mod d) in *. clearbody q r.
  change (2 ^ 53) with 9007199254740992 in *.
  change (2 ^ 54 - 1) with 18014398509481983.
  destruct (N.eq_dec q 9007199254740991) as [->|Hne].
  - change (N.even 9007199254740991) with false.
    destruct (N.compare_spec (2 * r) d); lia.
  - assert (d * q <= d * 9007199254740990) by (apply N.mul_le_mono_l; lia).
    destruct (N.compare_spec (2 * r) d); [destruct (N.even q)|..]; lia.
Qed.

(** The rounded mantissa of a number of more than 53 bits has 53 bits, or is
    2^53. *)
Lemma round_half_even_53_bits (a d : N) :
  0 < d -> 2 ^ 53 * d <= 2 * a -> a < 2 ^ 53 * d ->
  2 ^ 52 <= round_half_even a d <= 2 ^ 53.
Proof.
  intros Hd Hlo Hhi.
  destruct (round_half_even_nearest a d Hd) as [H1 H2].
  set (m := round_half_even a d) in *. clearbody m.
  change (2 ^ 53) with 9007199254740992 in *.
  change (2 ^ 52) with 4503599627370496.
  split.
  - destruct (N.le_gt_cases 4503599627370496 m) as [|Hlt]; [done|].
    assert (m * d <= 4503599627370495 * d) by (apply N.mul_le_mono_r; lia). lia.
  - destruct (N.le_gt_cases m 9007199254740992) as [|Hgt]; [done|].
    assert (9007199254740993 * d <= m * d) by (apply N.mul_le_mono_r; lia). lia.
Qed.

(** The true division of an [int] by [2**k] overflows exactly from half a
    unit in the last place below 2^1024 * 2^k on. *)
Lemma int_truediv_pow2_overflows (n : Z) (k : N) :
  (exists e, int_truediv_pow2 n k = inl e) <-> (2 ^ 54 - 1) * 2 ^ (970 + k) <= Z.abs_N n.
Proof.
  unfold int_truediv_pow2.
  pose proof (N.size_gt (Z.abs_N n)) as Hgt.
  pose proof (N.size_le (Z.abs_N n)) as Hle.
  rewrite N.succ_double_spec in Hle.
  set (a := Z.abs_N n) in *. set (b := N.size a) in *. clearbody a b.
  assert (0 < 2 ^ (970 + k)) as He by (apply N.neq_0_lt_0, N.pow_nonzero; lia).
  destruct (N.leb_spec b 53) as [Hb|Hb].
  { assert (2 ^ b <= 2 ^ 53) by (apply N.pow_le_mono_r; lia).
    change (2 ^ 53) with 9007199254740992 in *.
    change (2 ^ 54 - 1) with 18014398509481983.
    split; [intros [e [=]]|]. intros Hth. exfalso. nia. }
  assert (2 ^ b = 2 ^ 53 * 2 ^ (b - 53)) as Hpow.
  { rewrite <- N.pow_add_r. f_equal. lia. }
  assert (0 < 2 ^ (b - 53)) as Hd by (apply N.neq_0_lt_0, N.pow_nonzero; lia).
  set (d := 2 ^ (b - 53)) in *.
  assert (2 ^ 53 * d <= 2 * a) as Hlo.
  { rewrite <- Hpow. change (2 ^ 53) with 9007199254740992 in *. lia. }
  assert (a < 2 ^ 53 * d) as Hhi by (by rewrite <- Hpow).
  pose proof (round_half_even_53_bits a d Hd Hlo Hhi) as [Hm1 Hm2].
  pose proof (round_half_even_reaches_2_53 a d Hd Hhi) as Hreach.
  set (m := round_half_even a d) in *. clearbody m.
  assert (2 ^ (1024 + k) = 2 ^ 54 * 2 ^ (970 + k)) as Hpt.
  { rewrite <- N.pow_add_r. f_equal. lia. }
  rewrite Hpt. set (E := 2 ^ (970 + k)) in *.
  destruct (N.lt_trichotomy b (1024 + k)) as [Hlt|[Heq|Hgt']].
  - (* fewer bits than 2^1024 * 2^k: the quotient is below 2^1024 *)
    assert (d <= E) as HdE by (subst d E; apply N.pow_le_mono_r; lia).
    assert (m * d <= 2 ^ 53 * d) by (by apply N.mul_le_mono_r).
    change (2 ^ 53) with 9007199254740992 in *.
    change (2 ^ 54) with 18014398509481984 in *.
    change (2 ^ 54 - 1) with 18014398509481983.
    destruct (N.leb_spec (18014398509481984 * E) (m * d)); [lia|].
    split; [intros [e [=]]|]. lia.
  - (* one bit fewer: the last step of the rounding decides *)
    assert (d = 2 * E) as HdE.
    { subst d E. change 2 with (2 ^ 1) at 2. rewrite <- N.pow_add_r. f_equal. lia. }
    change (2 ^ 53) with 9007199254740992 in *.
    change (2 ^ 54) with 18014398509481984 in *.
    change (2 ^ 54 - 1) with 18014398509481983 in *.
    destruct (N.le_gt_cases 9007199254740992 m) as [Hm|Hm].
    + assert (9007199254740992 * d <= m * d) by (by apply N.mul_le_mono_r).
      destruct (N.leb_spec (18014398509481984 * E) (m * d)); [|lia].
      split; [|by eauto]. intros _. apply Hreach in Hm. lia.
    + assert (m * d <= 9007199254740991 * d) by (apply N.mul_le_mono_r; lia).
      destruct (N.leb_spec (18014398509481984 * E) (m * d)); [lia|].
      split; [intros [e [=]]|]. intros Hth. exfalso.
      assert (9007199254740992 <= m) by (apply Hreach; lia). lia.
  - (* as many bits or more: the quotient is 2^1024 or more *)
    assert (2 ^ 2 * E <= d) as HdE.
    { subst d E. rewrite <- N.pow_add_r. apply N.pow_le_mono_r; lia. }
    change (2 ^ 2) with 4 in HdE.
    assert (2 ^ 52 * d <= m * d) by (by apply N.mul_le_mono_r).
    change (2 ^ 53) with 9007199254740992 in *.
    change (2 ^ 52) with 4503599627370496 in *.
    change (2 ^ 54) with 18014398509481984 in *.
    change (2 ^ 54 - 1) with 18014398509481983.
    destruct (N.leb_spec (18014398509481984 * E) (m * d)); [|lia].
    split; [|by eauto]. intros _. lia.
Qed.

End Float_range.

Lemma float_range_bound_abs (n : Z) (k : N) :
  ((2 ^ 54 - 1) * 2 ^ (970 + k) <= Z.abs_N n)%N <-> float_range_bound k <= Z.abs n.
Proof.
  unfold float_range_bound. rewrite <- (N2Z.inj_abs_N n).
  rewrite N2Z.inj_le, N2Z.inj_mul, N2Z.inj_pow, N2Z.inj_add. reflexivity.
Qed.

Lemma int_truediv_pow2_raises (n : Z) (k : N) (e : PyExn) :
  int_truediv_pow2 n k = inl e ->
  e = OverflowError "integer division result too large for a float".
Proof.
  unfold int_truediv_pow2. destruct (_ <=? 53)%N; [discriminate|].
  destruct (_ <=? _)%N; [|discriminate]. by intros [= <-].
Qed.


(** X7: the division of the size by a power of two, [file_size / 1024] of
    line 69 and [file_size / (1024 * 1024)] of line 209, raises a TypeError
    exactly on a size that is not a number, and on an [int] an OverflowError
    exactly from the magnitude (2^54 - 1) * 2^970 * 2^k on, where the
    quotient rounds to 2^1024; a [bool] and a [float] are always divided.
    Either exception is one of the catch-all clause. *)
Theorem size_is_divided_exactly_within_the_float_range (file_size : pyval) (k : N) :
  match truediv_pow2 file_size k with
  | inr _ =>
      is_number file_size = true
      /\ forall n, file_size = PInt n -> Z.abs n < float_range_bound k
  | inl e =>
      classify e = StorageOperationError
      /\ if is_number file_size
         then exn_name e = "OverflowError"
              /\ exists n, file_size = PInt n /\ float_range_bound k <= Z.abs n
         else exn_name e = "TypeError"
  end.
Proof.
  destruct file_size as [| b | n | x | s | l | d ]; try (by repeat split).
  - destruct b; by repeat split.
  - cbn [truediv_pow2 is_number].
    pose proof (int_truediv_pow2_overflows n k) as Hiff.
    rewrite float_range_bound_abs in Hiff.
    destruct (int_truediv_pow2 n k) as [e|x] eqn:E.
    + rewrite (int_truediv_pow2_raises _ _ _ E). repeat split.
      exists n. split; [reflexivity|]. apply Hiff. by exists e.
    + split; [reflexivity|]. intros ? [= <-].
      destruct (Z.lt_ge_cases (Z.abs n) (float_range_bound k)) as [|Hge]; [done|].
      apply Hiff in Hge as [? [=]].
Qed.

(** ** Line 69 decides whether the copy is attempted *)


(** X9: a copy that S3 answered is always announced: the next call is the
    publish under the success subject, made once the clock has been read in
    the world the copy left.  Building the success message, lines 93-96,
    never raises in the handler, since line 69 has already divided and
    printed the size. *)
Theorem answered_copy_is_always_announced
    `{Platform} {Ctx} (event : pyval) (context : Ctx) (st : State) :
  exists new,
    calls (snd (lambda_handler event context st)) = calls st ++ new
    /\ forall creq copied,
         In (CallCopyObject creq (inr copied)) new ->
         exists preq answer rest,
           new = CallCopyObject creq (inr copied) :: CallPublish preq answer :: rest
           /\ Subject preq = success_subject
           /\ answer = fst (sns_publish preq
                              (snd (datetime_now (snd (s3_copy_object creq (world st)))))).
Proof.
  destruct (lambda_handler_runs event context st) as (new & Hnew & _ & Hrun).
  exists new. split; [exact Hnew|]. intros creq' copied Hin.
  destruct Hrun as [Ta|s1 Tb Ta _|e s1 Tb Ta He _ _|sb k sz t e s1 Tb Ta He Hs _ Hl
                   |sb k sz t kb e s1 Tb Ta He Hs creq Hc Hl
                   |sb k sz t kb c w1 txt mb e s1 Tb Ta He Hs Hmb Htxt creq Hc preq Hp Hl
                   |sb k sz t kb c w1 txt mb r0 w2 Tb Ta He Hs Hmb Htxt creq Hc ts preq Hp];
    unfold failure_notice in Hin; cbn [In] in Hin;
    repeat match goal with
           | H : _ \/ _ |- _ => destruct H as [H|H]
           | H : False |- _ => destruct H
           | H : CallPublish _ _ = CallCopyObject _ _ |- _ => discriminate H
           | H : CallCopyObject _ (inl _) = CallCopyObject _ (inr _) |- _ => discriminate H
           end.
  - injection Hin as <- <-. eexists _, _, _. split; [reflexivity|]. split; [reflexivity|].
    rewrite Hc. cbn [snd]. by rewrite Hp.
  - injection Hin as <- <-. eexists _, _, _. split; [reflexivity|]. split; [reflexivity|].
    rewrite Hc. cbn [snd]. by rewrite Hp.
Qed.



(** ** The texts of the failure notifications *)

(** The fields of the failure message, each under its label. *)
Lemma failure_message_fields error_type error_msg ts key sb bb :
  let message := failure_message_text error_type error_msg ts key sb bb in
  contains message ("Error Type: " +:+ error_type)
  /\ contains message ("Error Message: " +:+ error_msg)
  /\ contains message ("Timestamp: " +:+ ts)
  /\ contains message ("File Name: " +:+ key)
  /\ contains message ("Source Bucket: " +:+ sb)
  /\ contains message ("Backup Bucket: " +:+ bb).
Proof.
  cbv zeta. unfold failure_message_text. repeat split.
  - match goal with
    | |- contains (?l1 +:+ error_type +:+ ?rest) (?label +:+ _) =>
        cut_literal l1 label ltac:(fun b _ => contains_between b rest)
    end.
  - match goal with
    | |- contains (?l1 +:+ error_type +:+ ?l2 +:+ error_msg +:+ ?rest) (?label +:+ _) =>
        cut_literal l2 label ltac:(fun b _ =>
          contains_between (l1 +:+ error_type +:+ b) rest)
    end.
  - match goal with
    | |- contains (?l1 +:+ error_type +:+ ?l2 +:+ error_msg +:+ ?l3 +:+ ts +:+ ?rest)
           (?label +:+ _) =>
        cut_literal l3 label ltac:(fun b _ =>
          contains_between (l1 +:+ error_type +:+ l2 +:+ error_msg +:+ b) rest)
    end.
  - match goal with
    | |- contains (?l1 +:+ error_type +:+ ?l2 +:+ error_msg +:+ ?l3 +:+ ts +:+ ?l4 +:+ key
                   +:+ ?rest) (?label +:+ _) =>
        cut_literal l4 label ltac:(fun b _ =>
          contains_between (l1 +:+ error_type +:+ l2 +:+ error_msg +:+ l3 +:+ ts +:+ b) rest)
    end.
  - match goal with
    | |- contains (?l1 +:+ error_type +:+ ?l2 +:+ error_msg +:+ ?l3 +:+ ts +:+ ?l4 +:+ key
                   +:+ ?l5 +:+ sb +:+ ?rest) (?label +:+ _) =>
        cut_literal l5 label ltac:(fun b _ =>
          contains_between
            (l1 +:+ error_type +:+ l2 +:+ error_msg +:+ l3 +:+ ts +:+ l4 +:+ key +:+ b) rest)
    end.
  - match goal with
    | |- contains (?l1 +:+ error_type +:+ ?l2 +:+ error_msg +:+ ?l3 +:+ ts +:+ ?l4 +:+ key
                   +:+ ?l5 +:+ sb +:+ ?l6 +:+ bb +:+ ?rest) (?label +:+ _) =>
        cut_literal l6 label ltac:(fun b _ =>
          contains_between
            (l1 +:+ error_type +:+ l2 +:+ error_msg +:+ l3 +:+ ts +:+ l4 +:+ key +:+ l5
             +:+ sb +:+ b) rest)
    end.
Qed.

(** The fields of the short notification, each under its label. *)
Lemma error_notification_fields category error_msg ts :
  let message := error_notification_text category error_msg ts in
  contains message ("Category: " +:+ category)
  /\ contains message ("Error: " +:+ error_msg)
  /\ contains message ("Timestamp: " +:+ ts).
Proof.
  cbv zeta. unfold error_notification_text. repeat split.
  - match goal with
    | |- contains (?l1 +:+ category +:+ ?rest) (?label +:+ _) =>
        cut_literal l1 label ltac:(fun b _ => contains_between b rest)
    end.
  - match goal with
    | |- contains (?l1 +:+ category +:+ ?l2 +:+ error_msg +:+ ?rest) (?label +:+ _) =>
        cut_literal l2 label ltac:(fun b _ =>
          contains_between (l1 +:+ category +:+ b) rest)
    end.
  - match goal with
    | |- contains (?l1 +:+ category +:+ ?l2 +:+ error_msg +:+ ?l3 +:+ ts +:+ ?rest)
           (?label +:+ _) =>
        cut_literal l3 label ltac:(fun b _ =>
          contains_between (l1 +:+ category +:+ l2 +:+ error_msg +:+ b) rest)
    end.
Qed.

(** X11: [format_failure_message] always returns: it reads the clock once,
    calls no client and touches neither the environment nor the frame, and
    its message shows, each under its label, the class and the text of the
    error, the time it read, and the object key, source bucket and backup
    bucket it was given. *)
Theorem format_failure_message_shows_its_arguments
    `{Platform} (error_msg error_type : string)
    (object_key source_bucket backup_bucket : pyval) (st : State) :
  exists message,
    format_failure_message error_msg error_type object_key source_bucket backup_bucket st
    = (inr message, set_world (snd (datetime_now (world st))) st)
    /\ contains message ("Error Type: " +:+ error_type)
    /\ contains message ("Error Message: " +:+ error_msg)
    /\ contains message ("Timestamp: " +:+ strftime (fst (datetime_now (world st))))
    /\ contains message ("File Name: " +:+ py_str object_key)
    /\ contains message ("Source Bucket: " +:+ py_str source_bucket)
    /\ contains message ("Backup Bucket: " +:+ py_str backup_bucket).
Proof.
  exists (failure_message_text error_type error_msg
            (strftime (fst (datetime_now (world st))))
            (py_str object_key) (py_str source_bucket) (py_str backup_bucket)).
  split.
  - unfold format_failure_message, bind, now_text, ret.
    destruct (datetime_now (world st)) as [dt w1]. cbn [fst snd]. reflexivity.
  - apply failure_message_fields.
Qed.

(** X12: with a usable topic, the one publish of
    [send_failure_notification] has the subject line that ends in the
    category, and a message that shows the category, the error and the time
    read from the clock just before the call; the world afterwards is the one
    the publish left, raised or not, and the environment and the frame are
    untouched. *)
Theorem send_failure_notification_says_what_it_was_given
    `{Platform} (sns_topic_arn : pyval) (error_msg error_category : string) (st : State) :
  truthy sns_topic_arn = true ->
  exists req st',
    send_failure_notification sns_topic_arn error_msg error_category st = (inr tt, st')
    /\ calls st' = calls st
                   ++ [CallPublish req (fst (sns_publish req (snd (datetime_now (world st)))))]
    /\ world st' = snd (sns_publish req (snd (datetime_now (world st))))
    /\ os_environ st' = os_environ st
    /\ locals st' = locals st
    /\ TopicArn req = sns_topic_arn
    /\ Subject req = "AWS Backup System Error - " +:+ error_category
    /\ contains (Message req) ("Category: " +:+ error_category)
    /\ contains (Message req) ("Error: " +:+ error_msg)
    /\ contains (Message req)
         ("Timestamp: " +:+ strftime (fst (datetime_now (world st)))).
Proof.
  intros Ht. rewrite send_failure_notification_run by exact Ht. cbv zeta.
  eexists _, _. split; [reflexivity|].
  split; [reflexivity|]. split; [reflexivity|]. split; [reflexivity|].
  split; [reflexivity|]. split; [reflexivity|]. split; [reflexivity|].
  cbn [Message]. apply error_notification_fields.
Qed.

(** A notification of a malformed event, to a topic whose endpoint is down. *)
Lemma send_failure_notification_says_what_it_was_given_witness :
  exists req st',
    send_failure_notification (H := scripted copy_ok publish_down)
      (PStr "topic1") "missing field" "Invalid Event Data"
      (scripted_state copy_ok publish_down ∅) = (inr tt, st')
    /\ calls st' = [CallPublish req (inl endpoint_down)]
    /\ Subject req = "AWS Backup System Error - Invalid Event Data".
Proof.
  edestruct (send_failure_notification_says_what_it_was_given
               (H := scripted copy_ok publish_down)
               (PStr "topic1") "missing field" "Invalid Event Data"
               (scripted_state copy_ok publish_down ∅))
    as (req & st' & Hrun & Hcalls & _ & _ & _ & _ & Hsubject & _).
  - reflexivity.
  - exists req, st'. split; [exact Hrun|]. split; [|exact Hsubject].
    rewrite Hcalls. reflexivity.
Defined.

(** ** Subjects and causes *)





Section Categories.
Context `{Platform}.

(** The short notification of the first two clauses, read off its subject. *)
Lemma categorised_notice e arn s1 req res :
  CallPublish req res = failure_notice e arn s1 ->
  (Subject req = failure_subject MalformedEvent ->
   exn_base e = IsKeyError
   /\ Message req
      = error_notification_text "Invalid Event Data"
          ("Invalid event structure - missing required field: " +:+ exn_str e)
          (strftime (fst (datetime_now (world s1)))))
  /\ (Subject req = failure_subject ConfigurationError ->
      exn_base e = IsValueError
      /\ Message req
         = error_notification_text "Configuration Error"
             ("Configuration error: " +:+ exn_str e)
             (strftime (fst (datetime_now (world s1))))).
Proof.
  intros [= -> _]. unfold failure_request.
  destruct (exn_base e); cbn [Subject Message]; split; intros Hs;
    try discriminate Hs; by split.
Qed.

End Categories.

(** X13: whenever the handler publishes under one of the two subjects that
    end in a category, the message is the short template filled with that
    category, with the prefix of the clause followed by the text of the
    exception the handler raises, and with a time: under 'Invalid Event
    Data' the exception is a KeyError, under 'Configuration Error' a
    ValueError, whichever statement raised it. *)
Theorem categorised_notice_carries_the_exception
    `{Platform} {Ctx} (event : pyval) (context : Ctx) (st : State) :
  exists new,
    calls (snd (lambda_handler event context st)) = calls st ++ new
    /\ forall req res,
         In (CallPublish req res) new ->
         (Subject req = "AWS Backup System Error - Invalid Event Data" ->
          exists e ts,
            fst (lambda_handler event context st) = inl e
            /\ exn_base e = IsKeyError
            /\ Message req
               = error_notification_text "Invalid Event Data"
                   ("Invalid event structure - missing required field: " +:+ exn_str e) ts)
         /\ (Subject req = "AWS Backup System Error - Configuration Error" ->
             exists e ts,
               fst (lambda_handler event context st) = inl e
               /\ exn_base e = IsValueError
               /\ Message req
                  = error_notification_text "Configuration Error"
                      ("Configuration error: " +:+ exn_str e) ts).
Proof.
  destruct (lambda_handler_runs event context st) as (new & Hnew & _ & Hrun).
  exists new. split; [exact Hnew|]. intros req res Hin.
  assert (forall e s1,
            fst (lambda_handler event context st) = inl e ->
            failure_notice e (env_value st "SNS_TOPIC_ARN") s1 = CallPublish req res ->
            (Subject req = "AWS Backup System Error - Invalid Event Data" ->
             exists e ts,
               fst (lambda_handler event context st) = inl e
               /\ exn_base e = IsKeyError
               /\ Message req
                  = error_notification_text "Invalid Event Data"
                      ("Invalid event structure - missing required field: " +:+ exn_str e)
                      ts)
            /\ (Subject req = "AWS Backup System Error - Configuration Error" ->
                exists e ts,
                  fst (lambda_handler event context st) = inl e
                  /\ exn_base e = IsValueError
                  /\ Message req
                     = error_notification_text "Configuration Error"
                         ("Configuration error: " +:+ exn_str e) ts)) as Hnotice.
  { intros e s1 Hraise Heq. symmetry in Heq.
    destruct (categorised_notice _ _ _ _ _ Heq) as [Hk Hv].
    split; intros Hs.
    - destruct (Hk Hs) as [Hb Hm]. by exists e, (strftime (fst (datetime_now (world s1)))).
    - destruct (Hv Hs) as [Hb Hm]. by exists e, (strftime (fst (datetime_now (world s1)))). }
  revert Hnotice Hrun.
  generalize (fst (lambda_handler event context st)). intros r Hnotice Hrun.
  destruct Hrun as [Ta|s1 Tb Ta _|e s1 Tb Ta He _ _|sb k sz t e s1 Tb Ta He Hs _ Hl
                   |sb k sz t kb e s1 Tb Ta He Hs creq Hc Hl
                   |sb k sz t kb c w1 txt mb e s1 Tb Ta He Hs Hmb Htxt creq Hc preq Hp Hl
                   |sb k sz t kb c w1 txt mb r0 w2 Tb Ta He Hs Hmb Htxt creq Hc ts preq Hp];
    cbn [In] in Hin;
    repeat match goal with
           | H : _ \/ _ |- _ => destruct H as [H|H]
           | H : False |- _ => destruct H
           | H : CallCopyObject _ _ = CallPublish _ _ |- _ => discriminate H
           | H : failure_notice _ _ _ = CallPublish _ _ |- _ =>
               by apply (Hnotice _ _ eq_refl) in H
           end.
  - injection Hin as <- _. split; intros Hsubject; exfalso.
    + exact (failure_subject_not_success MalformedEvent (eq_sym Hsubject)).
    + exact (failure_subject_not_success ConfigurationError (eq_sym Hsubject)).
  - injection Hin as <- _. split; intros Hsubject; exfalso.
    + exact (failure_subject_not_success MalformedEvent (eq_sym Hsubject)).
    + exact (failure_subject_not_success ConfigurationError (eq_sym Hsubject)).
Qed.


(** ** The size in the success message *)

(** X15: [format_success_message] raises exactly when the division of line
    209 raises, with that exception: once the size has been divided, the
    format with thousands separators of line 217 returns, and the message is
    the template filled with the arguments.  The state is untouched either
    way. *)
Theorem format_success_message_raises_only_from_the_division
    `{Platform} (object_key file_size source_bucket backup_bucket : pyval)
    (timestamp : string) (st : State) :
  let call := format_success_message object_key file_size source_bucket backup_bucket
                timestamp in
  snd (call st) = st
  /\ match truediv_pow2 file_size 20 with
     | inl e => fst (call st) = inl e
     | inr megabytes =>
         exists size_text,
           format_grouped file_size = inr size_text
           /\ fst (call st)
              = inr (success_message_text (py_str object_key) size_text
                       (format_2f megabytes) (py_str source_bucket)
                       (py_str backup_bucket) timestamp)
     end.
Proof.
  cbv zeta. run_monad.
  destruct (truediv_pow2 file_size 20) as [e|mb] eqn:Hmb; [by split|].
  assert (exists txt, format_grouped file_size = inr txt) as [txt Htxt].
  { destruct file_size; cbn [truediv_pow2 format_grouped] in *; try discriminate; eauto. }
  rewrite Htxt. split; [reflexivity|]. by exists txt.
Qed.

(** X16: the thousands separators of line 217 only add commas: taking the
    commas out of [format(n, ',')] gives [str(n)] back, sign included. *)
Theorem grouped_size_without_commas_is_the_size (n : Z) :
  remove_commas (format_int_grouped n) = int_str n.
Proof. apply remove_commas_grouped. Qed.

(** X17: for a size below 2^53 the success message shows the megabytes as
    the hundredths nearest to size / 2^20: the number printed, [h] / 100,
    differs from the exact quotient by half a hundredth at most. *)
Theorem megabytes_are_the_nearest_hundredth
    `{Platform} (object_key source_bucket backup_bucket : pyval) (timestamp : string)
    (file_size : Z) (st : State) :
  Z.abs file_size < 2 ^ 53 ->
  exists message h,
    fst (format_success_message object_key (PInt file_size) source_bucket backup_bucket
           timestamp st) = inr message
    /\ contains message
         ("File Size: " +:+ format_int_grouped file_size +:+ " bytes ("
          +:+ (sign_prefix (file_size <? 0) +:+ decimal (h / 100) +:+ "."
               +:+ two_digits (h mod 100)) +:+ " MB)")
    /\ 2 * Z.abs (Z.of_N h * 2 ^ 20 - 100 * Z.abs file_size) <= 2 ^ 20.
Proof.
  intros Hn.
  exists (success_message_text (py_str object_key) (format_int_grouped file_size)
            (format_2f (FFinite (file_size <? 0) (Z.abs_N file_size) (-20)))
            (py_str source_bucket) (py_str backup_bucket) timestamp),
         (round_half_even (Z.abs_N file_size * 100) (2 ^ 20)).
  split.
  { run_monad. cbn [truediv_pow2 format_grouped].
    by rewrite (megabytes_of_small_size _ Hn). }
  split.
  { rewrite format_2f_megabytes. cbv zeta. apply success_message_fields. }
  destruct (round_half_even_nearest (Z.abs_N file_size * 100) (2 ^ 20) ltac:(done))
    as [H1 H2].
  set (h := round_half_even _ _) in *. clearbody h.
  rewrite <- (N2Z.inj_abs_N file_size).
  change (2 ^ 20)%N with 1048576%N in *. change (2 ^ 20) with 1048576.
  lia.
Qed.

(** A size of 1.5 megabytes and a bit. *)
Lemma megabytes_are_the_nearest_hundredth_witness :
  exists message,
    fst (format_success_message (H := scripted copy_ok publish_ok)
           (PStr "a.txt") (PInt 1577058) (PStr "src") (PStr "dst")
           "2024-01-01 00:00:01 UTC" (scripted_state copy_ok publish_ok ∅)) = inr message.
Proof.
  edestruct (megabytes_are_the_nearest_hundredth (H := scripted copy_ok publish_ok)
               (PStr "a.txt") (PStr "src") (PStr "dst") "2024-01-01 00:00:01 UTC"
               1577058 (scripted_state copy_ok publish_ok ∅))
    as (message & h & Hmessage & _).
  - reflexivity.
  - exists message. exact Hmessage.
Defined.

(** ** The same copy on every run *)

Section Retry.
Context `{Platform}.

Lemma handler_run_copy_requests event st r new :
  handler_run event st r new -> copy_requests new = planned_copies event st.
Proof.
  unfold planned_copies.
  destruct 1 as [Ta|s1 Tb Ta _|e s1 Tb Ta He _ _|sb k sz t e s1 Tb Ta He Hs _ Hl
                |sb k sz t kb e s1 Tb Ta He Hs creq Hc Hl
                |sb k sz t kb c w1 txt mb e s1 Tb Ta He Hs Hmb Htxt creq Hc preq Hp Hl
                |sb k sz t kb c w1 txt mb r0 w2 Tb Ta He Hs Hmb Htxt creq Hc ts preq Hp];
    unfold failure_notice; cbn [copy_requests flat_map app];
    rewrite ?Ta, ?Tb, ?andb_false_r, ?He, ?Hs; reflexivity.
Qed.

Lemma planned_copies_same event st st' :
  os_environ st' = os_environ st -> planned_copies event st' = planned_copies event st.
Proof.
  intros Henv. unfold planned_copies.
  by rewrite Henv, (env_value_same st st' "BACKUP_BUCKET" Henv).
Qed.

End Retry.

(** X18: the copy the handler asks for depends on the event and on the
    environment only: two runs on the same event with the same environment,
    whatever the world, the frame and the calls made before, such as a run
    and its retry, make the same copy requests. *)
Theorem copy_request_is_the_same_on_every_run
    `{Platform} {Ctx} (event : pyval) (context context' : Ctx) (st st' : State) :
  os_environ st' = os_environ st ->
  exists new new',
    calls (snd (lambda_handler event context st)) = calls st ++ new
    /\ calls (snd (lambda_handler event context' st')) = calls st' ++ new'
    /\ copy_requests new' = copy_requests new.
Proof.
  intros Henv.
  destruct (lambda_handler_runs event context st) as (new & Hnew & _ & Hrun).
  destruct (lambda_handler_runs event context' st') as (new' & Hnew' & _ & Hrun').
  exists new, new'. split; [exact Hnew|]. split; [exact Hnew'|].
  rewrite (handler_run_copy_requests _ _ _ _ Hrun),
    (handler_run_copy_requests _ _ _ _ Hrun').
  by apply planned_copies_same.
Qed.

(** The upload and its retry, one second later, after a copy that S3
    refused. *)
Lemma copy_request_is_the_same_on_every_run_witness :
  exists new new',
    calls (snd (lambda_handler (H := scripted copy_denied publish_ok) upload tt
                  (scripted_state copy_denied publish_ok (environ_of "dst" "topic1"))))
    = new
    /\ calls (snd (lambda_handler (H := scripted copy_denied publish_ok) upload tt
                     (snd (lambda_handler (H := scripted copy_denied publish_ok) upload tt
                             (scripted_state copy_denied publish_ok
                                (environ_of "dst" "topic1"))))))
       = new ++ new'
    /\ copy_requests new' = copy_requests new.
Proof.
  edestruct (copy_request_is_the_same_on_every_run (H := scripted copy_denied publish_ok)
               upload tt tt
               (scripted_state copy_denied publish_ok (environ_of "dst" "topic1"))
               (snd (lambda_handler (H := scripted copy_denied publish_ok) upload tt
                       (scripted_state copy_denied publish_ok
                          (environ_of "dst" "topic1")))))
    as (new & new' & Hnew & Hnew' & Hsame).
  - vm_compute. reflexivity.
  - exists new, new'. split; [exact Hnew|]. split; [|exact Hsame].
    rewrite Hnew'. f_equal. exact Hnew.
Defined.

(** ** A text of the event that cannot be printed *)




(** ** An event that cannot be read *)


